(** * FinanceAssistant: the analysis, retrieval and scraping agents

    A shallow embedding of [src/analysis_agent.py], [src/retriever_agent.py]
    and [src/scraping_agent.py], with the properties the specification states
    about them, and of the code around them: the quote provider of
    [src/analysis_agent.py], the agent of [src/api_agent.py] and
    [src/orchestrator.py].

    Conventions.
    - Python exceptions are values of [exn]; a call that may raise returns a
      [res], and [x <- c ;; k] is sequencing that stops at the first raise.
    - A numpy [float64] is modelled by [float64] below: the IEEE special
      values are kept ([NaN], the two infinities) and a finite value is a
      real number, so arithmetic on finite values is exact.  Rounding, signed
      zeros and overflow are the parts of IEEE arithmetic left out.
    - pandas, numpy, faiss, requests, BeautifulSoup and PyPDF2 are not part
      of the repository.  Their operations are modelled from their documented
      behaviour, each next to the line of the source that calls it.
    - The faiss index ranks the stored vectors by distances it computes in
      float32 arithmetic.  The computed distance is a parameter of the
      model; the examples instantiate it on small integer vectors.
    - An address is a [string]; a text read from a document is the list of
      its Unicode code points, so that [str.strip()] removes what Python
      removes. *)

From Stdlib Require Import String Ascii DecimalString Bool Arith ZArith QArith Reals Lra Lia
  List Sorted Permutation.
Import ListNotations.

Set Implicit Arguments.

(* ------------------------------------------------------------------ *)
(** * Python exceptions and results *)

Inductive exn : Type :=
| KeyError
| ValueError (msg : string)
| TypeError
| IndexError
| AssertionError.

Inductive res (A : Type) : Type :=
| Ok (a : A)
| Raise (e : exn).

Arguments Ok {A} a.
Arguments Raise {A} e.

Definition bind {A B : Type} (c : res A) (k : A -> res B) : res B :=
  match c with
  | Ok a => k a
  | Raise e => Raise e
  end.

Notation "x <- c ;; k" := (bind c (fun x => k))
  (at level 61, c at next level, right associativity).

Fixpoint mapM {A B : Type} (f : A -> res B) (l : list A) : res (list B) :=
  match l with
  | [] => Ok []
  | a :: t => b <- f a ;; bs <- mapM f t ;; Ok (b :: bs)
  end.

(* ------------------------------------------------------------------ *)
(** * float64 values *)

Module Num.

Local Open Scope R_scope.

(** A float64 cell: not-a-number, an infinity, or a finite real. *)
Inductive float64 : Type :=
| NaN
| PInf
| NInf
| Fin (r : R).

Definition isnan (x : float64) : bool :=
  match x with NaN => true | _ => false end.

(** [numpy.isfinite]. *)
Definition isfinite (x : float64) : bool :=
  match x with Fin _ => true | _ => false end.

(** Three-way branch on the sign of a real. *)
Definition sign_case {A : Type} (r : R) (neg zero pos : A) : A :=
  if Rlt_dec r 0 then neg else if Rlt_dec 0 r then pos else zero.

Definition fneg (x : float64) : float64 :=
  match x with
  | NaN => NaN
  | PInf => NInf
  | NInf => PInf
  | Fin r => Fin (- r)
  end.

Definition fadd (x y : float64) : float64 :=
  match x, y with
  | NaN, _ | _, NaN => NaN
  | PInf, NInf | NInf, PInf => NaN
  | PInf, _ | _, PInf => PInf
  | NInf, _ | _, NInf => NInf
  | Fin a, Fin b => Fin (a + b)
  end.

Definition fsub (x y : float64) : float64 := fadd x (fneg y).

Definition fmul (x y : float64) : float64 :=
  match x, y with
  | NaN, _ | _, NaN => NaN
  | Fin a, Fin b => Fin (a * b)
  | PInf, PInf | NInf, NInf => PInf
  | PInf, NInf | NInf, PInf => NInf
  | PInf, Fin r | Fin r, PInf => sign_case r NInf NaN PInf
  | NInf, Fin r | Fin r, NInf => sign_case r PInf NaN NInf
  end.

(** Division as numpy performs it on float64: no exception, a zero divisor
    gives an infinity, or NaN for 0/0. *)
Definition fdiv (x y : float64) : float64 :=
  match x, y with
  | NaN, _ | _, NaN => NaN
  | Fin a, Fin b =>
      if Req_dec_T b 0 then sign_case a NInf NaN PInf else Fin (a / b)
  | Fin _, _ => Fin 0
  | PInf, Fin b => if Rlt_dec b 0 then NInf else PInf
  | NInf, Fin b => if Rlt_dec b 0 then PInf else NInf
  | _, _ => NaN
  end.

Definition fabs (x : float64) : float64 :=
  match x with
  | NaN => NaN
  | PInf | NInf => PInf
  | Fin r => Fin (Rabs r)
  end.

Definition fsqrt (x : float64) : float64 :=
  match x with
  | NaN | NInf => NaN
  | PInf => PInf
  | Fin r => if Rlt_dec r 0 then NaN else Fin (sqrt r)
  end.

(** [x <= y]; false as soon as one side is NaN. *)
Definition fle (x y : float64) : bool :=
  match x, y with
  | NaN, _ | _, NaN => false
  | NInf, _ => true
  | _, PInf => true
  | Fin a, Fin b => if Rle_dec a b then true else false
  | _, _ => false
  end.

(** [x > y]; false as soon as one side is NaN. *)
Definition fgt (x y : float64) : bool :=
  match x, y with
  | NaN, _ | _, NaN => false
  | _, _ => negb (fle x y)
  end.

(** Sum of a list, left to right, from 0. *)
Definition fsum (l : list float64) : float64 := fold_left fadd l (Fin 0).

(** pandas' [sum] with [skipna=True]: NaN entries are left out. *)
Definition nansum (l : list float64) : float64 :=
  fsum (filter (fun x => negb (isnan x)) l).

End Num.
Import Num.

(* ------------------------------------------------------------------ *)
(** * Python dictionaries with string keys

    Insertion order is kept; assigning to a key already present replaces
    its value in place. *)

Definition dict (V : Type) : Type := list (string * V).

Fixpoint dict_get {V : Type} (d : dict V) (k : string) : option V :=
  match d with
  | [] => None
  | (k', v) :: t => if String.eqb k' k then Some v else dict_get t k
  end.

Fixpoint dict_set {V : Type} (d : dict V) (k : string) (v : V) : dict V :=
  match d with
  | [] => [(k, v)]
  | (k', v') :: t =>
      if String.eqb k' k then (k', v) :: t else (k', v') :: dict_set t k v
  end.


(** [d[k]]: a missing key raises KeyError. *)
Definition dict_item {V : Type} (d : dict V) (k : string) : res V :=
  match dict_get d k with
  | Some v => Ok v
  | None => Raise KeyError
  end.

(** [{k: f(k) for k in keys}]. *)
Definition dict_comprehension {V : Type} (f : string -> res V) (keys : list string)
  : res (dict V) :=
  fold_left (fun acc k => d <- acc ;; v <- f k ;; Ok (dict_set d k v)) keys (Ok []).

(* ------------------------------------------------------------------ *)
(** * The pandas operations the analysis calls *)

Module Pandas.

Fixpoint zip_with {A B C : Type} (f : A -> B -> C) (l : list A) (m : list B)
  : list C :=
  match l, m with
  | a :: l', b :: m' => f a b :: zip_with f l' m'
  | _, _ => []
  end.

(** A table: row labels, column labels, and the cells row by row. *)
Record DataFrame (I : Type) : Type := mkDataFrame {
  index : list I;
  columns : list string;
  values : list (list float64)
}.

(** A series: labelled values, in order. *)
Definition Series (I : Type) : Type := list (I * float64).

(** [df.empty]: no rows or no columns. *)
Definition empty {I : Type} (df : DataFrame I) : bool :=
  match index df, columns df with
  | [], _ | _, [] => true
  | _, _ => false
  end.

Definition column (j : nat) (rows : list (list float64)) : list float64 :=
  map (fun r => nth j r NaN) rows.

(** All columns of a table, left to right. *)
Definition columns_of {I : Type} (df : DataFrame I) : list (list float64) :=
  map (fun j => column j (values df)) (seq 0 (length (columns df))).

(** ** Building a table from a dict of series: [pd.DataFrame({name: series})]

    The row labels are the union of the series' labels: pandas keeps the
    labels of the first series as they are while every further series has
    the same labels, and otherwise takes the sorted union.  Each series is
    then aligned to these labels, a missing day giving NaN. *)

Fixpoint insert_uniq (z : Z) (l : list Z) : list Z :=
  match l with
  | [] => [z]
  | x :: t =>
      if (z <? x)%Z then z :: l
      else if (z =? x)%Z then l
      else x :: insert_uniq z t
  end.

Definition sort_dedup (l : list Z) : list Z := fold_right insert_uniq [] l.

Fixpoint list_Z_eqb (a b : list Z) : bool :=
  match a, b with
  | [], [] => true
  | x :: a', y :: b' => (x =? y)%Z && list_Z_eqb a' b'
  | _, _ => false
  end.

Fixpoint mem_Z (z : Z) (l : list Z) : bool :=
  match l with
  | [] => false
  | x :: t => (z =? x)%Z || mem_Z z t
  end.

Fixpoint has_dup (l : list Z) : bool :=
  match l with
  | [] => false
  | x :: t => mem_Z x t || has_dup t
  end.

(** [Index.union(other, sort=None)]. *)
Definition union_index (a b : list Z) : list Z :=
  match a, b with
  | _, [] => a
  | [], _ => b
  | _, _ => if list_Z_eqb a b then a else sort_dedup (a ++ b)
  end.

Definition union_indexes (l : list (list Z)) : list Z :=
  match l with
  | [] => []
  | i0 :: rest => fold_left union_index rest i0
  end.

Fixpoint series_lookup (s : Series Z) (d : Z) : float64 :=
  match s with
  | [] => NaN
  | (d', v) :: t => if (d' =? d)%Z then v else series_lookup t d
  end.

(** [series.reindex(idx)]: nothing to do when the labels already agree;
    otherwise a series with a repeated label cannot be aligned. *)
Definition reindex (s : Series Z) (idx : list Z) : res (list float64) :=
  if list_Z_eqb (map fst s) idx then Ok (map snd s)
  else if has_dup (map fst s)
       then Raise (ValueError "cannot reindex on an axis with duplicate labels")
       else Ok (map (series_lookup s) idx).

Definition DataFrame_of_dict (d : dict (Series Z)) : res (DataFrame Z) :=
  let idx := union_indexes (map (fun kv => map fst (snd kv)) d) in
  cols <- mapM (fun kv => reindex (snd kv) idx) d ;;
  Ok (mkDataFrame idx (map fst d)
        (map (fun i => map (fun c => nth i c NaN) cols) (seq 0 (length idx)))).

(** ** [pct_change], [shift], [dropna] *)

Definition ffill_row (prev cur : list float64) : list float64 :=
  zip_with (fun p c => if isnan c then p else c) prev cur.

Fixpoint ffill_from (prev : list float64) (rows : list (list float64))
  : list (list float64) :=
  match rows with
  | [] => []
  | r :: rs => let r' := ffill_row prev r in r' :: ffill_from r' rs
  end.

(** Forward fill down the rows: a NaN takes the last value above it. *)
Definition ffill (rows : list (list float64)) : list (list float64) :=
  match rows with
  | [] => []
  | r :: rs => r :: ffill_from r rs
  end.

(** [shift(1)] on the rows: every row moves one place down, the first row
    becomes NaN and the last one falls off. *)
Definition shift1 (rows : list (list float64)) : list (list float64) :=
  match rows with
  | [] => []
  | r :: _ => map (fun _ => NaN) r :: removelast rows
  end.

Definition shift {I : Type} (df : DataFrame I) : DataFrame I :=
  mkDataFrame (index df) (columns df) (shift1 (values df)).

Definition pct_row (cur prev : list float64) : list float64 :=
  zip_with (fun x s => fsub (fdiv x s) (Fin 1%R)) cur prev.

Definition pct_rows (pad : bool) (rows : list (list float64))
  : list (list float64) :=
  let d := if pad then ffill rows else rows in
  zip_with pct_row d (shift1 d).

(** [df.pct_change()]: [data / data.shift(1) - 1], where pandas up to 2.x
    first forward-fills [data] ([pad = true]) and pandas 3 does not. *)
Definition pct_change {I : Type} (pad : bool) (df : DataFrame I) : DataFrame I :=
  mkDataFrame (index df) (columns df) (pct_rows pad (values df)).

Definition has_nan (row : list float64) : bool := existsb isnan row.

(** [df.dropna()]: the rows holding no NaN. *)
Definition dropna {I : Type} (df : DataFrame I) : DataFrame I :=
  let kept := filter (fun p => negb (has_nan (snd p)))
                     (combine (index df) (values df)) in
  mkDataFrame (map fst kept) (columns df) (map snd kept).

(** ** [corr]: pairwise Pearson correlation of the columns

    For each pair of columns the rows where both are finite are the
    observations; none, or a zero denominator, gives NaN.  Recent versions
    of pandas clip the quotient to [-1, 1]; the clipping is kept here. *)

Section Correlation.

Local Open Scope R_scope.

Fixpoint complete_pairs (x y : list float64) : list (R * R) :=
  match x, y with
  | Fin a :: x', Fin b :: y' => (a, b) :: complete_pairs x' y'
  | _ :: x', _ :: y' => complete_pairs x' y'
  | _, _ => []
  end.

Definition Rsum (l : list R) : R := fold_right Rplus 0 l.

Definition mean (l : list R) : R := Rsum l / INR (length l).

(** Sum of squared deviations from the mean. *)
Definition sum_sq_dev (l : list R) : R :=
  Rsum (map (fun v => (v - mean l) * (v - mean l)) l).

(** Sum of products of deviations from the two means. *)
Definition sum_co_dev (obs : list (R * R)) : R :=
  Rsum (map (fun p => (fst p - mean (map fst obs)) * (snd p - mean (map snd obs)))
            obs).

Definition clip1 (v : R) : R :=
  if Rlt_dec 1 v then 1 else if Rlt_dec v (-1) then -1 else v.

(** The coefficient of a list of observations. *)
Definition correlation_of (obs : list (R * R)) : float64 :=
  match obs with
  | [] => NaN
  | _ :: _ =>
      let divisor := sqrt (sum_sq_dev (map fst obs) * sum_sq_dev (map snd obs)) in
      if Req_dec_T divisor 0 then NaN
      else Fin (clip1 (sum_co_dev obs / divisor))
  end.

Definition pearson (x y : list float64) : float64 :=
  correlation_of (complete_pairs x y).

(** The finite entries of a column. *)
Definition finite_values (x : list float64) : list R :=
  flat_map (fun c => match c with Fin a => [a] | _ => [] end) x.

(** A column whose finite entries are not all equal. *)
Definition varies (x : list float64) : Prop :=
  exists u v, In (Fin u) x /\ In (Fin v) x /\ u <> v.

End Correlation.

Definition corr {I : Type} (df : DataFrame I) : DataFrame string :=
  let cols := columns_of df in
  mkDataFrame (columns df) (columns df)
    (map (fun x => map (fun y => pearson x y) cols) cols).

(** [df.to_dict()]: [{column: {row label: value}}]. *)
Definition to_dict (df : DataFrame string) : dict (dict float64) :=
  fold_left
    (fun acc cj =>
       dict_set acc (fst cj)
         (fold_left (fun d rv => dict_set d (fst rv) (snd rv))
                    (combine (index df) (snd cj)) []))
    (combine (columns df) (columns_of df)) [].

(** [m[column][row]] on the dictionary [to_dict] returns; [None] when a key
    is missing. *)
Definition entry (m : dict (dict float64)) (column row : string)
  : option float64 :=
  match dict_get m column with
  | Some c => dict_get c row
  | None => None
  end.


(** ** Arithmetic with a two-dimensional numpy array

    [frame * array]: the array must have the frame's shape, or be one
    column with the frame's number of rows, or one row with the frame's
    number of columns; anything else raises ValueError. *)

Definition mul_ndarray {I : Type} (left : DataFrame I) (right : list (list float64))
  (right_ncols : nat) : res (DataFrame I) :=
  let lr := length (index left) in
  let lc := length (columns left) in
  let rr := length right in
  let rc := right_ncols in
  if (rr =? lr)%nat && (rc =? lc)%nat then
    Ok (mkDataFrame (index left) (columns left)
          (zip_with (zip_with fmul) (values left) right))
  else if (rr =? lr)%nat && (rc =? 1)%nat then
    Ok (mkDataFrame (index left) (columns left)
          (zip_with (fun row w => map (fun x => fmul x (nth 0 w NaN)) row)
                    (values left) right))
  else if (rc =? lc)%nat && (rr =? 1)%nat then
    Ok (mkDataFrame (index left) (columns left)
          (map (fun row => zip_with fmul row (nth 0 right [])) (values left)))
  else Raise (ValueError "Unable to coerce to DataFrame").

(** [df.sum(axis=1)]: one sum per row, NaN skipped. *)
Definition sum_axis1 {I : Type} (df : DataFrame I) : Series I :=
  combine (index df) (map nansum (values df)).

(** [df.sum()]: one sum per column, NaN skipped. *)
Definition sum_axis0 {I : Type} (df : DataFrame I) : Series string :=
  combine (columns df) (map nansum (columns_of df)).

(** [series.sum()]. *)
Definition series_sum {I : Type} (s : Series I) : float64 := nansum (map snd s).

(** [series.std()]: the sample standard deviation (ddof = 1) of the values
    that are not NaN; NaN when fewer than two remain. *)
Definition std {I : Type} (s : Series I) : float64 :=
  let vals := filter (fun x => negb (isnan x)) (map snd s) in
  let count := length vals in
  if (count <=? 1)%nat then NaN
  else
    let avg := fdiv (fsum vals) (Fin (INR count)) in
    let sqr := map (fun v => fmul (fsub avg v) (fsub avg v)) vals in
    fsqrt (fdiv (fsum sqr) (Fin (INR (count - 1)))).

(** ** Selecting rows and columns by label *)

(** [df.loc[labels]]: for each label in turn every row carrying it; a label
    carried by no row raises KeyError. *)
Definition loc (df : DataFrame string) (labels : list string)
  : res (DataFrame string) :=
  picked <- mapM (fun l =>
              match filter (fun p => String.eqb (fst p) l)
                           (combine (index df) (values df)) with
              | [] => Raise KeyError
              | m => Ok m
              end) labels ;;
  Ok (mkDataFrame (map fst (concat picked)) (columns df)
                  (map snd (concat picked))).

Definition positions (cols : list string) (l : string) : list nat :=
  map fst (filter (fun p => String.eqb (snd p) l)
                  (combine (seq 0 (length cols)) cols)).

(** [df[labels]]: for each label in turn every column carrying it; a label
    carried by no column raises KeyError. *)
Definition getitem (df : DataFrame string) (labels : list string)
  : res (DataFrame string) :=
  picked <- mapM (fun l =>
              match positions (columns df) l with
              | [] => Raise KeyError
              | ps => Ok ps
              end) labels ;;
  Ok (mkDataFrame (index df)
        (map (fun j => nth j (columns df) EmptyString) (concat picked))
        (map (fun r => map (fun j => nth j r NaN) (concat picked)) (values df))).

(** [df.iloc[-1]]: the last row, labelled by the columns. *)
Definition iloc_last {I : Type} (df : DataFrame I) : Series string :=
  combine (columns df) (last (values df) []).

(** ** Series indexed by symbol *)

(** [series[label]] for reading one value: the first entry with the label. *)
Fixpoint series_get (s : Series string) (k : string) : res float64 :=
  match s with
  | [] => Raise KeyError
  | (k', v) :: t => if String.eqb k' k then Ok v else series_get t k
  end.

(** [series[label] = v]: every entry carrying the label is overwritten. *)
Definition series_set (s : Series string) (k : string) (v : float64)
  : Series string :=
  map (fun p => if String.eqb (fst p) k then (fst p, v) else p) s.

Definition series_abs (s : Series string) : Series string :=
  map (fun p => (fst p, fabs (snd p))) s.

Fixpoint argmax_loop (best : string * float64) (l : Series string)
  : string * float64 :=
  match l with
  | [] => best
  | p :: t => if fgt (snd p) (snd best) then argmax_loop p t
              else argmax_loop best t
  end.

(** [series.idxmax()]: the label of the first largest value, NaN entries
    skipped.  When every entry is NaN the call, or the lookup of its NaN
    answer that follows it in the source, raises. *)
Definition idxmax (s : Series string) : res string :=
  match filter (fun p => negb (isnan (snd p))) s with
  | [] => Raise (ValueError "attempt to get argmax of an empty sequence")
  | b :: t => Ok (fst (argmax_loop b t))
  end.

(** What [series[label]] evaluates to: the value when one entry carries the
    label, the sub-series of the entries carrying it when several do. *)
Inductive selection : Type :=
| Scalar (v : float64)
| SubSeries (s : Series string).

Definition series_select (s : Series string) (k : string) : res selection :=
  match filter (fun p => String.eqb (fst p) k) s with
  | [] => Raise KeyError
  | [p] => Ok (Scalar (snd p))
  | m => Ok (SubSeries m)
  end.

(** A row of closes that are finite and not zero. *)
Definition finite_nonzero (row : list float64) : Prop :=
  forall c, In c row -> exists x, c = Fin x /\ x <> 0%R.

(** The rows of a table, each with its label. *)
Definition labelled {I : Type} (df : DataFrame I) : list (I * list float64) :=
  combine (index df) (values df).

End Pandas.
Import Pandas.

(* ------------------------------------------------------------------ *)
(** * [src/analysis_agent.py]: [AnalysisAgent] *)

Module Analysis.

(** The record [analyze_risk_exposure] returns on success. *)
Record analysis_result : Type := mkResult {
  correlation_matrix : dict (dict float64);
  portfolio_risk : float64;
  largest_change_stock : string;
  largest_change_value : selection;
  allocation_percentage : float64;
  previous_day_allocation_percentage : float64
}.

(** The three shapes of dictionary the method can return. *)
Inductive outcome : Type :=
| ErrorRecord (msg : string)   (* {"error": msg} *)
| Result (r : analysis_result)
| EmptyDict.                   (* {} *)

Definition no_data_message : string :=
  "No data available for any of the provided stocks.".

Section Agent.

(** The quote provider, as the two private methods see it.

    [_get_historical_data symbol] is the table the method returns, reduced
    to what the analysis reads of it: the trading days and their closes, in
    the table's row order.  The empty list is the empty table, which is also
    what the method returns when the fetch raises.

    [_get_latest_quote symbol] is the ['price'] cell of the first row of the
    quote table, or [None] when that table is empty (also the answer when
    the fetch raises). *)
Variable _get_historical_data : string -> Series Z.
Variable _get_latest_quote : string -> option float64.

(** Whether [pct_change] forward-fills first (it depends on the pandas
    version installed). *)
Variable pad : bool.

Definition is_empty (df : Series Z) : bool :=
  match df with [] => true | _ => false end.

(** One turn of the loop of lines 92-96. *)
Definition scan_step (st : dict (Series Z) * list string) (symbol : string)
  : dict (Series Z) * list string :=
  let historical_data := dict_set (fst st) symbol (_get_historical_data symbol) in
  if is_empty (_get_historical_data symbol)
  then (historical_data, filter (fun s => negb (String.eqb s symbol)) (snd st))
  else (historical_data, snd st).

(** Lines 91-96: the loop runs over the list it was given, while
    [stock_list] is rebound to shorter lists. *)
Definition scan_history (stock_list : list string)
  : dict (Series Z) * list string :=
  fold_left scan_step stock_list ([], stock_list).

(** Line 101: the table of closes, one column per symbol. *)
Definition close_table (historical_data : dict (Series Z))
  (stock_list : list string) : res (DataFrame Z) :=
  closes <- dict_comprehension (dict_item historical_data) stock_list ;;
  DataFrame_of_dict closes.

(** Line 102. *)
Definition returns_of (data : DataFrame Z) : DataFrame Z :=
  dropna (pct_change pad data).

(** Lines 108-114. *)
Definition latest_prices_of (stock_list : list string) : dict (option float64) :=
  fold_left (fun d symbol => dict_set d symbol (_get_latest_quote symbol))
            stock_list [].

(** Line 116. *)
Definition previous_prices_of (data : DataFrame Z) (stock_list : list string)
  : dict (option float64) :=
  if (0 <? length (index data))%nat
  then map (fun p => (fst p, Some (snd p))) (iloc_last data)
  else map (fun s => (s, None)) stock_list.

(** Lines 120-123: one turn of the loop. *)
Definition price_change_step (latest_prices previous_prices : dict (option float64))
  (acc : res (Series string)) (symbol : string) : res (Series string) :=
  price_change <- acc ;;
  latest <- dict_item latest_prices symbol ;;
  previous <- dict_item previous_prices symbol ;;
  match latest, previous with
  | Some l, Some p => Ok (series_set price_change symbol (fsub l p))
  | _, _ => Ok (series_set price_change symbol NaN)
  end.

(** Lines 118-123. *)
Definition price_change_of (latest_prices previous_prices : dict (option float64))
  (stock_list : list string) : res (Series string) :=
  fold_left (price_change_step latest_prices previous_prices) stock_list
            (Ok (map (fun s => (s, NaN)) stock_list)).

(** Lines 127-132. *)
Definition allocation_share (table allocation_data : DataFrame string)
  (stock_list : list string) : res float64 :=
  selected <- getitem table stock_list ;;
  Ok (fmul (fdiv (series_sum (sum_axis0 selected))
                 (series_sum (sum_axis0 allocation_data)))
           (Fin 100%R)).

(** The body of the [try] block, lines 91-142. *)
Definition risk_exposure (stock_list0 : list string)
  (allocation_data : DataFrame string) : res outcome :=
  let historical_data := fst (scan_history stock_list0) in
  let stock_list := snd (scan_history stock_list0) in
  match stock_list with
  | [] => Ok (ErrorRecord no_data_message)
  | _ :: _ =>
      data <- close_table historical_data stock_list ;;
      let returns := returns_of data in
      let correlation_matrix := corr returns in
      weights <- loc allocation_data stock_list ;;
      weighted <- mul_ndarray returns (values weights)
                              (length (columns weights)) ;;
      let portfolio_returns := sum_axis1 weighted in
      let portfolio_risk := std portfolio_returns in
      let latest_prices := latest_prices_of stock_list in
      let previous_prices := previous_prices_of data stock_list in
      price_change <- price_change_of latest_prices previous_prices stock_list ;;
      largest_change_stock <- idxmax (series_abs price_change) ;;
      largest_change_value <- series_select price_change largest_change_stock ;;
      allocation_percentage <-
        allocation_share allocation_data allocation_data stock_list ;;
      previous_day_allocation_percentage <-
        (if negb (empty (shift allocation_data))
         then allocation_share (shift allocation_data) allocation_data stock_list
         else Ok allocation_percentage) ;;
      Ok (Result (mkResult (to_dict correlation_matrix) portfolio_risk
                           largest_change_stock largest_change_value
                           allocation_percentage
                           previous_day_allocation_percentage))
  end.

(** Lines 89-145: any exception raised in the body is logged and turned
    into the empty dictionary. *)
Definition analyze_risk_exposure (stock_list : list string)
  (allocation_data : DataFrame string) : outcome :=
  match risk_exposure stock_list allocation_data with
  | Ok o => o
  | Raise _ => EmptyDict
  end.

(** The symbols that survive the loop of lines 92-96, said directly. *)
Definition retained (stock_list : list string) : list string :=
  filter (fun s => negb (is_empty (_get_historical_data s))) stock_list.

(** What the loop has removed from the current list after running over a
    prefix [seen] of the symbols. *)
Definition dropped_by (seen : list string) (s : string) : bool :=
  existsb (fun x => String.eqb s x && is_empty (_get_historical_data x)) seen.

(** The table of closes the analysis works on (line 101), as a function of
    the symbol list alone. *)
Definition closes_for (stock_list : list string) : res (DataFrame Z) :=
  close_table (fst (scan_history stock_list)) (snd (scan_history stock_list)).

(** The value line 121 or 123 stores for a symbol. *)
Definition stored_change (latest previous : dict (option float64))
  (symbol : string) : float64 :=
  match dict_get latest symbol, dict_get previous symbol with
  | Some (Some l), Some (Some p) => fsub l p
  | _, _ => NaN
  end.

(** ** The quantities the specification names *)

(** The close line 116 takes for a symbol: its cell in the last row of the
    table of closes ([data.iloc[-1]]).  The rows of the table are the days
    of all the symbols together, so the cell is NaN for a symbol that has
    no close on the day of the last row, and it is the close of the last
    row in the table's order, whichever day that is. *)
Definition last_close (data : DataFrame Z) (symbol : string) : option float64 :=
  dict_get (iloc_last data) symbol.

(** Latest quoted price minus the close of the last row; NaN when either
    is missing. *)
Definition price_difference (data : DataFrame Z) (symbol : string) : float64 :=
  match _get_latest_quote symbol, last_close data symbol with
  | Some latest, Some previous => fsub latest previous
  | _, _ => NaN
  end.

(** The entry of the most recent day of a series. *)
Fixpoint most_recent (history : Series Z) : option (Z * float64) :=
  match history with
  | [] => None
  | (day, close) :: rest =>
      match most_recent rest with
      | Some (day', close') =>
          if (day <? day')%Z then Some (day', close') else Some (day, close)
      | None => Some (day, close)
      end
  end.

(** A symbol's last available historical close, said of the provider
    alone: the close of the most recent day the provider has for the
    symbol. *)
Definition last_available_close (symbol : string) : option float64 :=
  option_map snd (most_recent (_get_historical_data symbol)).

(** Latest quoted price minus last available historical close; NaN when
    either is missing. *)
Definition available_difference (symbol : string) : float64 :=
  match _get_latest_quote symbol, last_available_close symbol with
  | Some latest, Some previous => fsub latest previous
  | _, _ => NaN
  end.

End Agent.

(** The weight the allocation table gives each of its columns: the sum of
    the column. *)
Definition weights (allocation_data : DataFrame string) : Series string :=
  sum_axis0 allocation_data.

(** The weights of the given symbols, symbol by symbol. *)
Definition weights_of (allocation_data : DataFrame string)
  (symbols : list string) : list float64 :=
  flat_map (fun s => map snd (filter (fun p => String.eqb (fst p) s)
                                     (weights allocation_data)))
           symbols.

(** Subset weight sum over total weight sum, scaled to 100. *)
Definition weight_share (allocation_data : DataFrame string)
  (symbols : list string) : float64 :=
  fmul (fdiv (nansum (weights_of allocation_data symbols))
             (nansum (map snd (weights allocation_data))))
       (Fin 100%R).

(** ** The share of the specification, cell by cell *)

(** Adding a cell to a running sum, an undefined cell left out. *)
Definition add_defined (acc cell : float64) : float64 :=
  match cell with
  | NaN => acc
  | _ => fadd acc cell
  end.

(** The weight the table gives the column at a position: its cells added
    up from the first row down. *)
Definition column_weight (allocation_data : DataFrame string) (j : nat)
  : float64 :=
  fold_left (fun acc row => add_defined acc (nth j row NaN))
            (values allocation_data) (Fin 0%R).

(** The positions, from [start] on, of the columns that carry a label. *)
Fixpoint labelled_from (start : nat) (labels : list string) (s : string)
  : list nat :=
  match labels with
  | [] => []
  | l :: rest =>
      if String.eqb l s then start :: labelled_from (S start) rest s
      else labelled_from (S start) rest s
  end.

(** The weights of the columns of the given symbols, symbol by symbol, and
    the weights of all the columns. *)
Definition symbol_weights (allocation_data : DataFrame string)
  (symbols : list string) : list float64 :=
  flat_map (fun s => map (column_weight allocation_data)
                         (labelled_from 0 (columns allocation_data) s))
           symbols.

Definition all_weights (allocation_data : DataFrame string) : list float64 :=
  map (column_weight allocation_data)
      (seq 0 (length (columns allocation_data))).

(** The sum of the weights of the symbols over the sum of all weights,
    times 100. *)
Definition subset_share (allocation_data : DataFrame string)
  (symbols : list string) : float64 :=
  fmul (fdiv (fold_left add_defined (symbol_weights allocation_data symbols)
                        (Fin 0%R))
             (fold_left add_defined (all_weights allocation_data) (Fin 0%R)))
       (Fin 100%R).

(** A table without its last row. *)
Definition without_last_row {I : Type} (df : DataFrame I) : DataFrame I :=
  mkDataFrame (removelast (index df)) (columns df) (removelast (values df)).


(** ** The example of the module's [__main__] block, lines 155-163 *)

Definition main_stock_list : list string := ["AAPL"; "TSMC"; "Samsung"]%string.

Definition main_allocation_data : DataFrame string :=
  mkDataFrame ["portfolio_allocation"%string]
    ["AAPL"; "TSMC"; "Samsung"; "Other1"; "Other2"; "Other3"]%string
    [[Fin (10 / 100)%R; Fin (5 / 100)%R; Fin (7 / 100)%R;
      Fin (20 / 100)%R; Fin (30 / 100)%R; Fin (28 / 100)%R]].

End Analysis.

(* ------------------------------------------------------------------ *)
(** * [src/retriever_agent.py]: [BaseRetriever] and [FAISSRetriever] *)

Module Retriever.

(** The element type of a numpy array. *)
Inductive dtype : Type := Float32 | Float64 | Int64.

Definition dtype_eqb (a b : dtype) : bool :=
  match a, b with
  | Float32, Float32 | Float64, Float64 | Int64, Int64 => true
  | _, _ => false
  end.

(** A vector of finite floats; a finite float is a rational. *)
Definition vector : Type := list Q.

(** A two-dimensional array of shape [(length rows, ncols)]. *)
Record ndarray : Type := mkArray {
  array_dtype : dtype;
  ncols : nat;
  rows : list vector
}.

(** A query: an array of any shape, as [reshape(1, -1)] flattens it. *)
Record query : Type := mkQuery {
  query_dtype : dtype;
  query_data : vector
}.

(** A metadata dictionary. *)
Definition meta : Type := dict string.

(** The three lists of [BaseRetriever]. *)
Record store : Type := mkStore {
  texts : list string;
  embeddings : list vector;
  metadata : list meta
}.

(** [FAISSRetriever]: the base lists, the vectors held by the
    [IndexFlatL2] in the order they were added, and its dimension. *)
Record faiss_retriever : Type := mkFaiss {
  base : store;
  index : list vector;
  embedding_dim : nat
}.

(** [BaseRetriever.__init__] and [FAISSRetriever.__init__]. *)
Definition new_store : store := mkStore [] [] [].

Definition new_faiss (embedding_dim : nat) : faiss_retriever :=
  mkFaiss new_store [] embedding_dim.

Definition decimal (n : nat) : string := NilEmpty.string_of_uint (Nat.to_uint n).

Definition count_mismatch_message (n_texts n_embeddings : nat) : string :=
  ("Number of texts (" ++ decimal n_texts
     ++ ") does not match number of embeddings ("
     ++ decimal n_embeddings ++ ")")%string.

Definition metadata_mismatch_message : string :=
  "Length of metadata list must match the number of texts.".

(** Truth value of the [metadata] argument: [None] and the empty list are
    false. *)
Definition truthy (md : option (list meta)) : bool :=
  match md with
  | Some (_ :: _) => true
  | _ => false
  end.

Definition metadata_or_nil (md : option (list meta)) : list meta :=
  match md with Some l => l | None => [] end.

(** [BaseRetriever.add_texts], lines 33-41.  The answer is the object after
    the call together with what the call did: return, or raise. *)
Definition add_texts (self : store) (new_texts : list string)
  (new_embeddings : ndarray) (md : option (list meta)) : store * res unit :=
  if negb (length new_texts =? length (rows new_embeddings))%nat then
    (self, Raise (ValueError (count_mismatch_message
                                (length new_texts)
                                (length (rows new_embeddings)))))
  else if truthy md
          && negb (length (metadata_or_nil md) =? length new_texts)%nat then
    (self, Raise (ValueError metadata_mismatch_message))
  else
    (mkStore (texts self ++ new_texts)
             (embeddings self ++ rows new_embeddings)
             (metadata self ++ (if truthy md then metadata_or_nil md
                                else map (fun _ => []) new_texts)),
     Ok tt).

(** [faiss.IndexFlatL2.add]: the array must have the index's dimension. *)
Definition index_add (idx : list vector) (dim : nat) (x : ndarray)
  : res (list vector) :=
  if (ncols x =? dim)%nat then Ok (idx ++ rows x) else Raise AssertionError.

Definition float32_message : string :=
  "FAISS requires embeddings of dtype np.float32.".

(** [FAISSRetriever.add_texts], lines 67-71. *)
Definition faiss_add_texts (self : faiss_retriever) (new_texts : list string)
  (new_embeddings : ndarray) (md : option (list meta))
  : faiss_retriever * res unit :=
  if negb (dtype_eqb (array_dtype new_embeddings) Float32) then
    (self, Raise (ValueError float32_message))
  else
    let after := add_texts (base self) new_texts new_embeddings md in
    match snd after with
    | Raise e => (mkFaiss (fst after) (index self) (embedding_dim self), Raise e)
    | Ok _ =>
        match index_add (index self) (embedding_dim self) new_embeddings with
        | Raise e =>
            (mkFaiss (fst after) (index self) (embedding_dim self), Raise e)
        | Ok idx => (mkFaiss (fst after) idx (embedding_dim self), Ok tt)
        end
    end.

(** ** The index search *)

Definition sq_diff (a b : Q) : Q := (a - b) * (a - b).

(** Squared L2 distance, without rounding. *)
Definition dist2 (q v : vector) : Q :=
  fold_right Qplus 0 (Pandas.zip_with sq_diff q v).

(** The order the ranking is made by. *)
Definition closer (a b : nat * Q) : Prop := snd a <= snd b.

(** Insertion into a list ranked by increasing distance; an entry goes in
    front of the entries at the same distance. *)
Fixpoint insert_ranked (p : nat * Q) (l : list (nat * Q)) : list (nat * Q) :=
  match l with
  | [] => [p]
  | h :: t =>
      if Qle_bool (snd p) (snd h) then p :: l else h :: insert_ranked p t
  end.

Definition rank (l : list (nat * Q)) : list (nat * Q) :=
  fold_right insert_ranked [] l.

Section Index.

(** What [faiss.IndexFlatL2] makes of a stored vector when it answers a
    query for [k] labels.  The index does not compare exact distances: its
    kernel computes the squared L2 distance in float32 arithmetic, and its
    result handler, which starts with the label -1 in every place, takes a
    stored vector only when the computed distance is below the bound the
    handler holds.  [computed k q v] is [Some d] when [v] is a candidate at
    computed distance [d], and [None] when the handler can never take it: a
    computed distance that overflowed to infinity, or is not a number, is
    below no bound. *)
Variable computed : Z -> vector -> vector -> option Q.

(** The candidates among the stored vectors, each with its position. *)
Fixpoint candidates_from (start : nat) (idx : list vector) (q : vector)
  (k : Z) : list (nat * Q) :=
  match idx with
  | [] => []
  | v :: rest =>
      match computed k q v with
      | Some d => (start, d) :: candidates_from (S start) rest q k
      | None => candidates_from (S start) rest q k
      end
  end.

(** The positions of the candidates, nearest to [q] first. *)
Definition nearest_first (idx : list vector) (q : vector) (k : Z) : list nat :=
  map fst (rank (candidates_from 0 idx q k)).

(** [faiss.IndexFlatL2.search] for one query row: the query must have the
    index's dimension and [k] must be positive; the answer holds exactly [k]
    labels, the positions of the nearest candidates first, and -1 in the
    places left over when there are fewer than [k] candidates. *)
Definition search (idx : list vector) (dim : nat) (q : vector) (k : Z)
  : res (list Z) :=
  if negb (length q =? dim)%nat then Raise AssertionError
  else if (k <=? 0)%Z then Raise AssertionError
  else
    let found := firstn (Z.to_nat k) (nearest_first idx q k) in
    Ok (map Z.of_nat found ++ repeat (-1)%Z (Z.to_nat k - length found)).

(** One retrieved entry. *)
Record entry : Type := mkEntry {
  text : string;
  embedding : vector;
  entry_metadata : meta
}.

(** Python's [l[i]] on a list: a negative index counts from the end, an
    index out of range raises IndexError. *)
Definition list_item {A : Type} (l : list A) (i : Z) : res A :=
  let pos := if (i <? 0)%Z then (Z.of_nat (length l) + i)%Z else i in
  if (pos <? 0)%Z then Raise IndexError
  else match nth_error l (Z.to_nat pos) with
       | Some a => Ok a
       | None => Raise IndexError
       end.

Definition empty_index_message : string :=
  "The FAISS index is empty. Add some texts before querying.".

Definition query_dtype_message : string :=
  "Query embedding must be of dtype np.float32.".

(** Lines 79-86: the loop over the labels the search returned. *)
Fixpoint collect (self : store) (indices : list Z) : res (list entry) :=
  match indices with
  | [] => Ok []
  | i :: rest =>
      if (i =? -1)%Z then collect self rest
      else
        t <- list_item (texts self) i ;;
        e <- list_item (embeddings self) i ;;
        m <- list_item (metadata self) i ;;
        more <- collect self rest ;;
        Ok (mkEntry t e m :: more)
  end.

(** [FAISSRetriever.retrieve], lines 73-87. *)
Definition retrieve (self : faiss_retriever) (query_embedding : query)
  (top_k : Z) : res (list entry) :=
  if (length (index self) =? 0)%nat then
    Raise (ValueError empty_index_message)
  else if negb (dtype_eqb (query_dtype query_embedding) Float32) then
    Raise (ValueError query_dtype_message)
  else
    indices <- search (index self) (embedding_dim self)
                      (query_data query_embedding) top_k ;;
    collect (base self) indices.

(** The computed distance from the query to the vector stored at a
    position, when that vector is a candidate. *)
Definition distance_to (self : faiss_retriever) (q : query) (k : Z) (i : nat)
  : option Q :=
  computed k (query_data q) (nth i (index self) []).

(** Both are candidates, and the first is not farther than the second. *)
Definition not_farther (a b : option Q) : Prop :=
  match a, b with
  | Some x, Some y => x <= y
  | _, _ => False
  end.

Definition is_candidate (q : query) (k : Z) (v : vector) : bool :=
  match computed k (query_data q) v with
  | Some _ => true
  | None => false
  end.

(** [ids] are the positions of the [k] candidates nearest to the query by
    computed distance (of all candidates when there are fewer), nearest
    first. *)
Definition nearest (self : faiss_retriever) (q : query) (k : Z)
  (ids : list nat) : Prop :=
  NoDup ids
  /\ (forall i, In i ids ->
         (i < length (index self))%nat /\ distance_to self q k i <> None)
  /\ length ids
     = Nat.min (Z.to_nat k) (length (filter (is_candidate q k) (index self)))
  /\ StronglySorted
       (fun i j => not_farther (distance_to self q k i) (distance_to self q k j))
       ids
  /\ (forall i j, In i ids -> (j < length (index self))%nat ->
                  distance_to self q k j <> None -> ~ In j ids ->
                  not_farther (distance_to self q k i) (distance_to self q k j)).

End Index.

(** [BaseRetriever.get_all], lines 47-56. *)
Fixpoint zip3 (ts : list string) (es : list vector) (ms : list meta)
  : list entry :=
  match ts, es, ms with
  | t :: ts', e :: es', m :: ms' => mkEntry t e m :: zip3 ts' es' ms'
  | _, _, _ => []
  end.

Definition get_all (self : store) : list entry :=
  zip3 (texts self) (embeddings self) (metadata self).

(** The two mismatches [BaseRetriever.add_texts] tests for. *)
Definition count_mismatch (new_texts : list string) (new_embeddings : ndarray)
  : bool :=
  negb (length new_texts =? length (rows new_embeddings))%nat.

Definition metadata_mismatch (new_texts : list string)
  (md : option (list meta)) : bool :=
  truthy md && negb (length (metadata_or_nil md) =? length new_texts)%nat.

(** The entry stored at a position of the three lists. *)
Definition stored_entry (self : store) (i : nat) : entry :=
  mkEntry (nth i (texts self) EmptyString) (nth i (embeddings self) [])
          (nth i (metadata self) []).

(** A retriever of dimension 2 after one successful insertion of two
    texts, and three queries. *)
Definition two_texts : faiss_retriever :=
  fst (faiss_add_texts (new_faiss 2) ["near"; "far"]%string
         (mkArray Float32 2 [[1; 0]; [5; 5]]) None).

Definition good_query : query := mkQuery Float32 [1; 1].

Definition float64_query : query := mkQuery Float64 [1; 1].

Definition long_query : query := mkQuery Float32 [1; 1; 1].

(** Rounding of a positive integer to the 24 significant bits of a
    float32, ties to the even neighbour. *)
Definition round24 (n : Z) : Z :=
  let e := (Z.log2 n - 23)%Z in
  if (e <=? 0)%Z then n
  else
    let unit := (2 ^ e)%Z in
    let m := (n / unit)%Z in
    let r := (n mod unit)%Z in
    if (2 * r <? unit)%Z then (m * unit)%Z
    else if (unit <? 2 * r)%Z then ((m + 1) * unit)%Z
    else if Z.even m then (m * unit)%Z
    else ((m + 1) * unit)%Z.

(** The kernel of the examples: on vectors of one or two integer components
    whose differences and squares float32 holds exactly, the sum of the
    squares is rounded once, and a sum that rounds to 2^128 or more is
    infinite, so that the vector is no candidate. *)
Definition float32_kernel (k : Z) (q v : vector) : option Q :=
  let d := round24 (Qnum (Qred (dist2 q v))) in
  if (d <? 2 ^ 128)%Z then Some (inject_Z d) else None.

(** Two stored vectors whose distances to the origin, 4096^2 + 1 and
    4096^2, float32 does not tell apart. *)
Definition close_pair : faiss_retriever :=
  fst (faiss_add_texts (new_faiss 2) ["farther"; "nearer"]%string
         (mkArray Float32 2 [[4096; 1]; [4096; 0]]) None).

Definition origin : query := mkQuery Float32 [0; 0].

(** One stored vector, 2^64, and the query -2^64: the square of their
    difference is beyond the range of float32. *)
Definition far_away : faiss_retriever :=
  fst (faiss_add_texts (new_faiss 1) ["far away"]%string
         (mkArray Float32 1 [[18446744073709551616]]) None).

Definition opposite_query : query := mkQuery Float32 [-18446744073709551616].

(** The state every successful insertion leaves behind: the three lists and
    the index run in step, and the index holds the stored embeddings. *)
Definition in_step (self : faiss_retriever) : Prop :=
  index self = embeddings (base self)
  /\ length (texts (base self)) = length (index self)
  /\ length (metadata (base self)) = length (index self).

End Retriever.

(* ------------------------------------------------------------------ *)
(** * [src/scraping_agent.py]: [ScrapingAgent] *)

Module Scraping.

(** ** The string methods the agent calls on an address *)

Definition lower_char (c : ascii) : ascii :=
  let n := nat_of_ascii c in
  if (65 <=? n)%nat && (n <=? 90)%nat then ascii_of_nat (n + 32) else c.

(** [s.lower()]. *)
Fixpoint lower (s : string) : string :=
  match s with
  | EmptyString => EmptyString
  | String c t => String (lower_char c) (lower t)
  end.

(** [s.endswith(suffix)]. *)
Definition endswith (s suffix : string) : bool :=
  let n := String.length s in
  let m := String.length suffix in
  (m <=? n)%nat && String.eqb (substring (n - m) m s) suffix.

(** ** The text of a document *)

(** A text read from a document is the sequence of its Unicode code
    points. *)
Definition text : Type := list N.

(** The text of an ASCII literal. *)
Definition of_string (s : string) : text :=
  map N_of_ascii (list_ascii_of_string s).

(** The code points [str.strip()] removes, those [str.isspace] holds of:
    U+0009 to U+000D, U+001C to U+0020, U+0085, U+00A0, U+1680, U+2000 to
    U+200A, U+2028, U+2029, U+202F, U+205F and U+3000. *)
Definition is_space (c : N) : bool :=
  ((9 <=? c) && (c <=? 13))%N
  || ((28 <=? c) && (c <=? 32))%N
  || (c =? 133)%N || (c =? 160)%N || (c =? 5760)%N
  || ((8192 <=? c) && (c <=? 8202))%N
  || (c =? 8232)%N || (c =? 8233)%N || (c =? 8239)%N || (c =? 8287)%N
  || (c =? 12288)%N.

Fixpoint lstrip (s : text) : text :=
  match s with
  | [] => []
  | c :: t => if is_space c then lstrip t else s
  end.

Fixpoint rstrip (s : text) : text :=
  match s with
  | [] => []
  | c :: t =>
      match rstrip t with
      | [] => if is_space c then [] else [c]
      | t' => c :: t'
      end
  end.

(** [s.strip()]. *)
Definition strip (s : text) : text := rstrip (lstrip s).

(** [sep.join(parts)]. *)
Fixpoint join (sep : text) (parts : list text) : text :=
  match parts with
  | [] => []
  | [part] => part
  | part :: rest => part ++ sep ++ join sep rest
  end.

Definition newline : text := [10%N].

(** ** What the libraries hand back *)

Definition bytes : Type := list ascii.

(** [requests.get] followed by [raise_for_status]: the body, an exception
    of the class [requests.exceptions.RequestException], or an exception of
    another class.  requests hands on some exceptions of urllib3 as they
    are: a host name with an empty label gives urllib3's
    [LocationParseError], which is a [ValueError] and no
    [RequestException]. *)
Inductive response : Type :=
| Content (body : bytes)
| RequestException
| OtherException (e : exn).

(** What the agent reads of a parsed HTML document: [soup.title] (absent,
    or a tag whose [.string] may be [None]) and the text of each [<p>]. *)
Record soup : Type := mkSoup {
  soup_title : option (option text);
  soup_paragraphs : list text
}.

(** [PyPDF2.PdfReader] and the page text joined, lines 37-39. *)
Inductive pdf_read : Type :=
| PdfReadError
| PdfOtherError
| PdfText (joined : text).

(** The [unstructured] fallback, lines 45-47. *)
Inductive partition : Type :=
| NotInstalled
| PartitionError
| Elements (rendered : list text).

(** The record returned for one URL. *)
Inductive filing : Type :=
| HtmlData (title content : text)
| TextData (text_data : text).

Section Agent.

Variable requests_get : string -> response.
Variable BeautifulSoup : bytes -> option soup.   (* None: the parser raised *)
Variable PdfReader : bytes -> pdf_read.
Variable partition_pdf : bytes -> partition.

(** Lines 17-25: the handler of line 23 catches [RequestException] only;
    an exception of another class leaves the method. *)
Definition _fetch_document (url : string) : res (option bytes) :=
  match requests_get url with
  | Content body => Ok (Some body)
  | RequestException => Ok None
  | OtherException e => Raise e
  end.

(** Lines 27-32. *)
Definition _parse_html (html_content : bytes) : option soup :=
  BeautifulSoup html_content.

(** Lines 34-60. *)
Definition _extract_text_from_pdf (pdf_content : bytes) : option text :=
  match PdfReader pdf_content with
  | PdfReadError => None
  | PdfOtherError => None
  | PdfText joined =>
      match strip joined with
      | _ :: _ => Some (strip joined)
      | [] =>
          match partition_pdf pdf_content with
          | NotInstalled => None
          | PartitionError => None
          | Elements rendered => Some (strip (join (newline ++ newline) rendered))
          end
      end
  end.

Definition none_strip_message : text :=
  of_string "'NoneType' object has no attribute 'strip'".

(** Lines 62-69. *)
Definition _extract_data_from_html (s : soup) : filing :=
  let content := join newline (map strip (soup_paragraphs s)) in
  match soup_title s with
  | None => HtmlData (of_string "Untitled Document") content
  | Some (Some t) => HtmlData (strip t) content
  | Some None => HtmlData (of_string "Error") none_strip_message
  end.

(** Lines 71-76. *)
Definition _extract_data_from_text (t : text) : filing :=
  TextData (strip t).

Definition is_html (url : string) : bool :=
  endswith (lower url) ".html" || endswith (lower url) ".htm".

Definition is_pdf (url : string) : bool := endswith (lower url) ".pdf".

(** Lines 78-95.  Line 79 is outside any handler: what
    [_fetch_document] raises, [scrape_filing] raises. *)
Definition scrape_filing (url : string) : res (option filing) :=
  document_content <- _fetch_document url ;;
  match document_content with
  | None => Ok None
  | Some document_content =>
      if is_html url then
        match _parse_html document_content with
        | None => Ok None
        | Some s => Ok (Some (_extract_data_from_html s))
        end
      else if is_pdf url then
        match _extract_text_from_pdf document_content with
        | None => Ok None
        | Some t => Ok (Some (_extract_data_from_text t))
        end
      else Ok None
  end.

(** Lines 97-98: the comprehension calls [scrape_filing] on the URLs from
    left to right; an exception in one call ends it and no list is
    made. *)
Definition scrape_filings (urls : list string) : res (list (option filing)) :=
  mapM scrape_filing urls.

End Agent.

(** ** The failures of one URL

    The three ways a URL can fail, said of the address and of what the
    libraries answer, not of the agent's methods. *)







Section Failures.

Variable requests_get : string -> response.
Variable BeautifulSoup : bytes -> option soup.
Variable PdfReader : bytes -> pdf_read.
Variable partition_pdf : bytes -> partition.





End Failures.

(** A small web: one HTML page, one PDF whose text PyPDF2 cannot read, one
    address that does not answer, one text file. *)
Definition page : bytes := ["<"; "p"; ">"]%char.

Local Open Scope string_scope.

Definition sample_get (url : string) : response :=
  if String.eqb url "http://down.example/report.html" then RequestException
  else Content page.

Definition sample_soup (html_content : bytes) : option soup :=
  Some (mkSoup (Some (Some (of_string " Annual report ")))
               [of_string " Revenue grew. "; of_string "Costs fell."]).

Definition sample_pdf (pdf_content : bytes) : pdf_read := PdfReadError.

Definition sample_partition (pdf_content : bytes) : partition := NotInstalled.

(** A reader that finds text on the pages. *)
Definition sample_pdf_text (pdf_content : bytes) : pdf_read :=
  PdfText (of_string "  Form 10-K  ").

(** The text of the last character of a string ([s[-1:]]). *)
Definition last_char (s : string) : string :=
  substring (String.length s - 1) 1 s.

Definition sample_urls : list string :=
  ["http://sec.example/aapl.HTM"; "http://down.example/report.html";
   "http://sec.example/tsla.pdf"; "http://sec.example/notes.txt";
   "http://sec.example/msft.html"].




End Scraping.

(* ------------------------------------------------------------------ *)
(** * [src/analysis_agent.py]: the provider of lines 9-87 and the analysis
      on top of it *)

Module Provider.

Import Analysis.

Local Open Scope string_scope.

(** ** Values *)

#[local] Unset Elimination Schemes.

(** A decoded JSON value. *)
Inductive json : Type :=
| JNull
| JBool (b : bool)
| JNumber (x : float64)
| JString (s : string)
| JArray (items : list json)
| JObject (members : list (string * json)).

#[local] Set Elimination Schemes.

(** The Python value in a cell of a one-row table, as far as the analysis
    tells values apart: a number, a string, or a value of another kind
    ([None], a list, a timestamp). *)
Inductive pyvalue : Type :=
| PyNumber (x : float64)
| PyStr (s : string)
| PyOther.

Definition cell_of (j : json) : pyvalue :=
  match j with
  | JNumber x => PyNumber x
  | JString s => PyStr s
  | _ => PyOther
  end.

(** [requests.get], [raise_for_status] and [response.json()] for one
    request: an exception of requests, or the decoded body, taken to be a
    JSON object as Alpha Vantage sends. *)
Inductive answer : Type :=
| RequestException
| Json (data : dict json).

(** The exceptions the provider can end with. *)
Inductive failure : Type :=
| RequestFailed                  (* requests.exceptions.RequestException *)
| ApiError (detail : json)       (* ValueError, line 23 *)
| NoSecondKey                    (* IndexError, line 26 *)
| KeyMissing (key : string)      (* KeyError, lines 28, 36 and 51 *)
| LibraryError                   (* raised inside pandas *)
| NoSuchAttribute.               (* AttributeError *)

Inductive fetched (A : Type) : Type :=
| Fetched (a : A)
| Failed (e : failure).

Arguments Fetched {A} a.
Arguments Failed {A} e.

(** The tables that come back: [pd.DataFrame()], a table of daily rows
    (the day, then open, high, low, close and volume), or a table of one
    row with labelled cells. *)
Inductive frame : Type :=
| EmptyFrame
| Daily (rows : list (Z * list float64))
| OneRow (cells : list (string * pyvalue)).

Definition time_series_functions : list string :=
  ["TIME_SERIES_DAILY"; "TIME_SERIES_WEEKLY"; "TIME_SERIES_MONTHLY"].

(** The renaming of lines 39-50. *)
Definition renamed (label : string) : string :=
  if String.eqb label "01. symbol" then "symbol"
  else if String.eqb label "02. open" then "open"
  else if String.eqb label "03. high" then "high"
  else if String.eqb label "04. low" then "low"
  else if String.eqb label "05. price" then "price"
  else if String.eqb label "06. volume" then "volume"
  else if String.eqb label "07. latest trading day" then "latest_trading_day"
  else if String.eqb label "08. previous close" then "previous_close"
  else if String.eqb label "09. change" then "change"
  else if String.eqb label "10. change percent" then "change_percent"
  else label.

(** What [self.api_agent] is: an [AlphaVantageAgent] of lines 9-60, or an
    object of a class without [_fetch_data]: a string, [None]. *)
Inductive api_object : Type :=
| AlphaVantageAgent (api_key : string)
| StrObject (s : string)
| NoneObject.

Definition microseconds_per_day : Z := 86400000000.

(** [start_date <= t <= end_date] of line 75, times in microseconds. *)
Definition in_window (now days t : Z) : bool :=
  ((now - days * microseconds_per_day <=? t) && (t <=? now))%Z.

(** The ['close'] column of a table of daily rows. *)
Definition closes (rows : list (Z * list float64)) : Series Z :=
  map (fun r => (fst r, nth 3 (snd r) NaN)) rows.

(** [df.empty]. *)
Definition frame_empty (df : frame) : bool :=
  match df with
  | EmptyFrame => true
  | Daily [] => true
  | OneRow [] => true
  | _ => false
  end.

(** [df['price'].iloc[0]]: KeyError without such a column; with several
    columns of that label the answer is a row, not a cell. *)
Definition price_cell (df : frame) : res pyvalue :=
  match df with
  | OneRow cells =>
      match filter (fun c => String.eqb (fst c) "price") cells with
      | [] => Raise KeyError
      | [c] => Ok (snd c)
      | _ => Ok PyOther
      end
  | _ => Raise KeyError
  end.

Section Agent.

(** The answers of the service, by function and symbol; the service is
    taken to answer a request that is repeated in the same way. *)
Variable requests_get : string -> string -> answer.

(** Lines 29-32, [from_dict], [to_datetime], the five column names and
    [astype(float)], on the value under the second key: the table of daily
    rows, or [None] when one of the four raises. *)
Variable read_time_series : json -> option (list (Z * list float64)).

(** Whether [pd.to_datetime] accepts a cell (line 51). *)
Variable to_datetime : json -> bool.

(** Line 54, [pd.DataFrame(data)], left to the library. *)
Variable plain_frame : dict json -> fetched frame.

(** Lines 37-52: the one-row table of a quote.  Only an object gives
    labelled columns; the column [latest_trading_day] must be there, once,
    and must parse. *)
Definition global_quote_frame (quote_data : json) : fetched frame :=
  match quote_data with
  | JObject members =>
      let cells := map (fun kv => (renamed (fst kv), snd kv)) members in
      match filter (fun c => String.eqb (fst c) "latest_trading_day") cells with
      | [] => Failed (KeyMissing "latest_trading_day")
      | [day] =>
          if to_datetime (snd day) then
            Fetched (OneRow
                       (map (fun c =>
                               (fst c,
                                if String.eqb (fst c) "latest_trading_day"
                                then PyOther else cell_of (snd c)))
                            cells))
          else Failed LibraryError
      | _ => Failed LibraryError
      end
  | _ => Failed (KeyMissing "latest_trading_day")
  end.

(** [AlphaVantageAgent._fetch_data], lines 13-60.  The three [except]
    clauses re-raise what they catch. *)
Definition _fetch_data (function symbol : string) : fetched frame :=
  match requests_get function symbol with
  | RequestException => Failed RequestFailed
  | Json data =>
      match dict_get data "Error Message" with
      | Some detail => Failed (ApiError detail)
      | None =>
          if existsb (String.eqb function) time_series_functions then
            match nth_error (map fst data) 1 with
            | None => Failed NoSecondKey
            | Some time_series_key =>
                match dict_get data time_series_key with
                | None => Failed (KeyMissing time_series_key)
                | Some series =>
                    match read_time_series series with
                    | Some rows => Fetched (Daily rows)
                    | None => Failed LibraryError
                    end
                end
            end
          else if String.eqb function "GLOBAL_QUOTE" then
            match dict_get data "Global Quote" with
            | None => Failed (KeyMissing "Global Quote")
            | Some quote_data => global_quote_frame quote_data
            end
          else plain_frame data
      end
  end.

(** [self.api_agent._fetch_data(...)]. *)
Definition call_fetch_data (api_agent : api_object) (function symbol : string)
  : fetched frame :=
  match api_agent with
  | AlphaVantageAgent _ => _fetch_data function symbol
  | StrObject _ | NoneObject => Failed NoSuchAttribute
  end.

(** [AnalysisAgent._get_historical_data], lines 70-79, with the clock
    reading [now].  The answer is the list of rows; the empty list stands
    for every empty table, [pd.DataFrame()] included.  A table that is not
    one of daily rows cannot be compared with dates, which raises. *)
Definition _get_historical_data (api_agent : api_object) (now : Z)
  (symbol : string) (days : Z) : list (Z * list float64) :=
  match call_fetch_data api_agent "TIME_SERIES_DAILY" symbol with
  | Fetched (Daily rows) => filter (fun r => in_window now days (fst r)) rows
  | Fetched _ => []
  | Failed _ => []
  end.

(** [AnalysisAgent._get_latest_quote], lines 81-87. *)
Definition _get_latest_quote (api_agent : api_object) (symbol : string)
  : frame :=
  match call_fetch_data api_agent "GLOBAL_QUOTE" symbol with
  | Fetched df => df
  | Failed _ => EmptyFrame
  end.

(** ** [analyze_risk_exposure] on this provider

    Lines 89-145 once more, now reading the tables the two private methods
    return, so that a price is whatever the quote table holds.  Where every
    price is a number this is [Analysis.analyze_risk_exposure] on the closes
    and prices of the provider ([ProviderFacts.numeric_prices_agree]). *)

Variable api_agent : api_object.

(** [datetime.now()] at the request for a symbol, in microseconds: one
    reading for each symbol. *)
Variable clock : string -> Z.

Variable pad : bool.

(** Lines 120-123 for a price that is neither a number nor a string, left
    to Python: the change stored for the symbol, or an exception. *)
Variable other_change : string -> float64 -> res float64.

(** The closes of a symbol, lines 93 and 101. *)
Definition history (symbol : string) : Series Z :=
  closes (_get_historical_data api_agent (clock symbol) symbol 30).

(** Lines 110-114 for one symbol. *)
Definition latest_price (symbol : string) : res (option pyvalue) :=
  let latest_quote_df := _get_latest_quote api_agent symbol in
  if negb (frame_empty latest_quote_df)
  then v <- price_cell latest_quote_df ;; Ok (Some v)
  else Ok None.

(** Lines 120-123: one turn of the loop.  A string minus a float raises
    TypeError. *)
Definition price_change_step
  (latest_prices : dict (option pyvalue))
  (previous_prices : dict (option float64))
  (acc : res (Series string)) (symbol : string) : res (Series string) :=
  price_change <- acc ;;
  latest <- dict_item latest_prices symbol ;;
  previous <- dict_item previous_prices symbol ;;
  match latest, previous with
  | Some (PyNumber l), Some p =>
      Ok (series_set price_change symbol (fsub l p))
  | Some (PyStr _), Some _ => Raise TypeError
  | Some PyOther, Some p =>
      change <- other_change symbol p ;;
      Ok (series_set price_change symbol change)
  | _, _ => Ok (series_set price_change symbol NaN)
  end.

(** Lines 118-123. *)
Definition price_change_of
  (latest_prices : dict (option pyvalue))
  (previous_prices : dict (option float64))
  (stock_list : list string) : res (Series string) :=
  fold_left (price_change_step latest_prices previous_prices) stock_list
            (Ok (map (fun s => (s, NaN)) stock_list)).

(** The body of the [try] block, lines 91-142. *)
Definition risk_exposure (stock_list0 : list string)
  (allocation_data : DataFrame string) : res outcome :=
  let historical_data := fst (scan_history history stock_list0) in
  let stock_list := snd (scan_history history stock_list0) in
  match stock_list with
  | [] => Ok (ErrorRecord no_data_message)
  | _ :: _ =>
      data <- close_table historical_data stock_list ;;
      let returns := returns_of pad data in
      let correlation_matrix := corr returns in
      weights <- loc allocation_data stock_list ;;
      weighted <- mul_ndarray returns (values weights)
                              (length (columns weights)) ;;
      let portfolio_returns := sum_axis1 weighted in
      let portfolio_risk := std portfolio_returns in
      latest_prices <- dict_comprehension latest_price stock_list ;;
      let previous_prices := previous_prices_of data stock_list in
      price_change <- price_change_of latest_prices previous_prices stock_list ;;
      largest_change_stock <- idxmax (series_abs price_change) ;;
      largest_change_value <- series_select price_change largest_change_stock ;;
      allocation_percentage <-
        allocation_share allocation_data allocation_data stock_list ;;
      previous_day_allocation_percentage <-
        (if negb (empty (shift allocation_data))
         then allocation_share (shift allocation_data) allocation_data stock_list
         else Ok allocation_percentage) ;;
      Ok (Result (mkResult (to_dict correlation_matrix) portfolio_risk
                           largest_change_stock largest_change_value
                           allocation_percentage
                           previous_day_allocation_percentage))
  end.

(** Lines 89-145. *)
Definition analyze_risk_exposure (stock_list : list string)
  (allocation_data : DataFrame string) : outcome :=
  match risk_exposure stock_list allocation_data with
  | Ok o => o
  | Raise _ => EmptyDict
  end.

(** The price of a symbol as a number, when it is one. *)
Definition numeric_price (symbol : string) : option float64 :=
  match latest_price symbol with
  | Ok (Some (PyNumber x)) => Some x
  | _ => None
  end.

(** The service answers the quote request for a symbol with a quote
    object that holds one trading day, which parses, and one price, the
    string [t]. *)
Definition text_quote (symbol t : string) : Prop :=
  exists data members day label,
    requests_get "GLOBAL_QUOTE" symbol = Json data
    /\ dict_get data "Error Message" = None
    /\ dict_get data "Global Quote" = Some (JObject members)
    /\ filter (fun kv => String.eqb (renamed (fst kv)) "latest_trading_day")
              members = [day]
    /\ to_datetime (snd day) = true
    /\ filter (fun kv => String.eqb (renamed (fst kv)) "price") members
       = [(label, JString t)].

(** The request for the daily series of a symbol brings no row of the
    last thirty days: the request fails, the service answers with an error
    message or with fewer than two keys, the series cannot be read, or
    every row is outside the window. *)
Definition no_fresh_data (symbol : string) : Prop :=
  requests_get "TIME_SERIES_DAILY" symbol = RequestException
  \/ exists data,
       requests_get "TIME_SERIES_DAILY" symbol = Json data
       /\ (dict_get data "Error Message" <> None
           \/ (length data < 2)%nat
           \/ exists key series,
                nth_error (map fst data) 1 = Some key
                /\ dict_get data key = Some series
                /\ (read_time_series series = None
                    \/ exists rows,
                         read_time_series series = Some rows
                         /\ forall r, In r rows ->
                              in_window (clock symbol) 30 (fst r) = false)).

End Agent.

(** ** A small service *)

Definition sample_now : Z := 1000 * microseconds_per_day.

Definition sample_requests (function symbol : string) : answer :=
  if String.eqb function "GLOBAL_QUOTE" then
    Json [("Global Quote",
           JObject [("01. symbol", JString symbol);
                    ("05. price", JString "150.2500");
                    ("07. latest trading day", JString "2024-01-02")])]
  else
    Json [("Meta Data", JObject []);
          ("Time Series (Daily)", JObject [])].

Definition sample_series (series : json) : option (list (Z * list float64)) :=
  Some [((999 * microseconds_per_day)%Z,
         [Fin 1%R; Fin 1%R; Fin 1%R; Fin 2%R; Fin 10%R]);
        ((998 * microseconds_per_day)%Z,
         [Fin 1%R; Fin 1%R; Fin 1%R; Fin 1%R; Fin 10%R]);
        ((997 * microseconds_per_day)%Z,
         [Fin 1%R; Fin 1%R; Fin 1%R; Fin 4%R; Fin 10%R])].

(** A service that does not answer. *)
Definition silent_requests (function symbol : string) : answer :=
  RequestException.

Definition sample_to_datetime (cell : json) : bool := true.

Definition sample_plain (data : dict json) : fetched frame :=
  Failed LibraryError.

Definition sample_clock (symbol : string) : Z := sample_now.

Definition sample_other (symbol : string) (previous : float64) : res float64 :=
  Ok NaN.

End Provider.

(* ------------------------------------------------------------------ *)
(** * [src/api_agent.py]: the [AlphaVantageAgent] of the service *)

Module Api.

Local Open Scope string_scope.

(** The exception the endpoints answer with. *)
Record HTTPException : Type := mkHTTPException {
  status_code : Z;
  detail : string
}.

(** The exceptions that can leave the [try] block of lines 56-116, by the
    [except] clause that catches them, each with its text. *)
Inductive raised : Type :=
| RequestException (text : string)
| KeyError (text : string)
| ValueError (text : string)
| OtherException (text : string).

Definition supported_intervals : list string := ["1d"; "1wk"; "1mo"].

Section Agent.

(** The tables of pandas, and [pd.DataFrame()]. *)
Variable frame : Type.
Variable empty_frame : frame.

(** The [try] block of lines 56-116 for a function and a symbol: the
    table it returns, or the exception it ends with. *)
Variable fetch_block : string -> string -> raised + frame.

(** [_fetch_data], lines 37-129: every exception of the block becomes an
    [HTTPException]. *)
Definition _fetch_data (function symbol : string) : HTTPException + frame :=
  match fetch_block function symbol with
  | inr df => inr df
  | inl (RequestException e) =>
      inl (mkHTTPException 500%Z ("Failed to fetch data from Alpha Vantage: " ++ e))
  | inl (KeyError e) =>
      inl (mkHTTPException 500%Z ("Invalid data from Alpha Vantage: " ++ e))
  | inl (ValueError e) => inl (mkHTTPException 500%Z e)
  | inl (OtherException e) =>
      inl (mkHTTPException 500%Z ("An unexpected error occurred: " ++ e))
  end.

(** [get_stock_prices], lines 131-149. *)
Definition get_stock_prices (symbols : list string) : dict frame :=
  fold_left
    (fun results symbol =>
       match _fetch_data "GLOBAL_QUOTE" symbol with
       | inr df => dict_set results symbol df
       | inl _ => dict_set results symbol empty_frame
       end)
    symbols [].

Definition unsupported_message (interval : string) : string :=
  "Interval '" ++ interval ++ "' not supported. Use '1d', '1wk', or '1mo'.".

(** [get_historical_data], lines 151-174; [period] is not used. *)
Definition get_historical_data (symbol interval period : string)
  : HTTPException + frame :=
  if negb (existsb (String.eqb interval) supported_intervals) then
    inl (mkHTTPException 400%Z (unsupported_message interval))
  else
    let function :=
      if String.eqb interval "1d" then "TIME_SERIES_DAILY"
      else if String.eqb interval "1wk" then "TIME_SERIES_WEEKLY"
      else "TIME_SERIES_MONTHLY" in
    _fetch_data function symbol.

(** [get_company_overview], lines 176-190. *)
Definition get_company_overview (symbol : string) : HTTPException + frame :=
  _fetch_data "OVERVIEW" symbol.

(** The table [get_stock_prices] stores for a symbol. *)
Definition quote_or_empty (symbol : string) : frame :=
  match _fetch_data "GLOBAL_QUOTE" symbol with
  | inr df => df
  | inl _ => empty_frame
  end.

End Agent.

End Api.

(* ------------------------------------------------------------------ *)
(** * [src/orchestrator.py]: [Orchestrator] *)

Module Orchestrator.

Local Open Scope string_scope.

(** The classes the orchestrator builds its agents from. *)
Inductive class : Type :=
| VoiceAgent          (* src/voice_agent.py *)
| AlphaVantageAgent   (* src/api_agent.py *)
| BaseRetriever       (* src/retriever_agent.py *)
| AnalysisAgent       (* src/analysis_agent.py *)
| ScrapingAgent       (* src/scraping_agent.py *)
| LanguageAgent.      (* src/language_agent.py *)

(** What an instance of each class has: the methods of the class body and
    the attributes its [__init__] sets. *)
Definition attributes (c : class) : list string :=
  match c with
  | VoiceAgent =>
      ["stt_model"; "tts_engine"; "llm_callback"; "speaking_event";
       "transcribe_audio"; "speak_text"; "listen_microphone";
       "process_microphone_input"]
  | AlphaVantageAgent =>
      ["api_key"; "_fetch_data"; "get_stock_prices"; "get_historical_data";
       "get_company_overview"]
  | BaseRetriever =>
      ["texts"; "embeddings"; "metadata"; "add_texts"; "retrieve"; "get_all"]
  | AnalysisAgent =>
      ["api_agent"; "_get_historical_data"; "_get_latest_quote";
       "analyze_risk_exposure"]
  | ScrapingAgent =>
      ["user_agent"; "_fetch_document"; "_parse_html";
       "_extract_text_from_pdf"; "_extract_data_from_html";
       "_extract_data_from_text"; "scrape_filing"; "scrape_filings"]
  | LanguageAgent => ["llm"; "memory"; "generate_market_brief"]
  end.

(** The number of arguments [__init__] has no default for, [self] apart. *)
Definition required_arguments (c : class) : nat :=
  match c with
  | AnalysisAgent => 1%nat    (* api_agent *)
  | LanguageAgent => 1%nat    (* llm *)
  | _ => 0%nat
  end.

(** The exceptions of this module. *)
Inductive raised : Type :=
| AttributeError (c : class) (name : string)
| TypeError (c : class)          (* a call with too few arguments *)
| ImportError (msg : string)
| ValueError (msg : string)
| LibraryError.                  (* raised by whisper or pyttsx3 *)

Definition out (A : Type) : Type := (raised + A)%type.

Definition then_ {A B : Type} (c : out A) (k : A -> out B) : out B :=
  match c with
  | inr a => k a
  | inl e => inl e
  end.

(** [needle in hay] on strings. *)
Definition contains (needle hay : string) : bool :=
  match String.index 0%nat needle hay with
  | Some _ => true
  | None => false
  end.

Definition sorry : string := "Sorry, I couldn't understand your request.".

Section Orchestrator.

(** Python values, and what a method that exists returns when called. *)
Variable value : Type.
Variable of_string : string -> value.
Variable of_list : list value -> value.
Variable invoke : class -> string -> list value -> value.

(** [agent.name(args)] on an instance of class [c]. *)
Definition call (c : class) (name : string) (args : list value) : out value :=
  if existsb (String.eqb name) (attributes c)
  then inr (invoke c name args)
  else inl (AttributeError c name).

(** [handle_query], lines 25-38. *)
Definition handle_query (query : string) : out value :=
  then_
    (if contains "market data" query then
       then_ (call AlphaVantageAgent "get_market_data" [of_string "AAPL"])
         (fun market_data =>
       then_ (call AnalysisAgent "analyze_market_data" [of_list [market_data]])
         (fun analysis_results =>
       call LanguageAgent "generate_response" [analysis_results]))
     else if contains "filings" query then
       then_ (call BaseRetriever "get_relevant_filings" [of_string query])
         (fun filings =>
       then_ (call AnalysisAgent "analyze_filings" [filings])
         (fun analysis_results =>
       call LanguageAgent "generate_response" [analysis_results]))
     else inr (of_string sorry))
    (fun response =>
       then_ (call VoiceAgent "tts" [response]) (fun _ => inr response)).

(** ** [__init__], lines 17-23 *)

(** The machine the orchestrator starts on: whether whisper and pyttsx3 can
    be imported, whether loading the model and starting the engine return,
    and the value of ALPHA_VANTAGE_API_KEY. *)
Variable whisper_installed pyttsx3_installed : bool.
Variable load_model_returns pyttsx3_init_returns : bool.
Variable alpha_vantage_api_key : option string.

(** A call [C(args)]: too few arguments raise TypeError before the body of
    [__init__] runs. *)
Definition construct (c : class) (given : nat) (body : out unit) : out class :=
  if (given <? required_arguments c)%nat then inl (TypeError c)
  else then_ body (fun _ => inr c).

(** [VoiceAgent.__init__], src/voice_agent.py lines 22-30. *)
Definition VoiceAgent_init : out unit :=
  if negb whisper_installed then inl (ImportError "Whisper is required for STT.")
  else if negb pyttsx3_installed
  then inl (ImportError "pyttsx3 is required for TTS.")
  else if negb load_model_returns then inl LibraryError
  else if negb pyttsx3_init_returns then inl LibraryError
  else inr tt.

(** [AlphaVantageAgent.__init__], src/api_agent.py lines 26-35, with its
    default argument. *)
Definition AlphaVantageAgent_init : out unit :=
  match alpha_vantage_api_key with
  | None | Some "" => inl (ValueError "Alpha Vantage API key is required.")
  | Some _ => inr tt
  end.

(** [Orchestrator.__init__]. *)
Definition Orchestrator_init : out (list class) :=
  then_ (construct VoiceAgent 0%nat VoiceAgent_init) (fun voice_agent =>
  then_ (construct AlphaVantageAgent 0%nat AlphaVantageAgent_init) (fun api_agent =>
  then_ (construct BaseRetriever 0%nat (inr tt)) (fun retriever_agent =>
  then_ (construct AnalysisAgent 1%nat (inr tt)) (fun analysis_agent =>
  then_ (construct ScrapingAgent 0%nat (inr tt)) (fun scraping_agent =>
  then_ (construct LanguageAgent 0%nat (inr tt)) (fun language_agent =>
  inr [voice_agent; api_agent; retriever_agent; analysis_agent;
       scraping_agent; language_agent])))))).

(** The object line 21 hands to [AnalysisAgent] as its [api_agent]: the
    value of the environment variable. *)
Definition analysis_api_agent : Provider.api_object :=
  match alpha_vantage_api_key with
  | Some key => Provider.StrObject key
  | None => Provider.NoneObject
  end.

End Orchestrator.

End Orchestrator.

(* ------------------------------------------------------------------ *)
(** * Concrete worlds for the analysis agent *)

Module Examples.

Import Analysis.

Local Open Scope string_scope.
Local Open Scope Z_scope.

(** Every symbol has three closes; the latest quote of each is 104. *)
Definition main_history (symbol : string) : Series Z :=
  [(1, Fin 100%R); (2, Fin 101%R); (3, Fin 103%R)].

Definition main_quote (symbol : string) : option float64 := Some (Fin 104%R).

(** Two symbols with data on the same three days, a third without data, and
    an allocation table labelled by the two symbols on both axes. *)
Definition demo_history (symbol : string) : Series Z :=
  if String.eqb symbol "AAPL" then [(1, Fin 1%R); (2, Fin 2%R); (3, Fin 3%R)]
  else if String.eqb symbol "TSMC" then [(1, Fin 4%R); (2, Fin 2%R); (3, Fin 3%R)]
  else [].

Definition demo_quote (symbol : string) : option float64 :=
  if String.eqb symbol "AAPL" then Some (Fin 5%R)
  else if String.eqb symbol "TSMC" then Some (Fin 0%R)
  else None.

Definition demo_stock_list : list string := ["AAPL"; "TSMC"; "Samsung"].

Definition demo_allocation : DataFrame string :=
  mkDataFrame ["AAPL"; "TSMC"] ["AAPL"; "TSMC"]
              [[Fin 3%R; Fin 1%R]; [Fin 1%R; Fin 2%R]].

Definition demo_data : DataFrame Z :=
  mkDataFrame [1; 2; 3] ["AAPL"; "TSMC"]
              [[Fin 1%R; Fin 4%R]; [Fin 2%R; Fin 2%R]; [Fin 3%R; Fin 3%R]].

Definition demo_returns : DataFrame Z :=
  mkDataFrame [2; 3] ["AAPL"; "TSMC"]
              [[Fin (2 / 1 + - (1))%R; Fin (2 / 4 + - (1))%R];
               [Fin (3 / 2 + - (1))%R; Fin (3 / 2 + - (1))%R]].

Definition demo_weighted : DataFrame Z :=
  mkDataFrame [2; 3] ["AAPL"; "TSMC"]
              [[Fin ((2 / 1 + - (1)) * 3)%R; Fin ((2 / 4 + - (1)) * 1)%R];
               [Fin ((3 / 2 + - (1)) * 1)%R; Fin ((3 / 2 + - (1)) * 2)%R]].

Definition demo_price_change : Series string :=
  [("AAPL", Fin (5 + - (3))%R); ("TSMC", Fin (0 + - (3))%R)].

(** The record the run on this world returns. *)
Definition demo_result : analysis_result :=
  mkResult (to_dict (corr demo_returns))
           (std (sum_axis1 demo_weighted))
           "TSMC"
           (Scalar (Fin (0 + - (3))%R))
           (fmul (fdiv (series_sum (sum_axis0 demo_allocation))
                       (series_sum (sum_axis0 demo_allocation)))
                 (Fin 100%R))
           (fmul (fdiv (series_sum (sum_axis0 (shift demo_allocation)))
                       (series_sum (sum_axis0 demo_allocation)))
                 (Fin 100%R)).

(** One symbol whose close doubles every day, and a one-cell allocation
    table labelled by the symbol on both axes. *)
Definition doubling_history (symbol : string) : Series Z :=
  if String.eqb symbol "A" then [(1, Fin 1%R); (2, Fin 2%R); (3, Fin 4%R)]
  else [].

Definition doubling_quote (symbol : string) : option float64 := Some (Fin 5%R).

Definition doubling_allocation : DataFrame string :=
  mkDataFrame ["A"] ["A"] [[Fin 1%R]].

Definition doubling_data : DataFrame Z :=
  mkDataFrame [1; 2; 3] ["A"] [[Fin 1%R]; [Fin 2%R]; [Fin 4%R]].

Definition doubling_returns : DataFrame Z :=
  mkDataFrame [2; 3] ["A"] [[Fin (2 / 1 + - (1))%R]; [Fin (4 / 2 + - (1))%R]].


(** One symbol with closes on two days only, and the one-cell allocation
    table. *)
Definition brief_history (symbol : string) : Series Z :=
  if String.eqb symbol "A" then [(1, Fin 1%R); (2, Fin 2%R)] else [].

Definition brief_data : DataFrame Z :=
  mkDataFrame [1; 2] ["A"] [[Fin 1%R]; [Fin 2%R]].

Definition brief_returns : DataFrame Z :=
  mkDataFrame [2] ["A"] [[Fin (2 / 1 + - (1))%R]].

Definition brief_result : analysis_result :=
  mkResult (to_dict (corr brief_returns))
           (std (sum_axis1
                   (mkDataFrame [2] ["A"] [[Fin ((2 / 1 + - (1)) * 1)%R]])))
           "A"
           (Scalar (Fin (5 + - (2))%R))
           (fmul (fdiv (series_sum (sum_axis0 doubling_allocation))
                       (series_sum (sum_axis0 doubling_allocation)))
                 (Fin 100%R))
           (fmul (fdiv (series_sum (sum_axis0 (shift doubling_allocation)))
                       (series_sum (sum_axis0 doubling_allocation)))
                 (Fin 100%R)).

(** The symbol whose close doubles, listed twice. *)
Definition repeated_price_change : Series string :=
  [("A", Fin (5 + - (4))%R); ("A", Fin (5 + - (4))%R)].

Definition repeated_result : analysis_result :=
  mkResult (to_dict (corr doubling_returns))
           (std (sum_axis1
                   (mkDataFrame [2; 3] ["A"]
                      [[Fin ((2 / 1 + - (1)) * 1)%R];
                       [Fin ((4 / 2 + - (1)) * 1)%R]])))
           "A"
           (SubSeries repeated_price_change)
           (fmul (fdiv (series_sum
                          (sum_axis0 (mkDataFrame ["A"] ["A"; "A"]
                                                  [[Fin 1%R; Fin 1%R]])))
                       (series_sum (sum_axis0 doubling_allocation)))
                 (Fin 100%R))
           (fmul (fdiv (series_sum
                          (sum_axis0 (mkDataFrame ["A"] ["A"; "A"]
                                                  [[NaN; NaN]])))
                       (series_sum (sum_axis0 doubling_allocation)))
                 (Fin 100%R)).

(** Two symbols that did not trade on the same days: B has no close on
    day 1. *)
Definition staggered_history (symbol : string) : Series Z :=
  if String.eqb symbol "A" then [(1, Fin 1%R); (2, Fin 2%R); (3, Fin 4%R)]
  else if String.eqb symbol "B" then [(2, Fin 5%R); (3, Fin 10%R)]
  else [].

Definition staggered_data : DataFrame Z :=
  mkDataFrame [1; 2; 3] ["A"; "B"]
              [[Fin 1%R; NaN]; [Fin 2%R; Fin 5%R]; [Fin 4%R; Fin 10%R]].

(** Three symbols, of which B has no close on day 4, the last day of the
    other two, and an allocation table labelled by the three symbols on
    both axes. *)
Definition lagging_history (symbol : string) : Series Z :=
  if String.eqb symbol "A"
  then [(1, Fin 1%R); (2, Fin 2%R); (3, Fin 3%R); (4, Fin 4%R)]
  else if String.eqb symbol "B"
  then [(1, Fin 1%R); (2, Fin 2%R); (3, Fin 1%R)]
  else if String.eqb symbol "C"
  then [(1, Fin 2%R); (2, Fin 2%R); (3, Fin 2%R); (4, Fin 3%R)]
  else [].

Definition lagging_quote (symbol : string) : option float64 :=
  if String.eqb symbol "A" then Some (Fin 5%R)
  else if String.eqb symbol "B" then Some (Fin 100%R)
  else Some (Fin 3%R).

Definition lagging_stock_list : list string := ["A"; "B"; "C"].

Definition lagging_allocation : DataFrame string :=
  mkDataFrame ["A"; "B"; "C"] ["A"; "B"; "C"]
              [[Fin 1%R; Fin 0%R; Fin 0%R];
               [Fin 0%R; Fin 1%R; Fin 0%R];
               [Fin 0%R; Fin 0%R; Fin 1%R]].

Definition lagging_data : DataFrame Z :=
  mkDataFrame [1; 2; 3; 4] ["A"; "B"; "C"]
              [[Fin 1%R; Fin 1%R; Fin 2%R];
               [Fin 2%R; Fin 2%R; Fin 2%R];
               [Fin 3%R; Fin 1%R; Fin 2%R];
               [Fin 4%R; NaN; Fin 3%R]].

Definition lagging_returns : DataFrame Z :=
  mkDataFrame [2; 3; 4] ["A"; "B"; "C"]
              [[Fin (2 / 1 + - (1))%R; Fin (2 / 1 + - (1))%R;
                Fin (2 / 2 + - (1))%R];
               [Fin (3 / 2 + - (1))%R; Fin (1 / 2 + - (1))%R;
                Fin (2 / 2 + - (1))%R];
               [Fin (4 / 3 + - (1))%R; Fin (1 / 1 + - (1))%R;
                Fin (3 / 2 + - (1))%R]].

End Examples.

(* ================================================================== *)
(** * Properties *)

Unset Implicit Arguments.

(** ** Sequencing *)

Lemma bind_Ok_inv {A B : Type} (c : res A) (k : A -> res B) (b : B) :
  bind c k = Ok b -> exists a, c = Ok a /\ k a = Ok b.
Proof.
  destruct c as [a | e]; simpl; intros H.
  - exists a. split; [reflexivity | exact H].
  - discriminate H.
Qed.

Lemma mapM_length {A B : Type} (f : A -> res B) (l : list A) (bs : list B) :
  mapM f l = Ok bs -> length bs = length l.
Proof.
  revert bs. induction l as [| a t IH]; simpl; intros bs H.
  - inversion H. reflexivity.
  - apply bind_Ok_inv in H. destruct H as [b [_ H]].
    apply bind_Ok_inv in H. destruct H as [bs' [Ht H]].
    inversion H. simpl. f_equal. apply IH. exact Ht.
Qed.

(** ** Lists *)

Lemma map_snd_combine {A B : Type} (l : list A) (m : list B) :
  length l = length m -> map snd (combine l m) = m.
Proof.
  revert m. induction l as [| a t IH]; intros [| b m] H; simpl in *;
    try discriminate; [reflexivity |].
  f_equal. apply IH. lia.
Qed.


(** Takes an equation [bind c k = Ok b] apart. *)
Tactic Notation "bind_inv" hyp(H) ident(x) ident(Hx) :=
  apply bind_Ok_inv in H; destruct H as [x [Hx H]].

(** ** Order on float64 values *)

Module NumFacts.

Lemma fle_refl (x : float64) : isnan x = false -> fle x x = true.
Proof.
  destruct x as [| | | a]; simpl; intros H; try reflexivity; try discriminate.
  destruct (Rle_dec a a) as [_ | Hn]; [reflexivity | exfalso; lra].
Qed.

Lemma fle_trans (x y z : float64) :
  fle x y = true -> fle y z = true -> fle x z = true.
Proof.
  destruct x as [| | | a], y as [| | | b], z as [| | | c]; simpl;
    try reflexivity; try discriminate.
  destruct (Rle_dec a b), (Rle_dec b c), (Rle_dec a c);
    try reflexivity; try discriminate. exfalso; lra.
Qed.

Lemma fle_total (x y : float64) :
  isnan x = false -> isnan y = false -> fle x y = false -> fle y x = true.
Proof.
  destruct x as [| | | a], y as [| | | b]; simpl;
    try reflexivity; try discriminate.
  destruct (Rle_dec a b), (Rle_dec b a);
    try reflexivity; try discriminate. exfalso; lra.
Qed.

Lemma fle_not_nan (x y : float64) :
  fle x y = true -> isnan x = false /\ isnan y = false.
Proof.
  destruct x, y; simpl; intros H; try discriminate; split; reflexivity.
Qed.

Lemma fgt_false (x y : float64) :
  isnan x = false -> isnan y = false -> fgt x y = false -> fle x y = true.
Proof.
  destruct x, y; simpl; try discriminate; intros _ _ H;
    try reflexivity; try discriminate;
    apply negb_false_iff in H; exact H.
Qed.

Lemma fgt_true (x y : float64) :
  fgt x y = true -> isnan x = false /\ isnan y = false /\ fle x y = false.
Proof.
  destruct x, y; simpl; intros H; try discriminate;
    repeat split; try reflexivity; apply negb_true_iff in H; exact H.
Qed.

Lemma isnan_fabs (x : float64) : isnan (fabs x) = isnan x.
Proof. destruct x; reflexivity. Qed.

End NumFacts.

(** ** Dictionaries *)

Module DictFacts.

Section Dict.

Context {V : Type}.

Lemma dict_get_set (d : dict V) (k k' : string) (v : V) :
  dict_get (dict_set d k v) k'
  = if String.eqb k k' then Some v else dict_get d k'.
Proof.
  induction d as [| [k0 v0] t IH]; simpl.
  - reflexivity.
  - destruct (String.eqb k0 k) eqn:E0; simpl.
    + apply String.eqb_eq in E0. subst k0.
      destruct (String.eqb k k'); reflexivity.
    + rewrite IH. destruct (String.eqb k0 k') eqn:E1; [| reflexivity].
      destruct (String.eqb k k') eqn:E2; [| reflexivity].
      apply String.eqb_eq in E1, E2. subst. rewrite String.eqb_refl in E0.
      discriminate.
Qed.



End Dict.







End DictFacts.

(** ** Pearson correlation *)

Module CorrelationFacts.

Local Open Scope R_scope.

Lemma in_finite_values (x : list float64) (a : R) :
  In a (finite_values x) <-> In (Fin a) x.
Proof.
  unfold finite_values. rewrite in_flat_map. split.
  - intros (c & Hc & Ha). destruct c; simpl in Ha; try contradiction.
    destruct Ha as [<- | []]. exact Hc.
  - intros H. exists (Fin a). split; [exact H | left; reflexivity].
Qed.

Lemma complete_pairs_diag (x : list float64) :
  complete_pairs x x = map (fun a => (a, a)) (finite_values x).
Proof.
  induction x as [| c t IH]; [reflexivity |].
  destruct c; simpl; rewrite IH; reflexivity.
Qed.


Lemma Rsum_nonneg (l : list R) : (forall t, In t l -> 0 <= t) -> 0 <= Rsum l.
Proof.
  induction l as [| a t IH]; simpl; intros H; [lra |].
  pose proof (H a (or_introl eq_refl)).
  assert (0 <= Rsum t) by (apply IH; intros; apply H; right; assumption).
  lra.
Qed.

Lemma Rsum_pos (l : list R) (a : R) :
  (forall t, In t l -> 0 <= t) -> In a l -> 0 < a -> 0 < Rsum l.
Proof.
  induction l as [| b t IH]; simpl; intros Hall Hin Ha; [contradiction |].
  pose proof (Hall b (or_introl eq_refl)) as Hb.
  assert (Ht : 0 <= Rsum t)
    by (apply Rsum_nonneg; intros; apply Hall; right; assumption).
  destruct Hin as [-> | Hin]; [lra |].
  assert (0 < Rsum t) by (apply IH; [intros; apply Hall; right |..]; assumption).
  lra.
Qed.


Lemma square_nonneg (r : R) : 0 <= r * r.
Proof. exact (Rle_0_sqr r). Qed.

Lemma square_pos (r : R) : r <> 0 -> 0 < r * r.
Proof. exact (Rsqr_pos_lt r). Qed.

Lemma sum_sq_dev_nonneg (l : list R) : 0 <= sum_sq_dev l.
Proof.
  unfold sum_sq_dev. apply Rsum_nonneg. intros t Ht.
  apply in_map_iff in Ht. destruct Ht as (v & <- & _). apply square_nonneg.
Qed.

Lemma sum_sq_dev_pos (l : list R) (u v : R) :
  In u l -> In v l -> u <> v -> 0 < sum_sq_dev l.
Proof.
  intros Hu Hv Huv. unfold sum_sq_dev.
  assert (Hall : forall t, In t (map (fun w => (w - mean l) * (w - mean l)) l)
                           -> 0 <= t).
  { intros t Ht. apply in_map_iff in Ht. destruct Ht as (w & <- & _).
    apply square_nonneg. }
  destruct (Req_dec_T u (mean l)) as [Heq | Hne].
  - apply Rsum_pos with (a := (v - mean l) * (v - mean l)); [exact Hall | |].
    + apply in_map_iff. exists v. split; [reflexivity | exact Hv].
    + apply square_pos. lra.
  - apply Rsum_pos with (a := (u - mean l) * (u - mean l)); [exact Hall | |].
    + apply in_map_iff. exists u. split; [reflexivity | exact Hu].
    + apply square_pos. lra.
Qed.



Lemma map_fst_diag (l : list R) : map fst (map (fun a => (a, a)) l) = l.
Proof. rewrite map_map. simpl. apply map_id. Qed.

Lemma map_snd_diag (l : list R) : map snd (map (fun a => (a, a)) l) = l.
Proof. rewrite map_map. simpl. apply map_id. Qed.

Lemma sum_co_dev_diag (l : list R) :
  sum_co_dev (map (fun a => (a, a)) l) = sum_sq_dev l.
Proof.
  unfold sum_co_dev, sum_sq_dev.
  rewrite map_fst_diag, map_snd_diag, map_map. reflexivity.
Qed.

Lemma correlation_of_cons (obs : list (R * R)) :
  obs <> [] ->
  correlation_of obs
  = if Req_dec_T (sqrt (sum_sq_dev (map fst obs) * sum_sq_dev (map snd obs))) 0
    then NaN
    else Fin (clip1 (sum_co_dev obs
                     / sqrt (sum_sq_dev (map fst obs) * sum_sq_dev (map snd obs)))).
Proof. destruct obs; [contradiction | reflexivity]. Qed.

Lemma diag_nonempty (l : list R) (u : R) :
  In u l -> map (fun a => (a, a)) l <> [].
Proof. destruct l; [contradiction | discriminate]. Qed.

(** A column whose finite entries vary has correlation 1 with itself. *)
Lemma pearson_diag (x : list float64) : varies x -> pearson x x = Fin 1.
Proof.
  intros (u & v & Hu & Hv & Huv). unfold pearson.
  rewrite complete_pairs_diag.
  apply in_finite_values in Hu, Hv.
  rewrite (correlation_of_cons _ (diag_nonempty _ _ Hu)).
  rewrite map_fst_diag, map_snd_diag, sum_co_dev_diag.
  pose proof (sum_sq_dev_pos _ _ _ Hu Hv Huv) as Hpos.
  rewrite sqrt_square by lra.
  destruct (Req_dec_T (sum_sq_dev (finite_values x)) 0) as [H0 | _]; [lra |].
  f_equal. unfold clip1.
  replace (sum_sq_dev (finite_values x) / sum_sq_dev (finite_values x)) with 1
    by (field; lra).
  destruct (Rlt_dec 1 1); [lra |]. destruct (Rlt_dec 1 (-1)); [lra | reflexivity].
Qed.






End CorrelationFacts.

(** ** The analysis agent *)

Module AnalysisFacts.

Import Analysis.

Section Agent.

Variable hist : string -> Series Z.
Variable quote : string -> option float64.
Variable pad : bool.

Lemma filter_filter {A : Type} (f g : A -> bool) (l : list A) :
  filter f (filter g l) = filter (fun a => g a && f a) l.
Proof.
  induction l as [| a t IH]; simpl; [reflexivity |].
  destruct (g a); simpl; [destruct (f a) |]; rewrite IH; reflexivity.
Qed.

Lemma scan_fold_snd (seen : list string) (d : dict (Series Z)) (cur : list string) :
  snd (fold_left (scan_step hist) seen (d, cur))
  = filter (fun s => negb (dropped_by hist seen s)) cur.
Proof.
  revert d cur. induction seen as [| a t IH]; intros d cur; simpl.
  - symmetry. apply forallb_filter_id. apply forallb_forall. reflexivity.
  - destruct (scan_step hist (d, cur) a) as [d' cur'] eqn:Hstep.
    rewrite IH. unfold scan_step in Hstep. cbn [fst snd] in Hstep.
    destruct (is_empty (hist a)) eqn:Ha; inversion Hstep; subst d' cur'.
    + rewrite filter_filter. apply filter_ext. intros s.
      unfold dropped_by. cbn [existsb]. rewrite ?Ha, andb_true_r.
      destruct (String.eqb s a); reflexivity.
    + apply filter_ext. intros s. unfold dropped_by. cbn [existsb].
      rewrite ?Ha, andb_false_r. reflexivity.
Qed.

(** The loop of lines 92-96 leaves exactly the symbols that have data, in
    their original order. *)
Lemma scan_history_retained (stock_list : list string) :
  snd (scan_history hist stock_list) = retained hist stock_list.
Proof.
  unfold scan_history, retained. rewrite scan_fold_snd.
  apply filter_ext_in. intros s Hs. f_equal.
  unfold dropped_by.
  destruct (is_empty (hist s)) eqn:He.
  - apply existsb_exists. exists s. split; [exact Hs |].
    rewrite String.eqb_refl, He. reflexivity.
  - destruct (existsb _ stock_list) eqn:Hex; [| reflexivity].
    apply existsb_exists in Hex. destruct Hex as [x [_ Hx]].
    apply andb_true_iff in Hx. destruct Hx as [Hsx Hx].
    apply String.eqb_eq in Hsx. subst x. congruence.
Qed.

(** C1.  When the historical fetch yields the empty table for every symbol
    of the list, [analyze_risk_exposure] returns the record
    [{"error": "No data available for any of the provided stocks."}],
    whatever the allocation table is; it neither raises nor goes on. *)
Theorem no_data_error_record (stock_list : list string)
  (allocation_data : DataFrame string) :
  (forall s, In s stock_list -> hist s = []) ->
  analyze_risk_exposure hist quote pad stock_list allocation_data
  = ErrorRecord "No data available for any of the provided stocks.".
Proof.
  intros Hall. unfold analyze_risk_exposure, risk_exposure.
  rewrite scan_history_retained.
  assert (Hnil : retained hist stock_list = []).
  { unfold retained. induction stock_list as [| a t IH]; simpl; [reflexivity |].
    rewrite (Hall a (or_introl eq_refl)). simpl.
    apply IH. intros s Hs. apply Hall. right. exact Hs. }
  rewrite Hnil. reflexivity.
Qed.

(** *** What a returned record tells about the run *)

Lemma analyze_Result_inv (stock_list : list string)
  (allocation_data : DataFrame string) (r : analysis_result) :
  analyze_risk_exposure hist quote pad stock_list allocation_data = Result r ->
  exists data weights weighted price_change,
    retained hist stock_list <> []
    /\ closes_for hist stock_list = Ok data
    /\ loc allocation_data (retained hist stock_list) = Ok weights
    /\ mul_ndarray (returns_of pad data) (values weights)
                   (length (columns weights)) = Ok weighted
    /\ price_change_of (latest_prices_of quote (retained hist stock_list))
                       (previous_prices_of data (retained hist stock_list))
                       (retained hist stock_list) = Ok price_change
    /\ idxmax (series_abs price_change) = Ok (largest_change_stock r)
    /\ series_select price_change (largest_change_stock r)
       = Ok (largest_change_value r)
    /\ allocation_share allocation_data allocation_data
                        (retained hist stock_list)
       = Ok (allocation_percentage r)
    /\ correlation_matrix r = to_dict (corr (returns_of pad data))
    /\ portfolio_risk r = std (sum_axis1 weighted).
Proof.
  unfold analyze_risk_exposure, closes_for. intros H.
  destruct (risk_exposure hist quote pad stock_list allocation_data)
    as [o | e] eqn:Hbody; [subst o | discriminate H].
  unfold risk_exposure in Hbody.
  rewrite scan_history_retained in *.
  destruct (retained hist stock_list) as [| s0 rest] eqn:Hret;
    [discriminate Hbody |].
  bind_inv Hbody data Hdata.
  bind_inv Hbody weights Hweights.
  bind_inv Hbody weighted Hweighted.
  bind_inv Hbody price_change Hpc.
  bind_inv Hbody k Hk.
  bind_inv Hbody v Hv.
  bind_inv Hbody ap Hap.
  bind_inv Hbody pap Hpap.
  inversion Hbody; subst r; clear Hbody. simpl.
  exists data, weights, weighted, price_change.
  repeat split; try assumption. discriminate.
Qed.

(** *** Column selection and column sums *)

Lemma mapM_total {A B : Type} (f : A -> res B) (g : A -> B) (l : list A)
  (bs : list B) :
  (forall a b, f a = Ok b -> b = g a) ->
  mapM f l = Ok bs -> bs = map g l.
Proof.
  intros Hfg. revert bs. induction l as [| a t IH]; simpl; intros bs H.
  - inversion H. reflexivity.
  - bind_inv H b Hb. bind_inv H bs' Hbs. inversion H; subst bs.
    rewrite (Hfg _ _ Hb), (IH _ Hbs). reflexivity.
Qed.

Lemma map_seq_nth {A B : Type} (g : A -> B) (js : list A) (d : A) :
  map (fun j => g (nth j js d)) (seq 0 (length js)) = map g js.
Proof.
  induction js as [| a t IH]; simpl; [reflexivity |].
  f_equal. rewrite <- seq_shift, map_map. exact IH.
Qed.

Lemma column_of_selection (js : list nat) (rows : list (list float64)) :
  map (fun j' => column j' (map (fun r => map (fun j => nth j r NaN) js) rows))
      (seq 0 (length js))
  = map (fun j => column j rows) js.
Proof.
  rewrite <- (map_seq_nth (fun j => column j rows) js 0%nat).
  apply map_ext_in. intros j' Hj'. apply in_seq in Hj'.
  unfold column. rewrite map_map. apply map_ext. intros r.
  rewrite (nth_indep _ NaN (nth 0 r NaN)) by (rewrite length_map; lia).
  apply (map_nth (fun j => nth j r NaN)).
Qed.

Lemma getitem_column_sums (df sel : DataFrame string) (labels : list string) :
  getitem df labels = Ok sel ->
  map nansum (columns_of sel)
  = flat_map (fun s => map (fun j => nansum (column j (values df)))
                           (positions (columns df) s)) labels.
Proof.
  unfold getitem. intros H. bind_inv H picked Hpicked.
  inversion H; subst sel; clear H.
  apply (mapM_total _ (positions (columns df))) in Hpicked.
  2:{ intros a b. destruct (positions (columns df) a) eqn:E;
      intros Hab; inversion Hab; reflexivity. }
  subst picked. unfold columns_of. cbn [columns values].
  rewrite length_map, column_of_selection, <- flat_map_concat_map.
  rewrite map_map.
  induction labels as [| l t IH]; simpl; [reflexivity |].
  rewrite map_app, IH. reflexivity.
Qed.

Lemma labelled_values (f : nat -> float64) (s : string) (cols : list string)
  (start : nat) :
  map snd (filter (fun p => String.eqb (fst p) s)
                  (combine cols (map f (seq start (length cols)))))
  = map f (map fst (filter (fun p => String.eqb (snd p) s)
                           (combine (seq start (length cols)) cols))).
Proof.
  revert start. induction cols as [| c t IH]; intros start; simpl;
    [reflexivity |].
  destruct (String.eqb c s); simpl; rewrite IH; reflexivity.
Qed.

(** Selecting the columns and summing them gives the weights of the symbols
    selected. *)
Lemma getitem_weights (df sel : DataFrame string) (labels : list string) :
  getitem df labels = Ok sel ->
  map snd (sum_axis0 sel) = weights_of df labels.
Proof.
  intros H. unfold sum_axis0.
  rewrite map_snd_combine
    by (unfold columns_of; rewrite !length_map, length_seq; reflexivity).
  rewrite (getitem_column_sums _ _ _ H).
  unfold weights_of, weights, sum_axis0, columns_of.
  apply flat_map_ext. intros s. rewrite map_map.
  rewrite (labelled_values (fun j => nansum (column j (values df)))).
  reflexivity.
Qed.

(** Whenever [analyze_risk_exposure] returns an analysis record, its
    [allocation_percentage] is the share line 129 computes from the column
    sums of the table, and the retained symbols are then not empty. *)
Lemma allocation_percentage_weight_share (stock_list : list string)
  (allocation_data : DataFrame string) (r : analysis_result) :
  analyze_risk_exposure hist quote pad stock_list allocation_data = Result r ->
  retained hist stock_list <> []
  /\ allocation_percentage r
     = weight_share allocation_data (retained hist stock_list).
Proof.
  intros H. apply analyze_Result_inv in H.
  destruct H as (data & w & weighted & pc & Hne & _ & _ & _ & _ & _ & _ & Hap & _).
  split; [exact Hne |].
  unfold allocation_share in Hap. bind_inv Hap selected Hsel.
  inversion Hap as [Heq]. unfold weight_share, series_sum, weights.
  rewrite (getitem_weights _ _ _ Hsel). reflexivity.
Qed.

(** *** The price changes *)

Import NumFacts DictFacts.

Lemma latest_prices_get (seen : list string) (d : dict (option float64))
  (k : string) :
  dict_get (fold_left (fun d symbol => dict_set d symbol (quote symbol)) seen d) k
  = if existsb (String.eqb k) seen then Some (quote k) else dict_get d k.
Proof.
  revert d. induction seen as [| a t IH]; intros d; simpl; [reflexivity |].
  rewrite IH, dict_get_set.
  destruct (existsb (String.eqb k) t); simpl.
  - rewrite orb_true_r. reflexivity.
  - rewrite orb_false_r, (String.eqb_sym k a).
    destruct (String.eqb a k) eqn:E; [| reflexivity].
    apply String.eqb_eq in E. subst. reflexivity.
Qed.

Lemma fold_Raise {A B : Type} (f : res A -> B -> res A) (l : list B) (e : exn) :
  (forall b, f (Raise e) b = Raise e) ->
  fold_left f l (Raise e) = Raise e.
Proof.
  intros Hf. induction l as [| b t IH]; simpl; [reflexivity |].
  rewrite Hf. exact IH.
Qed.

Lemma price_change_fold (latest previous : dict (option float64))
  (seen : list string) (cur pc : Series string) :
  fold_left (price_change_step latest previous) seen (Ok cur) = Ok pc ->
  pc = fold_left (fun c s => series_set c s (stored_change latest previous s))
                 seen cur.
Proof.
  revert cur. induction seen as [| a t IH]; intros cur H; cbn [fold_left] in *.
  - inversion H. reflexivity.
  - destruct (price_change_step latest previous (Ok cur) a) as [cur' | e] eqn:Hs.
    2:{ rewrite fold_Raise in H by reflexivity. discriminate H. }
    apply IH in H. rewrite H. f_equal.
    unfold price_change_step, dict_item, stored_change in *. simpl in Hs.
    destruct (dict_get latest a) as [l |]; [| discriminate Hs].
    destruct (dict_get previous a) as [p |]; [| discriminate Hs].
    simpl in Hs. destruct l as [l |], p as [p |]; inversion Hs; reflexivity.
Qed.

Lemma series_set_fold (g : string -> float64) (seen l : list string)
  (f : string -> float64) :
  fold_left (fun c s => series_set c s (g s)) seen (map (fun s => (s, f s)) l)
  = map (fun s => (s, if existsb (String.eqb s) seen then g s else f s)) l.
Proof.
  revert f. induction seen as [| a t IH]; intros f; simpl; [reflexivity |].
  unfold series_set at 2. rewrite map_map. simpl.
  rewrite (map_ext _ (fun s => (s, if String.eqb s a then g a else f s)))
    by (intros s; destruct (String.eqb s a); reflexivity).
  rewrite IH. apply map_ext. intros s.
  destruct (String.eqb s a) eqn:E; simpl.
  - apply String.eqb_eq in E. subst. destruct (existsb _ t); reflexivity.
  - reflexivity.
Qed.

(** Lines 118-123 store, for each symbol of the list, its own change. *)
Lemma price_change_of_spec (latest previous : dict (option float64))
  (stock_list : list string) (pc : Series string) :
  price_change_of latest previous stock_list = Ok pc ->
  pc = map (fun s => (s, stored_change latest previous s)) stock_list.
Proof.
  unfold price_change_of. intros H. apply price_change_fold in H.
  rewrite H, series_set_fold. apply map_ext_in. intros s Hs.
  replace (existsb (String.eqb s) stock_list) with true; [reflexivity |].
  symmetry. apply existsb_exists. exists s. split; [exact Hs |].
  apply String.eqb_refl.
Qed.

Lemma dict_get_map_Some (l : dict float64) (k : string) :
  dict_get (map (fun p => (fst p, Some (snd p))) l) k
  = option_map Some (dict_get l k).
Proof.
  induction l as [| [k0 v0] t IH]; simpl; [reflexivity |].
  destruct (String.eqb k0 k); [reflexivity | exact IH].
Qed.

Lemma dict_get_const_None (l : list string) (k : string) :
  dict_get (map (fun s => (s, @None float64)) l) k
  = if existsb (String.eqb k) l then Some None else None.
Proof.
  induction l as [| a t IH]; simpl; [reflexivity |].
  rewrite (String.eqb_sym k a). destruct (String.eqb a k); [reflexivity | exact IH].
Qed.

Lemma DataFrame_of_dict_rows (d : dict (Series Z)) (data : DataFrame Z) :
  DataFrame_of_dict d = Ok data ->
  length (values data) = length (index data).
Proof.
  unfold DataFrame_of_dict. intros H. bind_inv H cols Hcols.
  inversion H. simpl. rewrite length_map, length_seq. reflexivity.
Qed.

Lemma closes_for_rows (stock_list : list string) (data : DataFrame Z) :
  closes_for hist stock_list = Ok data ->
  length (values data) = length (index data).
Proof.
  unfold closes_for, close_table. intros H. bind_inv H closes Hc.
  exact (DataFrame_of_dict_rows _ _ H).
Qed.

(** What lines 120-123 store is the difference the specification names. *)
Lemma stored_change_is_difference (data : DataFrame Z) (symbols : list string)
  (s : string) :
  length (values data) = length (index data) ->
  In s symbols ->
  stored_change (latest_prices_of quote symbols)
                (previous_prices_of data symbols) s
  = price_difference quote data s.
Proof.
  intros Hrows Hs. unfold stored_change, price_difference, latest_prices_of.
  rewrite latest_prices_get.
  assert (Hin : existsb (String.eqb s) symbols = true).
  { apply existsb_exists. exists s. split; [exact Hs | apply String.eqb_refl]. }
  rewrite Hin. unfold previous_prices_of, last_close.
  destruct (0 <? length (index data))%nat eqn:Hlen.
  - rewrite dict_get_map_Some.
    destruct (quote s), (dict_get (iloc_last data) s); reflexivity.
  - apply Nat.ltb_ge in Hlen.
    assert (Hv : values data = []).
    { destruct (values data); [reflexivity | simpl in Hrows; lia]. }
    rewrite dict_get_const_None, Hin. unfold iloc_last. rewrite Hv. simpl.
    destruct (columns data); simpl; destruct (quote s); reflexivity.
Qed.

(** *** [idxmax] *)

Lemma argmax_loop_spec (l : Series string) (best : string * float64) :
  isnan (snd best) = false ->
  (forall p, In p l -> isnan (snd p) = false) ->
  In (argmax_loop best l) (best :: l)
  /\ forall p, In p (best :: l) -> fle (snd p) (snd (argmax_loop best l)) = true.
Proof.
  revert best. induction l as [| q t IH]; intros best Hb Hl; simpl.
  - split; [left; reflexivity |].
    intros p [<- | []]. apply fle_refl. exact Hb.
  - assert (Hq : isnan (snd q) = false) by (apply Hl; left; reflexivity).
    assert (Ht : forall p, In p t -> isnan (snd p) = false)
      by (intros p Hp; apply Hl; right; exact Hp).
    destruct (fgt (snd q) (snd best)) eqn:Hgt.
    + destruct (IH q Hq Ht) as [Hin Hmax]. split.
      * right. exact Hin.
      * intros p [<- | Hp]; [| apply Hmax; exact Hp].
        apply fle_trans with (y := snd q); [| apply Hmax; left; reflexivity].
        apply fgt_true in Hgt. destruct Hgt as (_ & _ & Hle).
        apply fle_total; assumption.
    + destruct (IH best Hb Ht) as [Hin Hmax]. split.
      * destruct Hin as [Hin | Hin]; [left; exact Hin | right; right; exact Hin].
      * intros p [<- | [<- | Hp]].
        -- apply Hmax. left. reflexivity.
        -- apply fle_trans with (y := snd best);
             [apply fgt_false; assumption | apply Hmax; left; reflexivity].
        -- apply Hmax. right. exact Hp.
Qed.

(** The label [idxmax] returns carries a value that is not NaN and that
    every other value that is not NaN is at most equal to. *)
Lemma idxmax_spec (s : Series string) (k : string) :
  idxmax s = Ok k ->
  exists v, In (k, v) s /\ isnan v = false
            /\ forall k' v', In (k', v') s -> isnan v' = false ->
                              fle v' v = true.
Proof.
  unfold idxmax. intros H.
  destruct (filter (fun p => negb (isnan (snd p))) s) as [| b t] eqn:Hf;
    [discriminate H |].
  inversion H as [Hk]. clear H.
  assert (Hall : forall p, In p (b :: t) -> In p s /\ isnan (snd p) = false).
  { intros p Hp. rewrite <- Hf in Hp. apply filter_In in Hp.
    destruct Hp as [Hp Hn]. split; [exact Hp |].
    apply negb_true_iff in Hn. exact Hn. }
  destruct (argmax_loop_spec t b) as [Hin Hmax].
  { apply Hall. left. reflexivity. }
  { intros p Hp. apply Hall. right. exact Hp. }
  exists (snd (argmax_loop b t)). repeat split.
  - rewrite <- surjective_pairing. apply Hall. exact Hin.
  - apply Hall. exact Hin.
  - intros k' v' Hin' Hn'. apply (Hmax (k', v')).
    rewrite <- Hf. apply filter_In. split; [exact Hin' |].
    simpl. rewrite Hn'. reflexivity.
Qed.

Lemma series_select_unique (g : string -> float64) (l : list string) (k : string) :
  NoDup l -> In k l ->
  series_select (map (fun s => (s, g s)) l) k = Ok (Scalar (g k)).
Proof.
  intros Hnd Hin. unfold series_select.
  assert (Hf : filter (fun p => String.eqb (fst p) k) (map (fun s => (s, g s)) l)
               = [(k, g k)]).
  { induction l as [| a t IH]; [destruct Hin |].
    inversion Hnd as [| ? ? Hna Hnd']; subst. simpl.
    destruct (String.eqb a k) eqn:E.
    - apply String.eqb_eq in E. subst a. f_equal.
      clear IH Hin Hnd Hnd'. induction t as [| b t IH]; [reflexivity |].
      simpl. destruct (String.eqb b k) eqn:E.
      + apply String.eqb_eq in E. subst b. exfalso. apply Hna. left. reflexivity.
      + apply IH. intros Hin. apply Hna. right. exact Hin.
    - apply IH; [exact Hnd' |]. destruct Hin as [-> | Hin]; [| exact Hin].
      rewrite String.eqb_refl in E. discriminate E. }
  rewrite Hf. reflexivity.
Qed.

(** C6 (as amended).  Whenever [analyze_risk_exposure] returns an analysis
    record, [largest_change_stock] is a retained symbol that has both a
    latest quoted price and a close in the last row of the table of closes,
    the absolute value of its price difference (latest quoted price minus
    its close in that row) is at least that of every retained symbol that
    has both, and, the retained symbols being pairwise distinct,
    [largest_change_value] is that symbol's signed price difference. *)
Theorem largest_change_maximal (stock_list : list string)
  (allocation_data : DataFrame string) (r : analysis_result) :
  analyze_risk_exposure hist quote pad stock_list allocation_data = Result r ->
  exists data,
    closes_for hist stock_list = Ok data
    /\ In (largest_change_stock r) (retained hist stock_list)
    /\ isnan (price_difference quote data (largest_change_stock r)) = false
    /\ (forall s, In s (retained hist stock_list) ->
                  isnan (price_difference quote data s) = false ->
                  fle (fabs (price_difference quote data s))
                      (fabs (price_difference quote data (largest_change_stock r)))
                  = true)
    /\ (NoDup (retained hist stock_list) ->
        largest_change_value r
        = Scalar (price_difference quote data (largest_change_stock r))).
Proof.
  intros H. apply analyze_Result_inv in H.
  destruct H as (data & w & weighted & pc & _ & Hdata & _ & _ & Hpc & Hk & Hv & _).
  exists data. split; [exact Hdata |].
  apply price_change_of_spec in Hpc.
  set (ret := retained hist stock_list) in *.
  set (latest := latest_prices_of quote ret) in *.
  set (previous := previous_prices_of data ret) in *.
  assert (Hdiff : forall s, In s ret ->
            stored_change latest previous s = price_difference quote data s).
  { intros s Hs. apply stored_change_is_difference; [| exact Hs].
    exact (closes_for_rows _ _ Hdata). }
  apply idxmax_spec in Hk. destruct Hk as (v & Hin & Hnan & Hmax).
  unfold series_abs in Hin. rewrite Hpc, map_map in Hin.
  apply in_map_iff in Hin. destruct Hin as (k & Hkv & Hkin).
  simpl in Hkv. inversion Hkv as [[Hkeq Hveq]]. clear Hkv.
  rewrite Hkeq in *. rewrite (Hdiff _ Hkin) in *.
  split; [exact Hkin |]. split.
  - rewrite <- Hveq, isnan_fabs in Hnan. exact Hnan.
  - split.
    + intros s Hs Hn. rewrite Hveq.
      apply (Hmax s). 2:{ rewrite isnan_fabs. exact Hn. }
      unfold series_abs. rewrite Hpc, map_map. apply in_map_iff.
      exists s. simpl. rewrite (Hdiff _ Hs). split; [reflexivity | exact Hs].
    + intros Hnd. rewrite Hpc, (series_select_unique _ _ _ Hnd Hkin) in Hv.
      inversion Hv as [Hs]. rewrite (Hdiff _ Hkin). reflexivity.
Qed.

(** *** The table of closes and the returns *)

Lemma DataFrame_of_dict_row_length (d : dict (Series Z)) (data : DataFrame Z) :
  DataFrame_of_dict d = Ok data ->
  forall row, In row (values data) ->
              length row = length (columns data) /\ row <> [].
Proof.
  unfold DataFrame_of_dict. intros H. bind_inv H cols Hcols.
  inversion H as [Hd]. clear H. simpl. intros row Hrow.
  apply in_map_iff in Hrow. destruct Hrow as (i & <- & Hi).
  apply mapM_length in Hcols. rewrite !length_map. split; [exact Hcols |].
  apply in_seq in Hi.
  destruct d as [| kv d']; [simpl in Hi; lia |].
  destruct cols; [discriminate Hcols | discriminate].
Qed.

Lemma closes_for_row_length (stock_list : list string) (data : DataFrame Z) :
  closes_for hist stock_list = Ok data ->
  forall row, In row (values data) ->
              length row = length (columns data) /\ row <> [].
Proof.
  unfold closes_for, close_table. intros H. bind_inv H closes Hc.
  exact (DataFrame_of_dict_row_length _ _ H).
Qed.

Lemma fdiv_NaN_r (x : float64) : fdiv x NaN = NaN.
Proof. destruct x; reflexivity. Qed.

Lemma zip_with_in {A B C : Type} (f : A -> B -> C) (l : list A) (m : list B)
  (c : C) :
  In c (zip_with f l m) -> exists a b, In a l /\ In b m /\ c = f a b.
Proof.
  revert m. induction l as [| a t IH]; intros [| b m] H; simpl in H;
    try contradiction.
  destruct H as [<- | H].
  - exists a, b. repeat split; left; reflexivity.
  - destruct (IH _ H) as (a' & b' & Ha & Hb & ->).
    exists a', b'. repeat split; right; assumption.
Qed.

Lemma in_removelast {A : Type} (l : list A) (x : A) :
  In x (removelast l) -> In x l.
Proof.
  induction l as [| a [| b t] IH]; simpl; intros H; try contradiction.
  destruct H as [<- | H]; [left; reflexivity | right; apply IH; exact H].
Qed.

Lemma length_removelast_cons {A : Type} (a : A) (l : list A) :
  length (removelast (a :: l)) = length l.
Proof.
  revert a. induction l as [| b t IH]; intros a; [reflexivity |].
  change (removelast (a :: b :: t)) with (a :: removelast (b :: t)).
  cbn [length]. rewrite (IH b). reflexivity.
Qed.

Lemma length_zip_with {A B C : Type} (f : A -> B -> C) (l : list A) (m : list B) :
  length (zip_with f l m) = Nat.min (length l) (length m).
Proof.
  revert m. induction l as [| a t IH]; intros [| b m]; simpl; try reflexivity.
  rewrite IH. reflexivity.
Qed.

(** The first row of the percentage changes is undefined. *)
Lemma pct_rows_head (r0 : list float64) (rest : list (list float64)) :
  r0 <> [] ->
  exists first later,
    pct_rows pad (r0 :: rest) = first :: later /\ has_nan first = true.
Proof.
  intros Hne. unfold pct_rows.
  assert (Hd : exists rest', (if pad then ffill (r0 :: rest) else r0 :: rest)
                             = r0 :: rest').
  { destruct pad; simpl; eexists; reflexivity. }
  destruct Hd as [rest' ->]. simpl.
  eexists. eexists. split; [reflexivity |].
  destruct r0 as [| x r0']; [contradiction |]. simpl.
  rewrite fdiv_NaN_r. reflexivity.
Qed.

Lemma combine_fst_snd {A B : Type} (l : list (A * B)) :
  combine (map fst l) (map snd l) = l.
Proof.
  induction l as [| [a b] t IH]; simpl; [reflexivity |]. rewrite IH. reflexivity.
Qed.

Lemma labelled_dropna {I : Type} (df : DataFrame I) :
  labelled (dropna df)
  = filter (fun p => negb (has_nan (snd p))) (labelled df).
Proof. unfold labelled, dropna. simpl. apply combine_fst_snd. Qed.

Lemma ffill_row_clean (prev cur : list float64) :
  length prev = length cur -> has_nan cur = false -> ffill_row prev cur = cur.
Proof.
  revert cur. induction prev as [| p t IH]; intros [| c cur] Hlen Hn;
    simpl in *; try discriminate; [reflexivity |].
  apply orb_false_iff in Hn. destruct Hn as [Hc Hn].
  unfold ffill_row in *. simpl. rewrite Hc.
  rewrite IH; [reflexivity | lia | exact Hn].
Qed.

Lemma ffill_from_clean (n : nat) (rows : list (list float64)) (prev : list float64) :
  length prev = n ->
  (forall row, In row rows -> length row = n /\ has_nan row = false) ->
  ffill_from prev rows = rows.
Proof.
  intros Hp. revert prev Hp. induction rows as [| r t IH]; intros prev Hp Hall;
    simpl; [reflexivity |].
  destruct (Hall r (or_introl eq_refl)) as [Hr Hn].
  rewrite (ffill_row_clean prev r) by (try lia; exact Hn).
  f_equal. apply IH; [exact Hr |]. intros row Hrow. apply Hall. right. exact Hrow.
Qed.

Lemma finite_nonzero_clean (row : list float64) :
  finite_nonzero row -> has_nan row = false.
Proof.
  intros H. unfold has_nan. destruct (existsb isnan row) eqn:E; [| reflexivity].
  apply existsb_exists in E. destruct E as (c & Hc & Hn).
  destruct (H c Hc) as (x & -> & _). discriminate Hn.
Qed.

Lemma pct_row_finite (cur prev : list float64) :
  finite_nonzero cur -> finite_nonzero prev -> has_nan (pct_row cur prev) = false.
Proof.
  intros Hc Hp. unfold has_nan.
  destruct (existsb isnan (pct_row cur prev)) eqn:E; [| reflexivity].
  apply existsb_exists in E. destruct E as (c & Hin & Hn).
  apply zip_with_in in Hin. destruct Hin as (a & b & Ha & Hb & ->).
  destruct (Hc a Ha) as (x & -> & _). destruct (Hp b Hb) as (y & -> & Hy).
  simpl in Hn. destruct (Req_dec_T y 0); [contradiction | discriminate Hn].
Qed.

Lemma pct_rows_clean (n : nat) (rows : list (list float64)) :
  (forall row, In row rows -> length row = n /\ finite_nonzero row) ->
  pct_rows pad rows = pct_rows false rows
  /\ forall row, In row (tl (pct_rows false rows)) -> has_nan row = false.
Proof.
  intros Hall. split.
  - unfold pct_rows. destruct pad; [| reflexivity].
    destruct rows as [| r0 rest]; [reflexivity |]. simpl ffill.
    rewrite (ffill_from_clean n); [reflexivity | |].
    + apply Hall. left. reflexivity.
    + intros row Hrow. destruct (Hall row (or_intror Hrow)) as [Hl Hf].
      split; [exact Hl | apply finite_nonzero_clean; exact Hf].
  - destruct rows as [| r0 rest]; [intros row [] |].
    unfold pct_rows. simpl. intros row Hrow.
    apply zip_with_in in Hrow. destruct Hrow as (cur & prev & Hcur & Hprev & ->).
    apply pct_row_finite.
    + apply Hall. right. exact Hcur.
    + apply Hall. apply in_removelast. exact Hprev.
Qed.

(** C5 (as amended).  The returns table of line 102 is the table of
    day-over-day percentage changes of the closes without its first row and
    without every later row that holds an undefined entry; when every close
    of the table is finite and not zero, the first row is the only row
    removed, and the changes are the plain ones (no filling takes place). *)
Theorem returns_drop_undefined_rows (stock_list : list string)
  (data : DataFrame Z) :
  closes_for hist stock_list = Ok data ->
  labelled (returns_of pad data)
  = filter (fun p => negb (has_nan (snd p)))
           (tl (labelled (pct_change pad data)))
  /\ ((forall row, In row (values data) -> finite_nonzero row) ->
      labelled (returns_of pad data) = tl (labelled (pct_change false data))).
Proof.
  intros Hdata.
  pose proof (closes_for_rows _ _ Hdata) as Hrows.
  pose proof (closes_for_row_length _ _ Hdata) as Hlen.
  unfold returns_of. rewrite labelled_dropna.
  unfold labelled, pct_change. cbn [index values].
  destruct (values data) as [| r0 rest] eqn:Hv.
  - assert (Hp : forall b, pct_rows b [] = []) by (intros []; reflexivity).
    rewrite !Hp. destruct (index data); split; reflexivity.
  - destruct (index data) as [| i0 irest] eqn:Hi; [discriminate Hrows |].
    destruct (Hlen r0 (or_introl eq_refl)) as [_ Hne].
    destruct (pct_rows_head r0 rest Hne) as (first & later & Hp & Hnan).
    split.
    + rewrite Hp. simpl. rewrite Hnan. reflexivity.
    + intros Hfin.
      destruct (pct_rows_clean (length (columns data)) (r0 :: rest)) as [Hsame Hclean].
      { intros row Hrow. split; [apply Hlen | apply Hfin]; exact Hrow. }
      rewrite Hsame in Hp. rewrite Hsame, Hp in *. simpl. rewrite Hnan. simpl.
      apply forallb_filter_id. apply forallb_forall. intros [i row] Hin.
      apply in_combine_r in Hin. simpl. rewrite Hclean; [reflexivity |].
      simpl. exact Hin.
Qed.

(** *** The correlation matrix *)

Import CorrelationFacts.







(** *** The columns of the table of closes *)

Lemma dict_set_keys {V : Type} (d : dict V) (k : string) (v : V) (s : string) :
  In s (map fst (dict_set d k v)) <-> s = k \/ In s (map fst d).
Proof.
  induction d as [| [k0 v0] t IH]; simpl.
  - split; [intros [<- | []]; left; reflexivity | intros [-> | []]; left; reflexivity].
  - destruct (String.eqb k0 k) eqn:E; simpl.
    + apply String.eqb_eq in E. subst k0. split.
      * intros [<- | H]; [left; reflexivity | right; right; exact H].
      * intros [-> | [<- | H]]; [left | left | right]; auto.
    + rewrite IH. split.
      * intros [<- | [-> | H]]; [right; left | left | right; right]; auto.
      * intros [-> | [<- | H]]; [right; left | left | right; right]; auto.
Qed.

Lemma dict_comprehension_keys {V : Type} (f : string -> res V)
  (keys : list string) (d0 d : dict V) :
  fold_left (fun acc k => d <- acc ;; v <- f k ;; Ok (dict_set d k v))
            keys (Ok d0) = Ok d ->
  forall s, In s (map fst d) <-> In s (map fst d0) \/ In s keys.
Proof.
  revert d0. induction keys as [| k t IH]; intros d0 H s; simpl in H.
  - inversion H. simpl. tauto.
  - destruct (f k) as [v | e] eqn:Hf; simpl in H.
    + rewrite (IH _ H s), dict_set_keys. simpl. split.
      * intros [[-> | Hs] | Hs]; auto.
      * intros [Hs | [<- | Hs]]; auto.
    + rewrite fold_Raise in H by reflexivity. discriminate H.
Qed.

(** The columns of the table of closes are the retained symbols. *)
Lemma closes_for_columns (stock_list : list string) (data : DataFrame Z) :
  closes_for hist stock_list = Ok data ->
  forall s, In s (columns data) <-> In s (retained hist stock_list).
Proof.
  unfold closes_for, close_table. rewrite scan_history_retained.
  intros H s. bind_inv H closes Hc.
  unfold DataFrame_of_dict in H. bind_inv H cols Hcols.
  inversion H. simpl.
  rewrite (dict_comprehension_keys _ _ _ _ Hc s). simpl. tauto.
Qed.



(** *** Row labels of the allocation table *)

Lemma mapM_raises {A B : Type} (f : A -> res B) (l : list A) (a : A) (e : exn) :
  (forall x e', f x = Raise e' -> e' = e) ->
  In a l -> f a = Raise e -> mapM f l = Raise e.
Proof.
  intros Honly. induction l as [| x t IH]; intros Hin Ha; [destruct Hin |].
  simpl. destruct (f x) as [b | e'] eqn:Hx; simpl.
  - destruct Hin as [-> | Hin]; [congruence |].
    rewrite (IH Hin Ha). reflexivity.
  - rewrite (Honly _ _ Hx). reflexivity.
Qed.

Lemma filter_label_missing (l : string) (idx : list string)
  (rows : list (list float64)) :
  ~ In l idx ->
  filter (fun p => String.eqb (fst p) l) (combine idx rows) = [].
Proof.
  revert rows. induction idx as [| i t IH]; intros rows Hn; [reflexivity |].
  destruct rows as [| r rows]; [reflexivity |]. simpl.
  destruct (String.eqb i l) eqn:E.
  - apply String.eqb_eq in E. exfalso. apply Hn. left. exact E.
  - apply IH. intros Hin. apply Hn. right. exact Hin.
Qed.

(** [df.loc[labels]] raises KeyError as soon as one label is no row label. *)
Lemma loc_missing (df : DataFrame string) (labels : list string) (l : string) :
  In l labels -> ~ In l (index df) -> loc df labels = Raise KeyError.
Proof.
  intros Hin Hn. unfold loc.
  rewrite (mapM_raises _ labels l KeyError); [reflexivity | | exact Hin |].
  - intros x e'. destruct (filter _ _); intros H; inversion H; reflexivity.
  - rewrite filter_label_missing by exact Hn. reflexivity.
Qed.

(** Line 105 looks the retained symbols up among the row labels of the
    allocation table: when one of them is no row label, the method returns
    the empty dictionary. *)
Lemma row_label_missing_empty_dict (stock_list : list string)
  (allocation_data : DataFrame string) (s : string) :
  In s (retained hist stock_list) -> ~ In s (index allocation_data) ->
  analyze_risk_exposure hist quote pad stock_list allocation_data = EmptyDict.
Proof.
  intros Hin Hn. unfold analyze_risk_exposure, risk_exposure.
  rewrite scan_history_retained.
  destruct (retained hist stock_list) as [| s0 rest] eqn:Hret; [destruct Hin |].
  destruct (close_table _ _) as [data | e]; [| reflexivity].
  cbn [bind]. rewrite (loc_missing _ _ s Hin Hn). reflexivity.
Qed.

(** *** The share of line 129, cell by cell *)

Lemma nansum_add_defined (l : list float64) (acc : float64) :
  fold_left fadd (filter (fun x => negb (isnan x)) l) acc
  = fold_left add_defined l acc.
Proof.
  revert acc. induction l as [| c t IH]; intros acc; [reflexivity |].
  destruct c; simpl; apply IH.
Qed.

Lemma nansum_column_weight (df : DataFrame string) (j : nat) :
  nansum (column j (values df)) = column_weight df j.
Proof.
  unfold nansum, fsum, column, column_weight. rewrite nansum_add_defined.
  generalize (Fin 0%R). induction (values df) as [| row rows IH]; intros acc;
    [reflexivity |].
  simpl. apply IH.
Qed.

Lemma labelled_from_values (f : nat -> float64) (s : string)
  (cols : list string) (start : nat) :
  map snd (filter (fun p => String.eqb (fst p) s)
                  (combine cols (map f (seq start (length cols)))))
  = map f (labelled_from start cols s).
Proof.
  revert start. induction cols as [| c t IH]; intros start; simpl;
    [reflexivity |].
  destruct (String.eqb c s); simpl; rewrite IH; reflexivity.
Qed.

(** The share line 129 computes is the share of the specification. *)
Lemma weight_share_cellwise (df : DataFrame string) (symbols : list string) :
  weight_share df symbols = subset_share df symbols.
Proof.
  unfold weight_share, subset_share.
  assert (Hw : weights df
               = combine (columns df)
                         (map (column_weight df) (seq 0 (length (columns df))))).
  { unfold weights, sum_axis0, columns_of. rewrite map_map. f_equal.
    apply map_ext. intros j. apply nansum_column_weight. }
  assert (Hsel : weights_of df symbols = symbol_weights df symbols).
  { unfold weights_of, symbol_weights. rewrite Hw.
    apply flat_map_ext. intros s. apply labelled_from_values. }
  assert (Hall : map snd (weights df) = all_weights df).
  { rewrite Hw. unfold all_weights. apply map_snd_combine.
    rewrite length_map, length_seq. reflexivity. }
  rewrite Hsel, Hall. unfold nansum, fsum. rewrite !nansum_add_defined.
  reflexivity.
Qed.

(** *** The tables a record comes from *)

Lemma dict_set_NoDup {V : Type} (d : dict V) (k : string) (v : V) :
  NoDup (map fst d) -> NoDup (map fst (dict_set d k v)).
Proof.
  induction d as [| [k0 v0] t IH]; simpl; intros Hnd.
  - constructor; [intros [] | constructor].
  - destruct (String.eqb k0 k) eqn:E; [exact Hnd |].
    inversion Hnd as [| ? ? Hni Hnd']; subst. cbn [map fst].
    constructor; [| apply IH; exact Hnd'].
    intros Hin. apply dict_set_keys in Hin. destruct Hin as [-> | Hin].
    + rewrite String.eqb_refl in E. discriminate E.
    + contradiction.
Qed.

Lemma dict_comprehension_NoDup {V : Type} (f : string -> res V)
  (keys : list string) (d0 d : dict V) :
  fold_left (fun acc k => d <- acc ;; v <- f k ;; Ok (dict_set d k v))
            keys (Ok d0) = Ok d ->
  NoDup (map fst d0) -> NoDup (map fst d).
Proof.
  revert d0. induction keys as [| k t IH]; intros d0 H Hnd; simpl in H.
  - inversion H; subst. exact Hnd.
  - destruct (f k) as [v | e] eqn:Hf; simpl in H.
    + apply (IH _ H). apply dict_set_NoDup. exact Hnd.
    + rewrite fold_Raise in H by reflexivity. discriminate H.
Qed.

(** No symbol has two columns in the table of closes. *)
Lemma closes_for_columns_NoDup (stock_list : list string) (data : DataFrame Z) :
  closes_for hist stock_list = Ok data -> NoDup (columns data).
Proof.
  unfold closes_for, close_table. intros H. bind_inv H closes Hc.
  unfold DataFrame_of_dict in H. bind_inv H cols Hcols.
  inversion H. simpl.
  apply (dict_comprehension_NoDup _ _ _ _ Hc). constructor.
Qed.

Lemma loc_columns (df w : DataFrame string) (labels : list string) :
  loc df labels = Ok w -> columns w = columns df.
Proof.
  unfold loc. intros H. bind_inv H picked Hp. inversion H. reflexivity.
Qed.

Lemma positions_in (cols : list string) (l : string) :
  positions cols l <> [] -> In l cols.
Proof.
  unfold positions. intros H.
  destruct (filter (fun p => String.eqb (snd p) l)
                   (combine (seq 0 (length cols)) cols)) as [| p t] eqn:Hf;
    [contradiction |].
  assert (Hp : In p (filter (fun p => String.eqb (snd p) l)
                            (combine (seq 0 (length cols)) cols)))
    by (rewrite Hf; left; reflexivity).
  apply filter_In in Hp. destruct Hp as [Hin Heq].
  apply String.eqb_eq in Heq. subst l. destruct p as [j c].
  exact (in_combine_r _ _ _ _ Hin).
Qed.

(** [df[labels]] returns only when every label is a column label. *)
Lemma getitem_Ok_in (df sel : DataFrame string) (labels : list string) :
  getitem df labels = Ok sel -> forall l, In l labels -> In l (columns df).
Proof.
  unfold getitem. intros H l Hl. apply positions_in. intros Hnil.
  rewrite (mapM_raises _ labels l KeyError) in H; [discriminate H | | exact Hl |].
  - intros x e'. destruct (positions (columns df) x); intros Hx; inversion Hx;
      reflexivity.
  - rewrite Hnil. reflexivity.
Qed.

(** A record is returned only on an allocation table all of whose column
    labels are retained symbols: line 105 multiplies the returns, which
    have one column per retained symbol, by the rows of the table, which
    have one cell per column of the table, and line 128 needs every
    retained symbol among the column labels. *)
Lemma record_columns_retained (stock_list : list string)
  (allocation_data : DataFrame string) (r : analysis_result) :
  analyze_risk_exposure hist quote pad stock_list allocation_data = Result r ->
  forall c, In c (columns allocation_data) -> In c (retained hist stock_list).
Proof.
  intros H.
  destruct (analyze_Result_inv _ _ _ H)
    as (data & w & weighted & pc & Hne & Hdata & Hloc & Hmul & _ & _ & _
        & Hshare & _).
  pose proof (loc_columns _ _ _ Hloc) as Hcw.
  unfold allocation_share in Hshare. bind_inv Hshare sel Hsel.
  pose proof (getitem_Ok_in _ _ _ Hsel) as Hin.
  assert (Hlen : length (columns allocation_data) = length (columns data)
                 \/ length (columns allocation_data) = 1%nat).
  { unfold mul_ndarray in Hmul. rewrite Hcw in Hmul.
    change (columns (returns_of pad data)) with (columns data) in Hmul.
    destruct ((length (values w) =? length (index (returns_of pad data)))%nat
              && (length (columns allocation_data) =? length (columns data))%nat)
      eqn:E1.
    { apply andb_true_iff in E1. destruct E1 as [_ E1].
      apply Nat.eqb_eq in E1. left. exact E1. }
    destruct ((length (values w) =? length (index (returns_of pad data)))%nat
              && (length (columns allocation_data) =? 1)%nat) eqn:E2.
    { apply andb_true_iff in E2. destruct E2 as [_ E2].
      apply Nat.eqb_eq in E2. right. exact E2. }
    destruct ((length (columns allocation_data) =? length (columns data))%nat
              && (length (values w) =? 1)%nat) eqn:E3; [| discriminate Hmul].
    apply andb_true_iff in E3. destruct E3 as [E3 _].
    apply Nat.eqb_eq in E3. left. exact E3. }
  intros c Hc. destruct Hlen as [Hlen | Hlen].
  - apply (closes_for_columns _ _ Hdata).
    revert c Hc. change (incl (columns allocation_data) (columns data)).
    apply NoDup_length_incl.
    + exact (closes_for_columns_NoDup _ _ Hdata).
    + rewrite Hlen. apply Nat.le_refl.
    + intros s Hs. apply Hin. apply (closes_for_columns _ _ Hdata). exact Hs.
  - destruct (retained hist stock_list) as [| s t] eqn:Hret; [contradiction |].
    specialize (Hin s (or_introl eq_refl)).
    destruct (columns allocation_data) as [| c0 [| c1 rest]];
      try discriminate Hlen.
    destruct Hc as [<- | []]. destruct Hin as [-> | []]. left. reflexivity.
Qed.

(** C3.  The [allocation_percentage] of a returned record is the sum of the
    weights of the retained symbols divided by the sum of all weights of the
    allocation table, times 100, as the claim says; but a record is returned
    only when every column of the table is labelled by a retained symbol, so
    that the share of a proper part of the table is never returned. *)
Theorem allocation_percentage_of_whole_table (stock_list : list string)
  (allocation_data : DataFrame string) (r : analysis_result) :
  analyze_risk_exposure hist quote pad stock_list allocation_data = Result r ->
  allocation_percentage r
  = subset_share allocation_data (retained hist stock_list)
  /\ (forall c, In c (columns allocation_data) ->
                In c (retained hist stock_list)).
Proof.
  intros H. split.
  - rewrite <- weight_share_cellwise.
    exact (proj2 (allocation_percentage_weight_share _ _ _ H)).
  - exact (record_columns_retained _ _ _ H).
Qed.

(** *** The run as a whole *)

(** The loop of lines 92-96 runs over the list it was given while it
    rebinds [stock_list]: what it leaves is the list of the symbols whose
    history is not empty, in the order given, repetitions kept. *)
Theorem loop_keeps_symbols_with_data (stock_list : list string) :
  snd (scan_history hist stock_list)
  = filter (fun s => negb (is_empty (hist s))) stock_list.
Proof. exact (scan_history_retained stock_list). Qed.

(** Line 105 reads the weights from the rows of the allocation table: a
    retained symbol that is no row label of the table makes the method
    return the empty dictionary. *)
Theorem missing_row_label_gives_empty_dict (stock_list : list string)
  (allocation_data : DataFrame string) (s : string) :
  In s (retained hist stock_list) -> ~ In s (index allocation_data) ->
  analyze_risk_exposure hist quote pad stock_list allocation_data = EmptyDict.
Proof. exact (row_label_missing_empty_dict stock_list allocation_data s). Qed.

(** *** Which of the three dictionaries is returned *)

Lemma risk_exposure_record (stock_list : list string)
  (allocation_data : DataFrame string) (o : outcome) :
  retained hist stock_list <> [] ->
  risk_exposure hist quote pad stock_list allocation_data = Ok o ->
  exists r, o = Result r.
Proof.
  intros Hne H. unfold risk_exposure in H.
  rewrite scan_history_retained in H.
  destruct (retained hist stock_list) as [| s0 rest]; [contradiction |].
  bind_inv H data Hdata.
  bind_inv H picked Hpicked.
  bind_inv H weighted Hweighted.
  bind_inv H price_change Hpc.
  bind_inv H k Hk.
  bind_inv H v Hv.
  bind_inv H ap Hap.
  bind_inv H pap Hpap.
  inversion H. eexists. reflexivity.
Qed.

Lemma retained_nil (stock_list : list string) :
  retained hist stock_list = []
  <-> forall s, In s stock_list -> hist s = [].
Proof.
  unfold retained. induction stock_list as [| a t IH]; simpl.
  - split; [intros _ s [] | reflexivity].
  - destruct (hist a) as [| p l] eqn:Ha; simpl.
    + rewrite IH. split.
      * intros H s [<- | Hs]; [exact Ha | apply H; exact Hs].
      * intros H s Hs. apply H. right. exact Hs.
    + split; [discriminate |].
      intros H. specialize (H a (or_introl eq_refl)). congruence.
Qed.

(** The error record of line 99 is returned exactly when no symbol of the
    list has historical data: as soon as one symbol has data the method
    returns an analysis record or the empty dictionary. *)
Theorem error_record_iff_no_data (stock_list : list string)
  (allocation_data : DataFrame string) :
  (exists msg,
     analyze_risk_exposure hist quote pad stock_list allocation_data
     = ErrorRecord msg)
  <-> (forall s, In s stock_list -> hist s = []).
Proof.
  rewrite <- retained_nil. split.
  - intros [msg H]. unfold analyze_risk_exposure in H.
    destruct (risk_exposure hist quote pad stock_list allocation_data)
      as [o | e] eqn:Hbody; [subst o | discriminate H].
    destruct (retained hist stock_list) as [| s0 rest] eqn:Hret;
      [reflexivity |].
    assert (Hne : retained hist stock_list <> [])
      by (rewrite Hret; discriminate).
    destruct (risk_exposure_record stock_list allocation_data _ Hne Hbody)
      as [r Hr].
    discriminate Hr.
  - intros Hnil. exists no_data_message.
    unfold analyze_risk_exposure, risk_exposure.
    rewrite scan_history_retained, Hnil. reflexivity.
Qed.

(** *** No quote at all *)

Lemma stored_change_no_quote (symbols : list string)
  (previous : dict (option float64)) (s : string) :
  (forall x, In x symbols -> quote x = None) ->
  stored_change (latest_prices_of quote symbols) previous s = NaN.
Proof.
  intros Hq. unfold stored_change, latest_prices_of.
  rewrite latest_prices_get.
  destruct (existsb (String.eqb s) symbols) eqn:E; [| reflexivity].
  apply existsb_exists in E. destruct E as [x [Hx E]].
  apply String.eqb_eq in E. subst x. rewrite (Hq s Hx). reflexivity.
Qed.

Lemma idxmax_all_nan (l : list string) :
  exists e, idxmax (series_abs (map (fun s => (s, NaN)) l)) = Raise e.
Proof.
  unfold idxmax, series_abs. rewrite map_map. cbn [fst snd fabs].
  assert (H : filter (fun p : string * float64 => negb (isnan (snd p)))
                     (map (fun s : string => (s, NaN)) l) = []).
  { induction l as [| a t IH]; simpl; [reflexivity | exact IH]. }
  rewrite H. eexists. reflexivity.
Qed.

(** When the quote of every symbol that has data is missing, every price
    change is undefined, [idxmax] of line 124 has nothing to choose from,
    and the method returns the empty dictionary. *)
Theorem no_quote_gives_empty_dict (stock_list : list string)
  (allocation_data : DataFrame string) :
  retained hist stock_list <> [] ->
  (forall s, In s (retained hist stock_list) -> quote s = None) ->
  analyze_risk_exposure hist quote pad stock_list allocation_data = EmptyDict.
Proof.
  intros Hne Hq. unfold analyze_risk_exposure, risk_exposure.
  rewrite scan_history_retained.
  remember (retained hist stock_list) as sl eqn:Hsl.
  destruct sl as [| s0 rest]; [contradiction |].
  destruct (close_table _ _) as [data | e]; [| reflexivity]. cbn [bind].
  destruct (loc allocation_data (s0 :: rest)) as [w | e]; [| reflexivity].
  cbn [bind].
  destruct (mul_ndarray _ _ _) as [weighted | e]; [| reflexivity]. cbn [bind].
  destruct (price_change_of _ _ _) as [pc | e] eqn:Hpc; [| reflexivity].
  cbn [bind]. apply price_change_of_spec in Hpc.
  rewrite (map_ext _ (fun s => (s, NaN))) in Hpc
    by (intros s; rewrite stored_change_no_quote by exact Hq; reflexivity).
  destruct (idxmax_all_nan (s0 :: rest)) as [e He].
  rewrite Hpc, He. reflexivity.
Qed.

(** *** Fewer than three days of closes *)

Lemma std_short {I : Type} (s : Series I) :
  (length s <= 1)%nat -> std s = NaN.
Proof.
  intros H. unfold std.
  pose proof (filter_length_le (fun x => negb (isnan x)) (map snd s)) as Hf.
  rewrite length_map in Hf.
  destruct (length (filter (fun x => negb (isnan x)) (map snd s)) <=? 1)%nat
    eqn:E; [reflexivity |].
  apply Nat.leb_gt in E. lia.
Qed.

Lemma mul_ndarray_index {I : Type} (left w : DataFrame I)
  (right : list (list float64)) (n : nat) :
  mul_ndarray left right n = Ok w -> index w = index left.
Proof.
  unfold mul_ndarray. intros H.
  repeat match type of H with
         | (if ?c then _ else _) = _ => destruct c
         end; inversion H; reflexivity.
Qed.

Lemma length_index_dropna {I : Type} (df : DataFrame I) :
  length (index (dropna df)) = length (labelled (dropna df)).
Proof.
  rewrite labelled_dropna. unfold dropna, labelled. cbn [index].
  apply length_map.
Qed.

(** The returns of line 102 are the percentage changes without their first
    row and without the later rows that hold a NaN. *)
Lemma returns_labelled_tail (stock_list : list string) (data : DataFrame Z) :
  closes_for hist stock_list = Ok data ->
  labelled (returns_of pad data)
  = filter (fun p => negb (has_nan (snd p)))
           (tl (labelled (pct_change pad data))).
Proof.
  intros Hdata.
  pose proof (closes_for_rows _ _ Hdata) as Hrows.
  pose proof (closes_for_row_length _ _ Hdata) as Hlen.
  unfold returns_of. rewrite labelled_dropna.
  unfold labelled, pct_change. cbn [index values].
  destruct (values data) as [| r0 rest] eqn:Hv.
  - assert (Hp : forall b, pct_rows b [] = []) by (intros []; reflexivity).
    rewrite !Hp. destruct (index data); reflexivity.
  - destruct (index data) as [| i0 irest] eqn:Hi; [discriminate Hrows |].
    destruct (Hlen r0 (or_introl eq_refl)) as [_ Hne].
    destruct (pct_rows_head r0 rest Hne) as (first & later & Hp & Hnan).
    rewrite Hp. simpl. rewrite Hnan. reflexivity.
Qed.

Lemma returns_rows_bound (stock_list : list string) (data : DataFrame Z) :
  closes_for hist stock_list = Ok data ->
  (length (index (returns_of pad data)) <= length (index data) - 1)%nat.
Proof.
  intros Hdata. unfold returns_of at 1. rewrite length_index_dropna.
  fold (returns_of pad data). rewrite (returns_labelled_tail _ _ Hdata).
  etransitivity; [apply filter_length_le |].
  unfold labelled, pct_change. cbn [index values].
  destruct (combine (index data) (pct_rows pad (values data))) as [| p t] eqn:E.
  - simpl. lia.
  - pose proof (length_combine (index data) (pct_rows pad (values data))) as Hc.
    rewrite E in Hc. simpl in *. lia.
Qed.

(** With closes on fewer than three days there is at most one row of
    returns, and the sample standard deviation of line 106 is undefined:
    the [portfolio_risk] of the returned record is NaN. *)
Theorem few_closes_risk_undefined (stock_list : list string)
  (allocation_data : DataFrame string) (r : analysis_result)
  (data : DataFrame Z) :
  analyze_risk_exposure hist quote pad stock_list allocation_data = Result r ->
  closes_for hist stock_list = Ok data ->
  (length (index data) <= 2)%nat ->
  portfolio_risk r = NaN.
Proof.
  intros H Hdata Hlen.
  destruct (analyze_Result_inv _ _ _ H)
    as (data' & picked & weighted & pc & _ & Hd & _ & Hm & _ & _ & _ & _ & _ & Hr).
  rewrite Hdata in Hd. inversion Hd; subst data'; clear Hd.
  rewrite Hr. apply std_short.
  unfold sum_axis1. rewrite length_combine.
  rewrite (mul_ndarray_index _ _ _ _ Hm).
  pose proof (returns_rows_bound _ _ Hdata). lia.
Qed.

(** *** The allocation of the day before *)

Lemma nth_map_NaN (j : nat) (r : list float64) :
  nth j (map (fun _ => NaN) r) NaN = NaN.
Proof.
  revert j. induction r as [| c t IH]; intros [| j]; simpl; try reflexivity.
  apply IH.
Qed.

Lemma nansum_column_shift (j : nat) (rows : list (list float64)) :
  nansum (column j (shift1 rows)) = nansum (column j (removelast rows)).
Proof.
  destruct rows as [| r t]; [reflexivity |].
  unfold shift1, column. cbn [map]. rewrite nth_map_NaN. reflexivity.
Qed.

Lemma series_sum_sum_axis0 (sel : DataFrame string) :
  series_sum (sum_axis0 sel) = nansum (map nansum (columns_of sel)).
Proof.
  unfold series_sum, sum_axis0.
  rewrite map_snd_combine
    by (unfold columns_of; rewrite !length_map, length_seq; reflexivity).
  reflexivity.
Qed.

(** Line 131 moves the rows of the table one place down: summed column by
    column, the shifted table is the table without its last row. *)
Lemma allocation_share_shift (df allocation_data : DataFrame string)
  (labels : list string) :
  allocation_share (shift df) allocation_data labels
  = allocation_share (without_last_row df) allocation_data labels.
Proof.
  unfold allocation_share.
  destruct (getitem (shift df) labels) as [s1 | e1] eqn:H1;
    destruct (getitem (without_last_row df) labels) as [s2 | e2] eqn:H2;
    cbn [bind].
  - rewrite !series_sum_sum_axis0.
    rewrite (getitem_column_sums _ _ _ H1), (getitem_column_sums _ _ _ H2).
    cbn [values columns shift without_last_row].
    do 3 f_equal. f_equal.
    apply flat_map_ext. intros s. apply map_ext. intros j.
    apply nansum_column_shift.
  - unfold getitem in H1, H2. cbn [columns shift without_last_row] in H1, H2.
    destruct (mapM _ labels); [discriminate H2 | discriminate H1].
  - unfold getitem in H1, H2. cbn [columns shift without_last_row] in H1, H2.
    destruct (mapM _ labels); [discriminate H1 | discriminate H2].
  - unfold getitem in H1, H2. cbn [columns shift without_last_row] in H1, H2.
    destruct (mapM _ labels); [discriminate H1 |].
    cbn [bind] in H1, H2. congruence.
Qed.

Lemma loc_Ok_index (df w : DataFrame string) (l : string) (t : list string) :
  loc df (l :: t) = Ok w -> index df <> [].
Proof.
  unfold loc. intros H Hnil. rewrite Hnil in H. simpl in H. discriminate H.
Qed.

Lemma getitem_Ok_columns (df sel : DataFrame string) (l : string)
  (t : list string) :
  getitem df (l :: t) = Ok sel -> columns df <> [].
Proof.
  unfold getitem. intros H Hnil. rewrite Hnil in H. simpl in H. discriminate H.
Qed.

(** The [previous_day_allocation_percentage] of a returned record is the
    share of line 129 computed on the allocation table without its last
    row, over the total of the whole table; the alternative of line 132
    for an empty table is never the one taken. *)
Theorem previous_day_share_without_last_row (stock_list : list string)
  (allocation_data : DataFrame string) (r : analysis_result) :
  analyze_risk_exposure hist quote pad stock_list allocation_data = Result r ->
  empty (shift allocation_data) = false
  /\ allocation_share (without_last_row allocation_data) allocation_data
                      (retained hist stock_list)
     = Ok (previous_day_allocation_percentage r).
Proof.
  unfold analyze_risk_exposure. intros H.
  destruct (risk_exposure hist quote pad stock_list allocation_data)
    as [o | e] eqn:Hbody; [subst o | discriminate H].
  unfold risk_exposure in Hbody.
  rewrite scan_history_retained in Hbody.
  destruct (retained hist stock_list) as [| s0 rest];
    [discriminate Hbody |].
  bind_inv Hbody data Hdata.
  bind_inv Hbody picked Hpicked.
  bind_inv Hbody weighted Hweighted.
  bind_inv Hbody price_change Hpc.
  bind_inv Hbody k Hk.
  bind_inv Hbody v Hv.
  bind_inv Hbody ap Hap.
  bind_inv Hbody pap Hpap.
  inversion Hbody; subst r; clear Hbody. cbn [previous_day_allocation_percentage].
  assert (He : empty (shift allocation_data) = false).
  { pose proof (loc_Ok_index _ _ _ _ Hpicked) as Hi.
    unfold allocation_share in Hap. bind_inv Hap sel Hsel.
    pose proof (getitem_Ok_columns _ _ _ _ Hsel) as Hc.
    unfold empty, shift. cbn [index columns].
    destruct (index allocation_data); [contradiction |].
    destruct (columns allocation_data); [contradiction | reflexivity]. }
  split; [exact He |].
  rewrite He in Hpap. cbn [negb] in Hpap.
  rewrite <- allocation_share_shift. exact Hpap.
Qed.

(** *** A symbol listed more than once *)

Lemma filter_map_label (g : string -> float64) (l : list string) (k : string) :
  filter (fun p => String.eqb (fst p) k) (map (fun s => (s, g s)) l)
  = map (fun s => (s, g s)) (filter (fun s => String.eqb s k) l).
Proof.
  induction l as [| a t IH]; simpl; [reflexivity |].
  destruct (String.eqb a k); simpl; rewrite IH; reflexivity.
Qed.

(** The series of price changes has one entry for each entry of the list
    of symbols.  When the symbol [idxmax] names is listed more than once,
    line 125 reads a series of that many entries, not a number, and this
    series is the [largest_change_value] of the record. *)
Theorem repeated_symbol_gives_series (stock_list : list string)
  (allocation_data : DataFrame string) (r : analysis_result) :
  analyze_risk_exposure hist quote pad stock_list allocation_data = Result r ->
  (2 <= length (filter (fun s => String.eqb s (largest_change_stock r))
                       (retained hist stock_list)))%nat ->
  exists m,
    largest_change_value r = SubSeries m
    /\ map fst m = filter (fun s => String.eqb s (largest_change_stock r))
                          (retained hist stock_list).
Proof.
  intros H Htwice.
  destruct (analyze_Result_inv _ _ _ H)
    as (data & picked & weighted & pc & _ & _ & _ & _ & Hpc & _ & Hsel & _).
  apply price_change_of_spec in Hpc. subst pc.
  unfold series_select in Hsel. rewrite filter_map_label in Hsel.
  destruct (filter (fun s => String.eqb s (largest_change_stock r))
                   (retained hist stock_list)) as [| a [| b t]];
    try (simpl in Htwice; lia).
  cbn [map] in Hsel. inversion Hsel. eexists. split; [reflexivity |].
  cbn [map fst]. do 2 f_equal. rewrite map_map. apply map_id.
Qed.

End Agent.

(** ** Runs on the concrete worlds *)

Import Examples CorrelationFacts.

Local Open Scope string_scope.

(** Settles a comparison of two real constants. *)
Ltac decide_real c :=
  first [ destruct c; [exfalso; lra | idtac]
        | destruct c; [idtac | exfalso; lra] ].

Ltac decide_reals :=
  repeat match goal with
  | |- context [Req_dec_T ?a ?b] => decide_real (Req_dec_T a b)
  | |- context [Rlt_dec ?a ?b] => decide_real (Rlt_dec a b)
  | |- context [Rle_dec ?a ?b] => decide_real (Rle_dec a b)
  | |- context [Rcase_abs ?a] => decide_real (Rcase_abs a)
  end.

Ltac unfold_tables :=
  unfold returns_of, dropna, pct_change, pct_rows, shift1, pct_row, has_nan,
         labelled.

(** *** The world with two symbols on an allocation table labelled on both
    axes: the method returns a record *)

Lemma demo_closes : closes_for demo_history demo_stock_list = Ok demo_data.
Proof. reflexivity. Qed.

Lemma demo_retained : retained demo_history demo_stock_list = ["AAPL"; "TSMC"].
Proof. reflexivity. Qed.

Lemma demo_returns_eq : returns_of true demo_data = demo_returns.
Proof.
  unfold demo_data, demo_returns. unfold_tables. cbn. decide_reals. reflexivity.
Qed.

Lemma demo_idxmax : idxmax (series_abs demo_price_change) = Ok "TSMC".
Proof.
  unfold idxmax, series_abs, demo_price_change. cbn. unfold Rabs.
  decide_reals. reflexivity.
Qed.

Lemma demo_run :
  analyze_risk_exposure demo_history demo_quote true demo_stock_list
                        demo_allocation
  = Result demo_result.
Proof.
  unfold analyze_risk_exposure, risk_exposure.
  rewrite scan_history_retained, demo_retained.
  change (close_table (fst (scan_history demo_history demo_stock_list))
                      ["AAPL"; "TSMC"])
    with (Ok demo_data).
  cbn [bind]. rewrite demo_returns_eq.
  change (loc demo_allocation ["AAPL"; "TSMC"]) with (Ok demo_allocation).
  cbn [bind].
  change (mul_ndarray demo_returns (values demo_allocation)
                      (length (columns demo_allocation)))
    with (Ok demo_weighted).
  cbn [bind].
  change (price_change_of (latest_prices_of demo_quote ["AAPL"; "TSMC"])
                          (previous_prices_of demo_data ["AAPL"; "TSMC"])
                          ["AAPL"; "TSMC"])
    with (Ok demo_price_change).
  cbn [bind]. rewrite demo_idxmax. reflexivity.
Qed.

(** The claim at a list of three symbols none of which has data. *)
Lemma no_data_error_record_witness :
  analyze_risk_exposure (fun _ => []) (fun _ => None) true
    ["AAPL"; "TSMC"; "Samsung"]%string
    (mkDataFrame ["portfolio_allocation"%string]
                 ["AAPL"; "TSMC"; "Samsung"]%string
                 [[Fin 1%R; Fin 2%R; Fin 3%R]])
  = ErrorRecord "No data available for any of the provided stocks.".
Proof.
  apply no_data_error_record. intros s _. reflexivity.
Defined.

(** C3 at the world with two symbols, which are the two columns of its
    allocation table. *)
Lemma allocation_percentage_of_whole_table_witness :
  allocation_percentage demo_result
  = subset_share demo_allocation (retained demo_history demo_stock_list)
  /\ (forall c, In c (columns demo_allocation) ->
                In c (retained demo_history demo_stock_list)).
Proof.
  exact (allocation_percentage_of_whole_table _ _ _ _ _ _ demo_run).
Defined.

Lemma demo_symbols_distinct : NoDup (retained demo_history demo_stock_list).
Proof.
  rewrite demo_retained. repeat constructor; simpl; intuition discriminate.
Qed.

(** C6 at the world with two symbols: TSMC moved by -3, AAPL by 2. *)
Lemma largest_change_maximal_witness :
  exists data,
    closes_for demo_history demo_stock_list = Ok data
    /\ In (largest_change_stock demo_result)
          (retained demo_history demo_stock_list)
    /\ isnan (price_difference demo_quote data (largest_change_stock demo_result))
       = false
    /\ (forall s, In s (retained demo_history demo_stock_list) ->
                  isnan (price_difference demo_quote data s) = false ->
                  fle (fabs (price_difference demo_quote data s))
                      (fabs (price_difference demo_quote data
                               (largest_change_stock demo_result)))
                  = true)
    /\ largest_change_value demo_result
       = Scalar (price_difference demo_quote data
                   (largest_change_stock demo_result)).
Proof.
  destruct (largest_change_maximal _ _ _ _ _ _ demo_run)
    as (data & Hdata & Hin & Hnan & Hmax & Hval).
  exists data. repeat split; try assumption.
  apply Hval. exact demo_symbols_distinct.
Defined.

(** *** The world whose one symbol doubles every day *)

Lemma doubling_returns_eq : returns_of true doubling_data = doubling_returns.
Proof.
  unfold doubling_data, doubling_returns. unfold_tables. cbn. decide_reals.
  reflexivity.
Qed.





(** *** The world in which one symbol has no close on the last day *)

Lemma lagging_returns_eq : returns_of true lagging_data = lagging_returns.
Proof.
  unfold lagging_data, lagging_returns. unfold_tables. cbn. decide_reals.
  reflexivity.
Qed.

(** C6 as stated fails here.  B's last available close is that of day 3,
    and its latest quote is far from it, farther than the quotes of A and
    C are from their last closes; but the last row of the table of closes
    is day 4, on which B has no close, so that B gets no price change and
    the record names A. *)
Lemma last_row_close_counterexample :
  exists r,
    analyze_risk_exposure lagging_history lagging_quote true
                          lagging_stock_list lagging_allocation
    = Result r
    /\ largest_change_stock r = "A"
    /\ largest_change_value r = Scalar (Fin (5 + - (4))%R)
    /\ available_difference lagging_history lagging_quote "A"
       = Fin (5 + - (4))%R
    /\ available_difference lagging_history lagging_quote "B"
       = Fin (100 + - (1))%R
    /\ fle (fabs (available_difference lagging_history lagging_quote "B"))
           (fabs (available_difference lagging_history lagging_quote "A"))
       = false.
Proof.
  eexists. split; [| split; [| split; [| split; [| split]]]].
  - unfold analyze_risk_exposure, risk_exposure.
    rewrite scan_history_retained.
    change (retained lagging_history lagging_stock_list) with ["A"; "B"; "C"].
    change (close_table (fst (scan_history lagging_history lagging_stock_list))
                        ["A"; "B"; "C"])
      with (Ok lagging_data).
    cbn [bind]. rewrite lagging_returns_eq.
    change (loc lagging_allocation ["A"; "B"; "C"]) with (Ok lagging_allocation).
    cbn [bind].
    change (mul_ndarray lagging_returns (values lagging_allocation)
                        (length (columns lagging_allocation)))
      with (Ok (mkDataFrame (index lagging_returns) (columns lagging_returns)
                  (zip_with (zip_with fmul) (values lagging_returns)
                            (values lagging_allocation)))).
    cbn [bind].
    change (price_change_of (latest_prices_of lagging_quote ["A"; "B"; "C"])
                            (previous_prices_of lagging_data ["A"; "B"; "C"])
                            ["A"; "B"; "C"])
      with (Ok [("A", Fin (5 + - (4))%R); ("B", NaN);
                ("C", Fin (3 + - (3))%R)]).
    cbn [bind].
    assert (Hmax : idxmax (series_abs [("A", Fin (5 + - (4))%R); ("B", NaN);
                                       ("C", Fin (3 + - (3))%R)]) = Ok "A").
    { unfold idxmax, series_abs. cbn. unfold Rabs. decide_reals. reflexivity. }
    rewrite Hmax. reflexivity.
  - reflexivity.
  - reflexivity.
  - reflexivity.
  - reflexivity.
  - cbn. unfold Rabs. decide_reals. reflexivity.
Qed.

(** *** The world whose two symbols traded on different days *)

Lemma staggered_closes :
  closes_for staggered_history ["A"; "B"] = Ok staggered_data.
Proof. reflexivity. Qed.

Lemma staggered_returns (pad : bool) :
  labelled (returns_of pad staggered_data)
  = [(3%Z, [Fin (4 / 2 + - (1))%R; Fin (10 / 5 + - (1))%R])].
Proof.
  unfold staggered_data. unfold_tables. destruct pad; cbn; decide_reals;
    reflexivity.
Qed.

(** C5 as stated fails here: day 1 has no close of B, so the changes of
    day 2 are undefined for B as well, and both day 1 and day 2 are removed
    from the returns, not the first row alone. *)
Lemma first_row_only_counterexample :
  closes_for staggered_history ["A"; "B"] = Ok staggered_data
  /\ map fst (labelled (returns_of true staggered_data)) = [3%Z]
  /\ map fst (tl (labelled (pct_change true staggered_data))) = [2%Z; 3%Z]
  /\ labelled (returns_of true staggered_data)
     <> tl (labelled (pct_change true staggered_data)).
Proof.
  split; [exact staggered_closes |].
  split; [rewrite staggered_returns; reflexivity |].
  split; [reflexivity |].
  intros H. apply (f_equal (@length _)) in H.
  rewrite staggered_returns in H. discriminate H.
Qed.

Lemma demo_closes_finite (row : list float64) :
  In row (values demo_data) -> finite_nonzero row.
Proof.
  intros Hrow c Hc. simpl in Hrow.
  repeat (destruct Hrow as [<- | Hrow];
          [simpl in Hc;
           repeat (destruct Hc as [<- | Hc];
                   [eexists; split; [reflexivity | lra] |]);
           destruct Hc |]).
  destruct Hrow.
Qed.

(** C5 (as amended) at the world with two symbols: all closes are finite
    and not zero, and the first row is the only one removed. *)
Lemma returns_drop_undefined_rows_witness :
  labelled (returns_of true demo_data)
  = filter (fun p => negb (has_nan (snd p)))
           (tl (labelled (pct_change true demo_data)))
  /\ labelled (returns_of true demo_data)
     = tl (labelled (pct_change false demo_data)).
Proof.
  destruct (returns_drop_undefined_rows demo_history true demo_stock_list
              demo_data demo_closes) as [Hfilter Hfirst].
  split; [exact Hfilter | apply Hfirst; exact demo_closes_finite].
Defined.

(** C2, at the example of the module's own [__main__] block, with a
    provider that has data for the three symbols: the allocation table of
    lines 156-163 has the symbols as column labels and
    [portfolio_allocation] as its only row label, the lookup of line 105
    raises KeyError, and the method returns the empty dictionary: no
    [portfolio_risk] is returned. *)
Theorem main_example_empty_dict (pad : bool) :
  analyze_risk_exposure main_history main_quote pad main_stock_list
                        main_allocation_data
  = EmptyDict.
Proof.
  apply row_label_missing_empty_dict with (s := "AAPL").
  - left. reflexivity.
  - simpl. intros [H | []]. discriminate H.
Qed.

(** The world with two symbols, run on the allocation table of the
    [__main__] block. *)
Lemma missing_row_label_gives_empty_dict_witness :
  analyze_risk_exposure demo_history demo_quote true demo_stock_list
                        main_allocation_data
  = EmptyDict.
Proof.
  apply (missing_row_label_gives_empty_dict demo_history demo_quote true
           demo_stock_list main_allocation_data "TSMC").
  - right. left. reflexivity.
  - simpl. intros [H | []]. discriminate H.
Defined.

(** A world with data and without any quote. *)
Lemma no_quote_gives_empty_dict_witness :
  analyze_risk_exposure demo_history (fun _ => None) true demo_stock_list
                        demo_allocation
  = EmptyDict.
Proof.
  apply (no_quote_gives_empty_dict demo_history (fun _ => None) true
           demo_stock_list demo_allocation).
  - rewrite demo_retained. discriminate.
  - intros s _. reflexivity.
Defined.

Lemma brief_returns_eq : returns_of true brief_data = brief_returns.
Proof.
  unfold brief_data, brief_returns. unfold_tables. cbn. decide_reals.
  reflexivity.
Qed.

Lemma brief_run :
  analyze_risk_exposure brief_history doubling_quote true ["A"]
                        doubling_allocation
  = Result brief_result.
Proof.
  unfold analyze_risk_exposure, risk_exposure.
  rewrite scan_history_retained.
  change (retained brief_history ["A"]) with ["A"].
  change (close_table (fst (scan_history brief_history ["A"])) ["A"])
    with (Ok brief_data).
  cbn [bind]. rewrite brief_returns_eq. reflexivity.
Qed.

(** One symbol with closes on two days. *)
Lemma few_closes_risk_undefined_witness :
  portfolio_risk brief_result = NaN.
Proof.
  apply (few_closes_risk_undefined brief_history doubling_quote true ["A"]
           doubling_allocation brief_result brief_data brief_run).
  - reflexivity.
  - simpl. lia.
Defined.

(** The world with two symbols, whose allocation table has two rows. *)
Lemma previous_day_share_without_last_row_witness :
  empty (shift demo_allocation) = false
  /\ allocation_share (without_last_row demo_allocation) demo_allocation
                      (retained demo_history demo_stock_list)
     = Ok (previous_day_allocation_percentage demo_result).
Proof.
  exact (previous_day_share_without_last_row _ _ _ _ _ _ demo_run).
Defined.

Lemma repeated_idxmax : idxmax (series_abs repeated_price_change) = Ok "A".
Proof.
  unfold idxmax, series_abs, repeated_price_change. cbn.
  destruct (Rle_dec _ _); reflexivity.
Qed.

Lemma repeated_run :
  analyze_risk_exposure doubling_history doubling_quote true ["A"; "A"]
                        doubling_allocation
  = Result repeated_result.
Proof.
  unfold analyze_risk_exposure, risk_exposure.
  rewrite scan_history_retained.
  change (retained doubling_history ["A"; "A"]) with ["A"; "A"].
  change (close_table (fst (scan_history doubling_history ["A"; "A"]))
                      ["A"; "A"])
    with (Ok doubling_data).
  cbn [bind]. rewrite doubling_returns_eq.
  change (loc doubling_allocation ["A"; "A"])
    with (Ok (mkDataFrame ["A"; "A"] ["A"] [[Fin 1%R]; [Fin 1%R]])).
  cbn [bind].
  change (price_change_of (latest_prices_of doubling_quote ["A"; "A"])
                          (previous_prices_of doubling_data ["A"; "A"])
                          ["A"; "A"])
    with (Ok repeated_price_change).
  cbn [bind]. rewrite repeated_idxmax. reflexivity.
Qed.

(** The symbol whose close doubles, listed twice. *)
Lemma repeated_symbol_gives_series_witness :
  exists m,
    largest_change_value repeated_result = SubSeries m
    /\ map fst m = ["A"; "A"].
Proof.
  apply (repeated_symbol_gives_series doubling_history doubling_quote true
           ["A"; "A"] doubling_allocation repeated_result repeated_run).
  simpl. lia.
Defined.

End AnalysisFacts.

(** ** The retrieval store *)

Module RetrieverFacts.

Import Retriever.

Lemma faiss_eta (self : faiss_retriever) :
  mkFaiss (base self) (index self) (embedding_dim self) = self.
Proof. destruct self. reflexivity. Qed.

(** [BaseRetriever.add_texts] raises ValueError on either mismatch and
    leaves the three lists as they were. *)
Lemma add_texts_rejects (self : store) (new_texts : list string)
  (new_embeddings : ndarray) (md : option (list meta)) :
  count_mismatch new_texts new_embeddings = true
  \/ metadata_mismatch new_texts md = true ->
  exists msg,
    add_texts self new_texts new_embeddings md = (self, Raise (ValueError msg)).
Proof.
  unfold count_mismatch, metadata_mismatch, add_texts. intros H.
  destruct (negb (length new_texts =? length (rows new_embeddings))%nat).
  - eexists. reflexivity.
  - destruct H as [H | H]; [discriminate H |]. rewrite H.
    eexists. reflexivity.
Qed.

(** C7.  [add_texts] raises an error when the number of texts differs from
    the number of embedding rows, or when a non-empty metadata list has
    another length than the texts, or, for the FAISS store, when the
    embeddings are not float32; in each of these cases the error is a
    ValueError and the store (texts, embeddings, metadata, and for the
    FAISS store its index) is left as it was. *)
Theorem add_texts_rejects_mismatch (self : faiss_retriever)
  (new_texts : list string) (new_embeddings : ndarray)
  (md : option (list meta)) :
  (length new_texts <> length (rows new_embeddings)
   \/ (exists l, md = Some l /\ l <> [] /\ length l <> length new_texts) ->
   exists msg,
     add_texts (base self) new_texts new_embeddings md
     = (base self, Raise (ValueError msg)))
  /\ (length new_texts <> length (rows new_embeddings)
      \/ (exists l, md = Some l /\ l <> [] /\ length l <> length new_texts)
      \/ array_dtype new_embeddings <> Float32 ->
      exists msg,
        faiss_add_texts self new_texts new_embeddings md
        = (self, Raise (ValueError msg))).
Proof.
  assert (Hbool :
    length new_texts <> length (rows new_embeddings)
    \/ (exists l, md = Some l /\ l <> [] /\ length l <> length new_texts) ->
    count_mismatch new_texts new_embeddings = true
    \/ metadata_mismatch new_texts md = true).
  { intros [H | (l & -> & Hl & Hlen)].
    - left. unfold count_mismatch. apply negb_true_iff, Nat.eqb_neq. exact H.
    - right. unfold metadata_mismatch. destruct l as [| m l]; [contradiction |].
      cbn [truthy metadata_or_nil andb].
      apply negb_true_iff, Nat.eqb_neq. exact Hlen. }
  split.
  - intros H. apply add_texts_rejects, Hbool, H.
  - intros H. unfold faiss_add_texts.
    destruct (dtype_eqb (array_dtype new_embeddings) Float32) eqn:Hd; simpl.
    + assert (Hm : count_mismatch new_texts new_embeddings = true
                   \/ metadata_mismatch new_texts md = true).
      { destruct H as [H | [H | H]]; [apply Hbool; left; exact H
                                     | apply Hbool; right; exact H |].
        exfalso. apply H. destruct (array_dtype new_embeddings);
          try discriminate Hd; reflexivity. }
      destruct (add_texts_rejects (base self) new_texts new_embeddings md Hm)
        as [msg Hmsg].
      rewrite Hmsg. simpl. rewrite faiss_eta. exists msg. reflexivity.
    + eexists. reflexivity.
Qed.

(** The claim at a store holding two texts: three texts for two embedding
    rows, on the base store and on the FAISS store. *)
Lemma add_texts_rejects_mismatch_witness :
  (exists msg,
     add_texts (base two_texts) ["a"; "b"; "c"]%string
               (mkArray Float32 2 [[1; 0]; [5; 5]]) None
     = (base two_texts, Raise (ValueError msg)))
  /\ (exists msg,
        faiss_add_texts two_texts ["a"; "b"; "c"]%string
                        (mkArray Float32 2 [[1; 0]; [5; 5]]) None
        = (two_texts, Raise (ValueError msg))).
Proof.
  destruct (add_texts_rejects_mismatch two_texts ["a"; "b"; "c"]%string
              (mkArray Float32 2 [[1; 0]; [5; 5]]) None) as [Hbase Hfaiss].
  split; [apply Hbase | apply Hfaiss]; left; simpl; lia.
Defined.

(** *** Ranking by distance *)

Lemma insert_ranked_perm (p : nat * Q) (l : list (nat * Q)) :
  Permutation (p :: l) (insert_ranked p l).
Proof.
  induction l as [| h t IH]; simpl; [apply Permutation_refl |].
  destruct (Qle_bool (snd p) (snd h)); [apply Permutation_refl |].
  apply perm_trans with (h :: p :: t); [apply perm_swap |].
  apply perm_skip. exact IH.
Qed.

Lemma insert_ranked_sorted (p : nat * Q) (l : list (nat * Q)) :
  StronglySorted closer l -> StronglySorted closer (insert_ranked p l).
Proof.
  induction l as [| h t IH]; simpl; intros Hs.
  - constructor; constructor.
  - inversion Hs as [| ? ? Ht Hall]; subst.
    destruct (Qle_bool (snd p) (snd h)) eqn:Hle.
    + apply Qle_bool_iff in Hle. constructor; [exact Hs |].
      constructor; [exact Hle |].
      apply Forall_forall. intros x Hx.
      unfold closer. apply Qle_trans with (snd h); [exact Hle |].
      exact (proj1 (Forall_forall _ _) Hall x Hx).
    + constructor; [apply IH; exact Ht |].
      apply Forall_forall. intros x Hx.
      apply (Permutation_in _ (Permutation_sym (insert_ranked_perm p t))) in Hx.
      destruct Hx as [<- | Hx].
      * unfold closer. apply Qlt_le_weak, Qnot_le_lt. intros Hc.
        apply Qle_bool_iff in Hc. congruence.
      * exact (proj1 (Forall_forall _ _) Hall x Hx).
Qed.

Lemma rank_perm (l : list (nat * Q)) : Permutation l (rank l).
Proof.
  induction l as [| p t IH]; simpl; [constructor |].
  apply perm_trans with (p :: rank t); [apply perm_skip; exact IH |].
  apply insert_ranked_perm.
Qed.

Lemma rank_sorted (l : list (nat * Q)) : StronglySorted closer (rank l).
Proof.
  induction l as [| p t IH]; simpl; [constructor |].
  apply insert_ranked_sorted. exact IH.
Qed.

Lemma sorted_by_key (f : nat -> option Q) (l : list (nat * Q)) :
  (forall p, In p l -> f (fst p) = Some (snd p)) ->
  StronglySorted closer l ->
  StronglySorted (fun i j => not_farther (f i) (f j)) (map fst l).
Proof.
  induction l as [| p t IH]; simpl; intros Hkey Hs; [constructor |].
  inversion Hs as [| ? ? Ht Hall]; subst. constructor.
  - apply IH; [intros x Hx; apply Hkey; right; exact Hx | exact Ht].
  - apply Forall_forall. intros i Hi. apply in_map_iff in Hi.
    destruct Hi as (x & <- & Hx).
    rewrite (Hkey p (or_introl eq_refl)), (Hkey x (or_intror Hx)).
    exact (proj1 (Forall_forall _ _) Hall x Hx).
Qed.

Lemma sorted_firstn {A : Type} (R : A -> A -> Prop) (k : nat) (l : list A) :
  StronglySorted R l ->
  StronglySorted R (firstn k l)
  /\ forall a b, In a (firstn k l) -> In b (skipn k l) -> R a b.
Proof.
  revert k. induction l as [| x t IH]; intros k Hs.
  - rewrite firstn_nil, skipn_nil. split; [constructor | intros a b []].
  - inversion Hs as [| ? ? Ht Hall]; subst.
    destruct k as [| k]; simpl.
    + split; [constructor | intros a b []].
    + destruct (IH k Ht) as [Hf Hcut]. split.
      * constructor; [exact Hf |].
        apply Forall_forall. intros y Hy.
        apply (proj1 (Forall_forall _ _) Hall).
        rewrite <- (firstn_skipn k t). apply in_or_app. left. exact Hy.
      * intros a b [<- | Ha] Hb; [| apply Hcut; assumption].
        apply (proj1 (Forall_forall _ _) Hall).
        rewrite <- (firstn_skipn k t). apply in_or_app. right. exact Hb.
Qed.

(** *** Reading the entries back *)

Lemma list_item_nat {A : Type} (l : list A) (i : nat) (d : A) :
  (i < length l)%nat -> list_item l (Z.of_nat i) = Ok (nth i l d).
Proof.
  intros Hi. unfold list_item.
  destruct (Z.of_nat i <? 0)%Z eqn:Hneg; [apply Z.ltb_lt in Hneg; lia |].
  rewrite Hneg, Nat2Z.id, (nth_error_nth' l d Hi). reflexivity.
Qed.

Lemma collect_padding (self : store) (m : nat) :
  collect self (repeat (-1)%Z m) = Ok [].
Proof. induction m as [| m IH]; simpl; [reflexivity | exact IH]. Qed.

Lemma collect_found (self : store) (ids : list nat) (m : nat) :
  (forall i, In i ids ->
             (i < length (texts self))%nat
             /\ (i < length (embeddings self))%nat
             /\ (i < length (metadata self))%nat) ->
  collect self (map Z.of_nat ids ++ repeat (-1)%Z m)
  = Ok (map (stored_entry self) ids).
Proof.
  induction ids as [| i t IH]; intros Hall; simpl.
  - apply collect_padding.
  - destruct (Hall i (or_introl eq_refl)) as (Ht & He & Hm).
    destruct (Z.of_nat i =? -1)%Z eqn:Hi; [apply Z.eqb_eq in Hi; lia |].
    rewrite (list_item_nat _ _ EmptyString Ht). cbn [bind].
    rewrite (@list_item_nat vector _ _ [] He). cbn [bind].
    rewrite (@list_item_nat meta _ _ [] Hm). cbn [bind].
    rewrite IH by (intros j Hj; apply Hall; right; exact Hj).
    reflexivity.
Qed.

Lemma collect_length (self : store) (indices : list Z) (result : list entry) :
  collect self indices = Ok result -> (length result <= length indices)%nat.
Proof.
  revert result. induction indices as [| i t IH]; intros result H; simpl in H.
  - inversion H. simpl. lia.
  - destruct (i =? -1)%Z.
    + specialize (IH _ H). simpl. lia.
    + bind_inv H tx Htx. bind_inv H e He. bind_inv H m Hm.
      bind_inv H more Hmore. inversion H. specialize (IH _ Hmore). simpl. lia.
Qed.

Lemma get_all_positions (ts : list string) (es : list vector) (ms : list meta) :
  length es = length ts -> length ms = length ts ->
  zip3 ts es ms
  = map (stored_entry (mkStore ts es ms)) (seq 0 (length ts)).
Proof.
  revert es ms. induction ts as [| t ts IH]; intros [| e es] [| m ms] He Hm;
    simpl in *; try discriminate; [reflexivity |].
  f_equal. rewrite <- seq_shift, map_map.
  rewrite IH by lia. reflexivity.
Qed.

Lemma get_all_stored (self : store) :
  length (embeddings self) = length (texts self) ->
  length (metadata self) = length (texts self) ->
  get_all self = map (stored_entry self) (seq 0 (length (texts self))).
Proof. destruct self. apply get_all_positions. Qed.

(** *** The state insertions maintain *)

Lemma new_faiss_in_step (dim : nat) : in_step (new_faiss dim).
Proof. repeat split. Qed.

(** A successful insertion keeps the lists and the index in step. *)
Lemma faiss_add_texts_in_step (self after : faiss_retriever)
  (new_texts : list string) (new_embeddings : ndarray)
  (md : option (list meta)) :
  in_step self ->
  faiss_add_texts self new_texts new_embeddings md = (after, Ok tt) ->
  in_step after.
Proof.
  intros (Hidx & Ht & Hm). unfold faiss_add_texts, add_texts, index_add.
  destruct (negb (dtype_eqb (array_dtype new_embeddings) Float32));
    [discriminate |].
  destruct (length new_texts =? length (rows new_embeddings))%nat eqn:Hc;
    [| discriminate].
  apply Nat.eqb_eq in Hc. cbn [negb].
  destruct (truthy md && negb (length (metadata_or_nil md) =? length new_texts)%nat)
    eqn:Hmd; [discriminate |].
  cbn [fst snd].
  destruct (ncols new_embeddings =? embedding_dim self)%nat; [| discriminate].
  intros H. inversion H. unfold in_step. cbn.
  rewrite !length_app. rewrite Hidx in *.
  split; [reflexivity |]. split; [lia |].
  destruct (truthy md) eqn:Htr.
  - simpl in Hmd. apply negb_false_iff, Nat.eqb_eq in Hmd. lia.
  - rewrite length_map. lia.
Qed.

Lemma two_texts_in_step : in_step two_texts.
Proof.
  apply (faiss_add_texts_in_step (new_faiss 2) two_texts
           ["near"; "far"]%string (mkArray Float32 2 [[1; 0]; [5; 5]]) None).
  - apply new_faiss_in_step.
  - reflexivity.
Qed.

(** *** The answer of the index *)

Section Index.

Variable computed : Z -> vector -> vector -> option Q.

Lemma in_candidates (start : nat) (idx : list vector) (q : vector) (k : Z)
  (p : nat * Q) :
  In p (candidates_from computed start idx q k)
  <-> (start <= fst p < start + length idx)%nat
      /\ computed k q (nth (fst p - start) idx []) = Some (snd p).
Proof.
  revert start. induction idx as [| v rest IH]; intros start.
  - simpl. split; [intros [] | intros [H _]; lia].
  - cbn [candidates_from length].
    assert (Hnext : forall i, (i <> start)%nat -> (start <= i)%nat ->
              nth (i - start) (v :: rest) [] = nth (i - S start) rest []).
    { intros i Hne Hle.
      replace (i - start)%nat with (S (i - S start)) by lia. reflexivity. }
    destruct (computed k q v) as [d |] eqn:Hv.
    + cbn [In]. rewrite IH. split.
      * intros [<- | [Hr Hc]]; cbn [fst snd].
        -- split; [lia |]. rewrite Nat.sub_diag. exact Hv.
        -- split; [lia |]. rewrite Hnext by lia. exact Hc.
      * intros [Hr Hc].
        destruct (Nat.eq_dec (fst p) start) as [He | Hne].
        -- left. rewrite He, Nat.sub_diag in Hc. cbn [nth] in Hc.
           rewrite Hv in Hc. inversion Hc. destruct p; simpl in *; subst.
           reflexivity.
        -- right. split; [lia |]. rewrite Hnext in Hc by lia. exact Hc.
    + rewrite IH. split.
      * intros [Hr Hc]. split; [lia |]. rewrite Hnext by lia. exact Hc.
      * intros [Hr Hc].
        destruct (Nat.eq_dec (fst p) start) as [He | Hne].
        -- rewrite He, Nat.sub_diag in Hc. cbn [nth] in Hc. congruence.
        -- split; [lia |]. rewrite Hnext in Hc by lia. exact Hc.
Qed.

Lemma candidates_positions_NoDup (start : nat) (idx : list vector)
  (q : vector) (k : Z) :
  NoDup (map fst (candidates_from computed start idx q k)).
Proof.
  revert start. induction idx as [| v rest IH]; intros start;
    cbn [candidates_from]; [constructor |].
  destruct (computed k q v) as [d |]; [| apply IH].
  cbn [map fst]. constructor; [| apply IH].
  intros Hin. apply in_map_iff in Hin. destruct Hin as (p & Hp & Hin).
  apply in_candidates in Hin. lia.
Qed.

Lemma candidates_length (start : nat) (idx : list vector) (q : query)
  (k : Z) :
  length (candidates_from computed start idx (query_data q) k)
  = length (filter (is_candidate computed q k) idx).
Proof.
  revert start. induction idx as [| v rest IH]; intros start;
    cbn [candidates_from filter]; [reflexivity |].
  unfold is_candidate at 1.
  destruct (computed k (query_data q) v); simpl; rewrite IH; reflexivity.
Qed.

Lemma nearest_first_perm (idx : list vector) (q : vector) (k : Z) :
  Permutation (nearest_first computed idx q k)
              (map fst (candidates_from computed 0 idx q k)).
Proof.
  unfold nearest_first. apply Permutation_sym, Permutation_map, rank_perm.
Qed.

Lemma nearest_first_sorted (idx : list vector) (q : vector) (k : Z) :
  StronglySorted
    (fun i j => not_farther (computed k q (nth i idx []))
                            (computed k q (nth j idx [])))
    (nearest_first computed idx q k).
Proof.
  unfold nearest_first.
  apply (sorted_by_key (fun i => computed k q (nth i idx [])));
    [| apply rank_sorted].
  intros p Hp.
  apply (Permutation_in _ (Permutation_sym (rank_perm _))) in Hp.
  apply in_candidates in Hp. destruct Hp as [_ Hv].
  rewrite Nat.sub_0_r in Hv. exact Hv.
Qed.

Lemma search_length (idx : list vector) (dim : nat) (q : vector) (k : Z)
  (indices : list Z) :
  search computed idx dim q k = Ok indices -> Z.of_nat (length indices) = k.
Proof.
  unfold search. destruct (negb (length q =? dim)%nat); [discriminate |].
  destruct (k <=? 0)%Z eqn:Hk; [discriminate |]. apply Z.leb_gt in Hk.
  intros H. inversion H. rewrite length_app, length_map, repeat_length.
  pose proof (firstn_le_length (Z.to_nat k) (nearest_first computed idx q k)).
  lia.
Qed.

(** The first [k] positions of the ranking are the [k] nearest
    candidates. *)
Lemma firstn_nearest (self : faiss_retriever) (q : query) (k : Z) :
  nearest computed self q k
    (firstn (Z.to_nat k)
            (nearest_first computed (index self) (query_data q) k)).
Proof.
  set (ranked := nearest_first computed (index self) (query_data q) k).
  pose proof (nearest_first_perm (index self) (query_data q) k) as Hperm.
  fold ranked in Hperm.
  assert (Hnd : NoDup ranked).
  { apply (Permutation_NoDup (Permutation_sym Hperm)).
    apply candidates_positions_NoDup. }
  assert (Hin : forall i, In i ranked
                          <-> (i < length (index self))%nat
                              /\ distance_to computed self q k i <> None).
  { intros i. unfold distance_to. split.
    - intros H. apply (Permutation_in _ Hperm), in_map_iff in H.
      destruct H as (p & <- & Hp). apply in_candidates in Hp.
      destruct Hp as [Hr Hc]. rewrite Nat.sub_0_r in Hc.
      split; [lia | congruence].
    - intros [Hlt Hc].
      destruct (computed k (query_data q) (nth i (index self) []))
        as [d |] eqn:Hd; [| contradiction].
      apply (Permutation_in _ (Permutation_sym Hperm)), in_map_iff.
      exists (i, d). split; [reflexivity |].
      apply in_candidates. cbn [fst snd]. rewrite Nat.sub_0_r.
      split; [lia | exact Hd]. }
  destruct (sorted_firstn _ (Z.to_nat k) ranked
              (nearest_first_sorted (index self) (query_data q) k))
    as [Hsorted Hcut].
  unfold nearest. split; [| split; [| split; [| split]]].
  - rewrite <- (firstn_skipn (Z.to_nat k) ranked) in Hnd.
    exact (NoDup_app_remove_r _ _ Hnd).
  - intros i Hi. apply Hin.
    rewrite <- (firstn_skipn (Z.to_nat k) ranked).
    apply in_or_app. left. exact Hi.
  - rewrite length_firstn, (Permutation_length Hperm), length_map.
    rewrite candidates_length. reflexivity.
  - exact Hsorted.
  - intros i j Hi Hj Hc Hnot. apply Hcut; [exact Hi |].
    assert (Hr : In j ranked) by (apply Hin; split; assumption).
    rewrite <- (firstn_skipn (Z.to_nat k) ranked) in Hr.
    apply in_app_or in Hr. destruct Hr as [Hr | Hr]; [contradiction | exact Hr].
Qed.

(** On a non-empty index that is in step with the lists, a float32 query
    of the index's dimension and a positive [top_k] give the stored entries
    at the positions of the nearest candidates. *)
Lemma retrieve_nearest (self : faiss_retriever) (q : query) (k : Z) :
  index self <> [] -> query_dtype q = Float32 ->
  length (query_data q) = embedding_dim self -> (0 < k)%Z ->
  in_step self ->
  exists ids,
    nearest computed self q k ids
    /\ retrieve computed self q k = Ok (map (stored_entry (base self)) ids)
    /\ forall i, In i ids ->
         nth_error (get_all (base self)) i
         = Some (stored_entry (base self) i)
         /\ embedding (stored_entry (base self) i) = nth i (index self) [].
Proof.
  intros Hne Hd Hdim Hk (Hidx & Ht & Hm).
  exists (firstn (Z.to_nat k)
                 (nearest_first computed (index self) (query_data q) k)).
  pose proof (firstn_nearest self q k) as Hnear.
  split; [exact Hnear |].
  destruct Hnear as (_ & Hlt & _).
  assert (He : length (embeddings (base self)) = length (index self))
    by (rewrite Hidx; reflexivity).
  split.
  - unfold retrieve, search.
    destruct (length (index self) =? 0)%nat eqn:H0.
    { apply Nat.eqb_eq in H0. destruct (index self); [contradiction |].
      discriminate H0. }
    rewrite Hd, Hdim, Nat.eqb_refl. cbn [dtype_eqb negb].
    destruct (k <=? 0)%Z eqn:Hk0; [apply Z.leb_le in Hk0; lia |].
    cbn [bind]. apply collect_found.
    intros i Hi. destruct (Hlt i Hi) as [Hi' _]. lia.
  - intros i Hi. destruct (Hlt i Hi) as [Hi' _]. split.
    + rewrite get_all_stored by lia.
      rewrite nth_error_map, nth_error_seq.
      destruct (i <? length (texts (base self)))%nat eqn:Hb; [reflexivity |].
      apply Nat.ltb_ge in Hb. lia.
    + simpl. rewrite Hidx. reflexivity.
Qed.

(** What [retrieve] needs in order to return. *)
Lemma retrieve_Ok_inv (self : faiss_retriever) (q : query) (k : Z)
  (result : list entry) :
  retrieve computed self q k = Ok result ->
  index self <> [] /\ query_dtype q = Float32
  /\ length (query_data q) = embedding_dim self /\ (0 < k)%Z.
Proof.
  intros H. unfold retrieve, search in H.
  destruct (index self) as [| v idx] eqn:Hidx; [discriminate H |].
  cbn [length Nat.eqb] in H.
  destruct (query_dtype q); try discriminate H. cbn [dtype_eqb negb] in H.
  destruct (length (query_data q) =? embedding_dim self)%nat eqn:Hd;
    [| discriminate H].
  cbn [negb] in H.
  destruct (k <=? 0)%Z eqn:Hk; [discriminate H |].
  apply Nat.eqb_eq in Hd. apply Z.leb_gt in Hk.
  repeat split; [discriminate | exact Hd | exact Hk].
Qed.

(** C8 (as amended).  [FAISSRetriever.retrieve] raises the ValueError
    "The FAISS index is empty..." when the index holds no entry.  On an
    index that is not empty, a query whose dtype is not float32 raises the
    ValueError "Query embedding must be of dtype np.float32.".  When the
    index is not empty, the query is float32 and has the dimension of the
    index, [top_k] is positive and every insertion so far succeeded, it
    returns the stored entries at the positions of the [top_k] candidates
    nearest to the query by the float32 distance the index computes (of all
    candidates when there are fewer), nearest first; a stored vector whose
    computed distance the index does not take is not returned. *)
Theorem retrieve_empty_or_nearest (self : faiss_retriever) (q : query) (k : Z) :
  (index self = [] ->
   retrieve computed self q k = Raise (ValueError empty_index_message))
  /\ (index self <> [] -> query_dtype q <> Float32 ->
      retrieve computed self q k = Raise (ValueError query_dtype_message))
  /\ (index self <> [] -> query_dtype q = Float32 ->
      length (query_data q) = embedding_dim self -> (0 < k)%Z ->
      in_step self ->
      exists ids,
        nearest computed self q k ids
        /\ retrieve computed self q k = Ok (map (stored_entry (base self)) ids)
        /\ forall i, In i ids ->
             nth_error (get_all (base self)) i
             = Some (stored_entry (base self) i)
             /\ embedding (stored_entry (base self) i) = nth i (index self) []).
Proof.
  split; [| split].
  - intros H. unfold retrieve. rewrite H. reflexivity.
  - intros Hne Hd. unfold retrieve.
    destruct (index self); [contradiction |]. cbn [length Nat.eqb].
    destruct (query_dtype q); try reflexivity. contradiction.
  - apply retrieve_nearest.
Qed.

(** C10 (as amended).  Whenever [retrieve] returns, it returns at most
    [top_k] entries.  When the index is not empty, the query is float32 and
    has the dimension of the index, every insertion so far succeeded,
    [top_k] exceeds the number of stored entries and the index takes every
    stored vector as a candidate (no computed distance overflows), it
    returns exactly the stored entries, each once (the -1 labels that pad
    the search result are left out). *)
Theorem retrieve_at_most_top_k (self : faiss_retriever) (q : query) (k : Z) :
  (forall result, retrieve computed self q k = Ok result ->
                  (Z.of_nat (length result) <= k)%Z)
  /\ (index self <> [] -> query_dtype q = Float32 ->
      length (query_data q) = embedding_dim self -> in_step self ->
      (Z.of_nat (length (index self)) < k)%Z ->
      (forall v, In v (index self) -> computed k (query_data q) v <> None) ->
      exists result,
        retrieve computed self q k = Ok result
        /\ Permutation result (get_all (base self))
        /\ length result = length (index self)).
Proof.
  split.
  - intros result H. unfold retrieve in H.
    destruct (length (index self) =? 0)%nat; [discriminate |].
    destruct (negb (dtype_eqb (query_dtype q) Float32)); [discriminate |].
    bind_inv H indices Hs.
    apply search_length in Hs. apply collect_length in H. lia.
  - intros Hne Hd Hdim Hstep Hk Hall.
    destruct (retrieve_nearest self q k Hne Hd Hdim ltac:(lia) Hstep)
      as (ids & Hnear & Hret & _).
    destruct Hstep as (Hidx & Ht & Hm).
    destruct Hnear as (Hnd & Hlt & Hlen & _).
    assert (Hfull : filter (is_candidate computed q k) (index self)
                    = index self).
    { apply forallb_filter_id, forallb_forall. intros v Hv.
      unfold is_candidate. specialize (Hall v Hv).
      destruct (computed k (query_data q) v); [reflexivity | contradiction]. }
    rewrite Hfull in Hlen.
    assert (Hperm : Permutation ids (seq 0 (length (index self)))).
    { apply NoDup_Permutation_bis; [exact Hnd | |].
      - rewrite Hlen, length_seq. lia.
      - intros i Hi. apply in_seq. destruct (Hlt i Hi) as [Hi' _]. lia. }
    exists (map (stored_entry (base self)) ids). split; [exact Hret |]. split.
    + rewrite get_all_stored by (rewrite <- ?Hidx; lia).
      rewrite Ht. apply Permutation_map. exact Hperm.
    + rewrite length_map, Hlen. lia.
Qed.

End Index.

(** C8 at a new retriever (empty index) and at the retriever holding two
    texts, for the query (1, 1) and [top_k = 1]. *)
Lemma retrieve_empty_or_nearest_witness :
  retrieve float32_kernel (new_faiss 2) good_query 1
  = Raise (ValueError empty_index_message)
  /\ retrieve float32_kernel two_texts float64_query 1
     = Raise (ValueError query_dtype_message)
  /\ exists ids,
       nearest float32_kernel two_texts good_query 1 ids
       /\ retrieve float32_kernel two_texts good_query 1
          = Ok (map (stored_entry (base two_texts)) ids)
       /\ forall i, In i ids ->
            nth_error (get_all (base two_texts)) i
            = Some (stored_entry (base two_texts) i)
            /\ embedding (stored_entry (base two_texts) i)
               = nth i (index two_texts) [].
Proof.
  split; [| split].
  - apply (retrieve_empty_or_nearest float32_kernel (new_faiss 2) good_query 1).
    reflexivity.
  - apply (retrieve_empty_or_nearest float32_kernel two_texts float64_query 1);
      discriminate.
  - apply (retrieve_empty_or_nearest float32_kernel two_texts good_query 1).
    + discriminate.
    + reflexivity.
    + reflexivity.
    + reflexivity.
    + exact two_texts_in_step.
Defined.

(** C8 as stated fails twice.  On the index of two texts a float64 query
    makes [retrieve] raise instead of returning entries.  And on the index
    holding (4096, 1) and (4096, 0), in this order, the float32 query (0, 0)
    with [top_k = 1] gets the first, which is the farther of the two: the
    float32 sum 4096^2 + 1 is rounded to 4096^2, the two computed distances
    are equal, and the index keeps the earlier position. *)
Lemma retrieve_float64_counterexample :
  (index two_texts <> []
   /\ retrieve float32_kernel two_texts float64_query 1
      = Raise (ValueError query_dtype_message))
  /\ (retrieve float32_kernel close_pair origin 1
      = Ok [mkEntry "farther" [4096; 1] []]
      /\ dist2 (query_data origin) [4096; 0]
         < dist2 (query_data origin) [4096; 1]).
Proof.
  split; split; try discriminate; reflexivity.
Qed.

(** C10 at the retriever holding two texts, for the query (1, 1) and
    [top_k = 5]. *)
Lemma retrieve_at_most_top_k_witness :
  (forall result, retrieve float32_kernel two_texts good_query 5 = Ok result ->
                  (Z.of_nat (length result) <= 5)%Z)
  /\ exists result,
       retrieve float32_kernel two_texts good_query 5 = Ok result
       /\ Permutation result (get_all (base two_texts))
       /\ length result = length (index two_texts).
Proof.
  destruct (retrieve_at_most_top_k float32_kernel two_texts good_query 5)
    as [Hmost Hall].
  split; [exact Hmost |].
  apply Hall.
  - discriminate.
  - reflexivity.
  - reflexivity.
  - exact two_texts_in_step.
  - reflexivity.
  - intros v [<- | [<- | []]]; discriminate.
Defined.

(** C10 as stated fails twice.  On the index of two texts, of dimension 2,
    a float32 query of three components and [top_k = 5] make the index
    search refuse the query, and [retrieve] raises instead of returning the
    stored entries.  And on the index holding the single vector 2^64, the
    float32 query -2^64 with [top_k = 5] gets no entry at all: the computed
    distance is infinite, the index answers with the label -1 only, and the
    result is the empty list where one entry is stored. *)
Lemma retrieve_dimension_counterexample :
  (index two_texts <> []
   /\ query_dtype long_query = Float32
   /\ (Z.of_nat (length (index two_texts)) < 5)%Z
   /\ retrieve float32_kernel two_texts long_query 5 = Raise AssertionError)
  /\ (length (index far_away) = 1%nat
      /\ query_dtype opposite_query = Float32
      /\ length (query_data opposite_query) = embedding_dim far_away
      /\ retrieve float32_kernel far_away opposite_query 5 = Ok []).
Proof.
  split.
  - split; [discriminate |]. split; [reflexivity |]. split; reflexivity.
  - split; [reflexivity |]. split; [reflexivity |]. split; reflexivity.
Qed.

(** *** Insertions that reach the index *)

(** A float32 array with as many rows as there are texts, but whose rows
    have not the index's dimension, passes the tests of lines 35-38 and
    68: the three lists are extended by line 70 before the index refuses
    the array at line 71, and the exception leaves them extended while the
    index is as before.  With at least one text, the lists and the index
    are then out of step. *)
Theorem wrong_dimension_extends_lists_only (self : faiss_retriever)
  (new_texts : list string) (new_embeddings : ndarray)
  (md : option (list meta)) :
  array_dtype new_embeddings = Float32 ->
  length new_texts = length (rows new_embeddings) ->
  (truthy md = true -> length (metadata_or_nil md) = length new_texts) ->
  ncols new_embeddings <> embedding_dim self ->
  faiss_add_texts self new_texts new_embeddings md
  = (mkFaiss (mkStore (texts (base self) ++ new_texts)
                      (embeddings (base self) ++ rows new_embeddings)
                      (metadata (base self)
                       ++ (if truthy md then metadata_or_nil md
                           else map (fun _ => []) new_texts)))
             (index self) (embedding_dim self),
     Raise AssertionError)
  /\ (in_step self -> new_texts <> [] ->
      ~ in_step (fst (faiss_add_texts self new_texts new_embeddings md))).
Proof.
  intros Hd Hc Hmd Hn.
  assert (Heq : faiss_add_texts self new_texts new_embeddings md
    = (mkFaiss (mkStore (texts (base self) ++ new_texts)
                        (embeddings (base self) ++ rows new_embeddings)
                        (metadata (base self)
                         ++ (if truthy md then metadata_or_nil md
                             else map (fun _ => []) new_texts)))
               (index self) (embedding_dim self),
       Raise AssertionError)).
  { unfold faiss_add_texts, add_texts, index_add.
    rewrite Hd. cbn [dtype_eqb negb].
    rewrite (proj2 (Nat.eqb_eq _ _) Hc). cbn [negb].
    destruct (truthy md) eqn:Htr.
    - rewrite (proj2 (Nat.eqb_eq _ _) (Hmd eq_refl)). cbn [negb andb fst snd].
      rewrite (proj2 (Nat.eqb_neq _ _) Hn). reflexivity.
    - cbn [andb fst snd].
      rewrite (proj2 (Nat.eqb_neq _ _) Hn). reflexivity. }
  split; [exact Heq |].
  intros (_ & Ht & _) Hne. rewrite Heq. cbn [fst].
  intros (_ & Ht' & _). cbn [base index texts] in Ht'.
  rewrite length_app in Ht'.
  destruct new_texts; [contradiction | simpl in Ht'; lia].
Qed.

(** One text with an embedding of three components, offered to the
    retriever of dimension 2 that holds two texts. *)
Lemma wrong_dimension_extends_lists_only_witness :
  faiss_add_texts two_texts ["third"]%string
                  (mkArray Float32 3 [[1; 2; 3]]) None
  = (mkFaiss (mkStore ["near"; "far"; "third"]%string
                      [[1; 0]; [5; 5]; [1; 2; 3]]
                      [[]; []; []])
             [[1; 0]; [5; 5]] 2,
     Raise AssertionError).
Proof.
  apply (wrong_dimension_extends_lists_only two_texts ["third"]%string
           (mkArray Float32 3 [[1; 2; 3]]) None).
  - reflexivity.
  - reflexivity.
  - discriminate.
  - simpl. lia.
Defined.

(** An insertion that returns has appended the texts and the rows of the
    array to the lists and to the index, and it keeps the lists and the
    index in step. *)
Theorem insertion_appends_in_step (self after : faiss_retriever)
  (new_texts : list string) (new_embeddings : ndarray)
  (md : option (list meta)) :
  faiss_add_texts self new_texts new_embeddings md = (after, Ok tt) ->
  texts (base after) = texts (base self) ++ new_texts
  /\ embeddings (base after) = embeddings (base self) ++ rows new_embeddings
  /\ index after = index self ++ rows new_embeddings
  /\ embedding_dim after = embedding_dim self
  /\ (in_step self -> in_step after).
Proof.
  intros H.
  assert (Hstep : in_step self -> in_step after).
  { intros Hs. exact (faiss_add_texts_in_step _ _ _ _ _ Hs H). }
  revert H. unfold faiss_add_texts, add_texts, index_add.
  destruct (negb (dtype_eqb (array_dtype new_embeddings) Float32));
    [discriminate |].
  destruct (negb (length new_texts =? length (rows new_embeddings))%nat);
    [discriminate |].
  destruct (truthy md && negb (length (metadata_or_nil md) =? length new_texts)%nat);
    [discriminate |].
  cbn [fst snd].
  destruct (ncols new_embeddings =? embedding_dim self)%nat; [| discriminate].
  intros H. inversion H. subst after. cbn.
  split; [reflexivity |]. split; [reflexivity |]. split; [reflexivity |].
  split; [reflexivity | exact Hstep].
Qed.

(** The insertion that builds the retriever of two texts. *)
Lemma insertion_appends_in_step_witness :
  texts (base two_texts) = ["near"; "far"]%string
  /\ embeddings (base two_texts) = [[1; 0]; [5; 5]]
  /\ index two_texts = [[1; 0]; [5; 5]]
  /\ embedding_dim two_texts = 2%nat
  /\ (in_step (new_faiss 2) -> in_step two_texts).
Proof.
  exact (insertion_appends_in_step (new_faiss 2) two_texts
           ["near"; "far"]%string (mkArray Float32 2 [[1; 0]; [5; 5]]) None
           eq_refl).
Defined.

(** *** Reading back what was inserted *)

Lemma zip3_app (ts ts' : list string) (es es' : list vector)
  (ms ms' : list meta) :
  length es = length ts -> length ms = length ts ->
  zip3 (ts ++ ts') (es ++ es') (ms ++ ms') = zip3 ts es ms ++ zip3 ts' es' ms'.
Proof.
  revert es ms. induction ts as [| t ts IH]; intros [| e es] [| m ms] He Hm;
    simpl in *; try discriminate; [reflexivity |].
  rewrite IH by lia. reflexivity.
Qed.

Lemma length_zip3 (ts : list string) (es : list vector) (ms : list meta) :
  length es = length ts -> length ms = length ts ->
  length (zip3 ts es ms) = length ts.
Proof.
  revert es ms. induction ts as [| t ts IH]; intros [| e es] [| m ms] He Hm;
    simpl in *; try discriminate; [reflexivity |].
  rewrite IH by lia. reflexivity.
Qed.

(** On a store whose three lists have one length, an insertion that
    returns is read back by [get_all]: the entries held before, then one
    entry for each new text, with its row of the array and its metadata
    (the empty dictionary when none was given), in the order given. *)
Theorem get_all_after_add_texts (self after : store)
  (new_texts : list string) (new_embeddings : ndarray)
  (md : option (list meta)) :
  length (embeddings self) = length (texts self) ->
  length (metadata self) = length (texts self) ->
  add_texts self new_texts new_embeddings md = (after, Ok tt) ->
  get_all after
  = get_all self
    ++ zip3 new_texts (rows new_embeddings)
            (if truthy md then metadata_or_nil md
             else map (fun _ => []) new_texts)
  /\ length (get_all after) = (length (texts self) + length new_texts)%nat.
Proof.
  intros He Hm. unfold add_texts.
  destruct (length new_texts =? length (rows new_embeddings))%nat eqn:Hc;
    [| discriminate].
  apply Nat.eqb_eq in Hc. cbn [negb].
  destruct (truthy md && negb (length (metadata_or_nil md) =? length new_texts)%nat)
    eqn:Hmd; [discriminate |].
  intros H. inversion H; subst after; clear H.
  assert (Hnew : length (if truthy md then metadata_or_nil md
                         else map (fun _ : string => @nil (string * string))
                                  new_texts)
                 = length new_texts).
  { destruct (truthy md).
    - simpl in Hmd. apply negb_false_iff, Nat.eqb_eq in Hmd. exact Hmd.
    - apply length_map. }
  unfold get_all. cbn [texts embeddings metadata].
  rewrite zip3_app by assumption. split; [reflexivity |].
  rewrite length_app, !length_zip3 by (assumption || lia). reflexivity.
Qed.

(** Two texts inserted into the empty store. *)
Lemma get_all_after_add_texts_witness :
  get_all (base two_texts)
  = get_all new_store
    ++ zip3 ["near"; "far"]%string [[1; 0]; [5; 5]] [[]; []]
  /\ length (get_all (base two_texts)) = 2%nat.
Proof.
  exact (get_all_after_add_texts new_store (base two_texts)
           ["near"; "far"]%string (mkArray Float32 2 [[1; 0]; [5; 5]]) None
           eq_refl eq_refl eq_refl).
Defined.

(** *** When a query is answered *)

Section Answers.

Variable computed : Z -> vector -> vector -> option Q.

(** With the lists and the index in step, [retrieve] returns exactly when
    the index is not empty, the query is float32 and has the dimension of
    the index, and [top_k] is positive; in every other case it raises. *)
Theorem retrieve_returns_iff (self : faiss_retriever) (q : query) (k : Z) :
  in_step self ->
  ((exists result, retrieve computed self q k = Ok result)
   <-> (index self <> [] /\ query_dtype q = Float32
        /\ length (query_data q) = embedding_dim self /\ (0 < k)%Z)).
Proof.
  intros Hstep. split.
  - intros [result H]. exact (retrieve_Ok_inv computed self q k result H).
  - intros (Hne & Hdt & Hd & Hk).
    destruct (retrieve_nearest computed self q k Hne Hdt Hd Hk Hstep)
      as (ids & _ & Hr & _).
    eexists. exact Hr.
Qed.

(** With the lists and the index in step, whatever [retrieve] returns is
    made of stored entries: each returned entry is the entry [get_all]
    shows at some position, and no position is returned twice. *)
Theorem retrieve_returns_stored_entries (self : faiss_retriever) (q : query)
  (k : Z) (result : list entry) :
  in_step self ->
  retrieve computed self q k = Ok result ->
  exists ids,
    NoDup ids
    /\ result = map (stored_entry (base self)) ids
    /\ forall i, In i ids ->
         nth_error (get_all (base self)) i = Some (stored_entry (base self) i).
Proof.
  intros Hstep H.
  destruct (retrieve_Ok_inv computed self q k result H) as (Hne & Hdt & Hd & Hk).
  destruct (retrieve_nearest computed self q k Hne Hdt Hd Hk Hstep)
    as (ids & (Hnd & _) & Hr & Hall).
  exists ids. rewrite Hr in H. inversion H.
  split; [exact Hnd |]. split; [reflexivity |].
  intros i Hi. exact (proj1 (Hall i Hi)).
Qed.

End Answers.

(** The retriever of two texts and the float32 query of dimension 2. *)
Lemma retrieve_returns_iff_witness :
  (exists result, retrieve float32_kernel two_texts good_query 1 = Ok result)
  <-> (index two_texts <> [] /\ query_dtype good_query = Float32
       /\ length (query_data good_query) = embedding_dim two_texts
       /\ (0 < 1)%Z).
Proof.
  exact (retrieve_returns_iff float32_kernel two_texts good_query 1
           two_texts_in_step).
Defined.

(** The retriever of two texts asked for five entries. *)
Lemma retrieve_returns_stored_entries_witness :
  exists ids,
    NoDup ids
    /\ map (stored_entry (base two_texts)) [0; 1]%nat
       = map (stored_entry (base two_texts)) ids
    /\ forall i, In i ids ->
         nth_error (get_all (base two_texts)) i
         = Some (stored_entry (base two_texts) i).
Proof.
  exact (retrieve_returns_stored_entries float32_kernel two_texts good_query 5
           (map (stored_entry (base two_texts)) [0; 1]%nat)
           two_texts_in_step eq_refl).
Defined.

End RetrieverFacts.

(** ** The scraping agent *)

Module ScrapingFacts.

Import Scraping.

Local Open Scope string_scope.

(** ** Strings *)

Lemma lower_app (a b : string) :
  lower (String.append a b) = String.append (lower a) (lower b).
Proof.
  induction a as [| c a IH]; simpl; [reflexivity |]. rewrite IH. reflexivity.
Qed.


Lemma substring_all (s : string) : substring 0 (String.length s) s = s.
Proof.
  induction s as [| c s IH]; simpl; [reflexivity |]. rewrite IH. reflexivity.
Qed.

Lemma substring_skip (a b : string) (k m : nat) :
  substring (String.length a + k) m (String.append a b) = substring k m b.
Proof. induction a as [| c a IH]; simpl; [reflexivity | exact IH]. Qed.

Lemma length_append (a b : string) :
  String.length (String.append a b) = (String.length a + String.length b)%nat.
Proof.
  induction a as [| c a IH]; simpl; [reflexivity |]. rewrite IH. reflexivity.
Qed.

Lemma endswith_app (a b : string) : endswith (String.append a b) b = true.
Proof.
  unfold endswith. rewrite length_append.
  replace (String.length a + String.length b - String.length b)%nat
    with (String.length a + 0)%nat by lia.
  rewrite substring_skip, substring_all, String.eqb_refl.
  rewrite andb_true_r. apply Nat.leb_le. lia.
Qed.

Lemma split_at (k : nat) (s : string) :
  (k <= String.length s)%nat ->
  s = String.append (substring 0 k s) (substring k (String.length s - k) s).
Proof.
  revert k. induction s as [| c s IH]; intros [| k] Hk; simpl in *;
    try lia; try reflexivity.
  - rewrite substring_all. reflexivity.
  - rewrite <- IH by lia. reflexivity.
Qed.

Lemma endswith_split (s suffix : string) :
  endswith s suffix = true ->
  exists stem,
    s = String.append stem suffix
    /\ String.length s = (String.length stem + String.length suffix)%nat.
Proof.
  unfold endswith. intros H. apply andb_true_iff in H. destruct H as [Hle Heq].
  apply Nat.leb_le in Hle. apply String.eqb_eq in Heq.
  exists (substring 0 (String.length s - String.length suffix) s).
  assert (Hs : s = String.append
                     (substring 0 (String.length s - String.length suffix) s)
                     suffix).
  { pose proof (split_at (String.length s - String.length suffix) s) as Hsplit.
    replace (String.length s - (String.length s - String.length suffix))%nat
      with (String.length suffix) in Hsplit by lia.
    rewrite Heq in Hsplit. apply Hsplit. lia. }
  split; [exact Hs |].
  rewrite Hs at 1. apply length_append.
Qed.

(** A string ends as its suffix ends. *)
Lemma endswith_last_char (s suffix : string) :
  endswith s suffix = true -> suffix <> EmptyString ->
  last_char s = last_char suffix.
Proof.
  intros H Hne. destruct (endswith_split _ _ H) as (stem & Hs & Hlen).
  unfold last_char. rewrite Hlen, Hs.
  assert (Hpos : (0 < String.length suffix)%nat)
    by (destruct suffix; [contradiction | simpl; lia]).
  replace (String.length stem + String.length suffix - 1)%nat
    with (String.length stem + (String.length suffix - 1))%nat by lia.
  apply substring_skip.
Qed.

(** The two tests of lines 83 and 88 never hold together. *)
Lemma is_pdf_not_html (url : string) : is_pdf url = true -> is_html url = false.
Proof.
  unfold is_pdf, is_html. intros Hp.
  pose proof (endswith_last_char _ _ Hp) as Hf.
  destruct (endswith (lower url) ".html") eqn:Hh.
  - pose proof (endswith_last_char _ _ Hh) as Hl.
    rewrite Hf in Hl by discriminate. discriminate Hl. discriminate.
  - destruct (endswith (lower url) ".htm") eqn:Hm; [| reflexivity].
    pose proof (endswith_last_char _ _ Hm) as Hl.
    rewrite Hf in Hl by discriminate. discriminate Hl. discriminate.
Qed.

(** *** The extension of an address *)









(** ** Stripping *)

Lemma rstrip_rstrip (s : text) : rstrip (rstrip s) = rstrip s.
Proof.
  induction s as [| c s IH]; simpl; [reflexivity |].
  destruct (rstrip s) as [| c' t'] eqn:Hr.
  - destruct (is_space c) eqn:Hc; simpl; [reflexivity |].
    rewrite Hc. reflexivity.
  - cbn [rstrip]. cbn [rstrip] in IH. rewrite IH. reflexivity.
Qed.

Lemma lstrip_head (s : text) :
  lstrip s = [] \/ exists c r, lstrip s = c :: r /\ is_space c = false.
Proof.
  induction s as [| c s IH]; simpl; [left; reflexivity |].
  destruct (is_space c) eqn:Hc; [exact IH |].
  right. exists c, s. split; [reflexivity | exact Hc].
Qed.

Lemma rstrip_head (c : N) (r : text) :
  is_space c = false -> exists r', rstrip (c :: r) = c :: r'.
Proof.
  intros Hc. simpl. destruct (rstrip r); [rewrite Hc |]; eexists; reflexivity.
Qed.

(** Stripping a stripped text changes nothing. *)
Lemma strip_strip (s : text) : strip (strip s) = strip s.
Proof.
  unfold strip. destruct (lstrip_head s) as [H | (c & r & H & Hc)]; rewrite H.
  - reflexivity.
  - destruct (rstrip_head c r Hc) as [r' Hr]. rewrite Hr.
    cbn [lstrip]. rewrite Hc, <- Hr. apply rstrip_rstrip.
Qed.



(** ** One URL *)




Section Agent.

Variable requests_get : string -> response.
Variable BeautifulSoup : bytes -> option soup.
Variable PdfReader : bytes -> pdf_read.
Variable partition_pdf : bytes -> partition.

Local Abbreviation fetch := (_fetch_document requests_get).
Local Abbreviation one :=
  (scrape_filing requests_get BeautifulSoup PdfReader partition_pdf).
Local Abbreviation batch :=
  (scrape_filings requests_get BeautifulSoup PdfReader partition_pdf).





End Agent.

(** The batch on the small web: the failures of the second, third and
    fourth URL leave the first and the last entry as they are. *)
Lemma sample_batch :
  scrape_filings sample_get sample_soup sample_pdf sample_partition sample_urls
  = Ok [Some (HtmlData (of_string "Annual report")
                       (of_string "Revenue grew." ++ newline
                          ++ of_string "Costs fell.")%list);
        None; None; None;
        Some (HtmlData (of_string "Annual report")
                       (of_string "Revenue grew." ++ newline
                          ++ of_string "Costs fell.")%list)].
Proof. vm_compute. reflexivity. Qed.




Section Dispatch.

Variable requests_get : string -> response.
Variable BeautifulSoup : bytes -> option soup.
Variable PdfReader : bytes -> pdf_read.
Variable partition_pdf : bytes -> partition.

(** The extension decides, in any mix of upper and lower case, and each
    address is handled one way only: an address ending in .pdf goes to
    the PDF reader and never to the HTML parser, an address ending in
    .html or .htm goes to the HTML parser. *)
Theorem extension_decides_in_any_case (stem ext : string) :
  (lower ext = ".pdf" ->
   scrape_filing requests_get BeautifulSoup PdfReader partition_pdf
                 (String.append stem ext)
   = match _fetch_document requests_get (String.append stem ext) with
     | Raise e => Raise e
     | Ok None => Ok None
     | Ok (Some document_content) =>
         Ok (option_map _extract_data_from_text
               (_extract_text_from_pdf PdfReader partition_pdf document_content))
     end)
  /\ (lower ext = ".html" \/ lower ext = ".htm" ->
      scrape_filing requests_get BeautifulSoup PdfReader partition_pdf
                    (String.append stem ext)
      = match _fetch_document requests_get (String.append stem ext) with
        | Raise e => Raise e
        | Ok None => Ok None
        | Ok (Some document_content) =>
            Ok (option_map _extract_data_from_html
                  (_parse_html BeautifulSoup document_content))
        end).
Proof.
  split.
  - intros Hext.
    assert (Hp : is_pdf (String.append stem ext) = true).
    { unfold is_pdf. rewrite lower_app, Hext. apply endswith_app. }
    unfold scrape_filing.
    rewrite (is_pdf_not_html _ Hp), Hp.
    destruct (_fetch_document requests_get (String.append stem ext))
      as [[b |] | e]; cbn [bind]; try reflexivity.
    destruct (_extract_text_from_pdf PdfReader partition_pdf b); reflexivity.
  - intros Hext.
    assert (Hh : is_html (String.append stem ext) = true).
    { unfold is_html. rewrite lower_app.
      destruct Hext as [-> | ->]; rewrite endswith_app;
        [reflexivity | apply orb_true_r]. }
    unfold scrape_filing. rewrite Hh.
    destruct (_fetch_document requests_get (String.append stem ext))
      as [[b |] | e]; cbn [bind]; try reflexivity.
    destruct (_parse_html BeautifulSoup b); reflexivity.
Qed.

(** For a PDF address that answers and whose pages PyPDF2 reads: text that
    is not blank is returned stripped and the fallback has no part in the
    answer; blank text leaves the answer to the fallback, which gives the
    stripped rendering of its elements (possibly the empty text), or
    nothing when it is not installed or fails. *)
Theorem pdf_text_source (url : string) (body : bytes) (joined : text) :
  is_pdf url = true ->
  requests_get url = Content body ->
  PdfReader body = PdfText joined ->
  scrape_filing requests_get BeautifulSoup PdfReader partition_pdf url
  = Ok match strip joined with
       | _ :: _ => Some (TextData (strip joined))
       | [] =>
           match partition_pdf body with
           | Elements rendered =>
               Some (TextData (strip (join (newline ++ newline)%list rendered)))
           | _ => None
           end
       end.
Proof.
  intros Hp Hget Hread. unfold scrape_filing, _fetch_document.
  rewrite Hget. cbn [bind]. rewrite (is_pdf_not_html _ Hp), Hp.
  unfold _extract_text_from_pdf, _extract_data_from_text. rewrite Hread.
  destruct (strip joined) as [| c t] eqn:Hs.
  - destruct (partition_pdf body); try reflexivity.
    rewrite strip_strip. reflexivity.
  - rewrite <- Hs, strip_strip. reflexivity.
Qed.

(** An HTML address that answers and parses always gives a record: the
    stripped title with the stripped paragraphs joined by newlines, the
    title "Untitled Document" for a page without a title, and the record
    with title "Error" for a title that holds no single string. *)
Theorem html_record_always_returned (url : string) (body : bytes) (s : soup) :
  is_html url = true ->
  requests_get url = Content body ->
  BeautifulSoup body = Some s ->
  exists title content,
    scrape_filing requests_get BeautifulSoup PdfReader partition_pdf url
    = Ok (Some (HtmlData title content))
    /\ match soup_title s with
       | None =>
           title = of_string "Untitled Document"
           /\ content = join newline (map strip (soup_paragraphs s))
       | Some (Some t) =>
           title = strip t
           /\ content = join newline (map strip (soup_paragraphs s))
       | Some None => title = of_string "Error"
       end.
Proof.
  intros Hh Hget Hparse. unfold scrape_filing, _fetch_document, _parse_html.
  rewrite Hget. cbn [bind]. rewrite Hh, Hparse. unfold _extract_data_from_html.
  destruct (soup_title s) as [[t |] |]; eexists; eexists;
    (split; [reflexivity |]); try split; reflexivity.
Qed.

End Dispatch.

(** A PDF whose pages hold text, at an address written in capitals. *)
Lemma pdf_text_source_witness :
  scrape_filing sample_get sample_soup sample_pdf_text sample_partition
                "http://sec.example/TSLA.PDF"
  = Ok (Some (TextData (of_string "Form 10-K"))).
Proof.
  exact (pdf_text_source sample_get sample_soup sample_pdf_text
           sample_partition "http://sec.example/TSLA.PDF" page
           (of_string "  Form 10-K  ") eq_refl eq_refl eq_refl).
Defined.

(** The page of the small web. *)
Lemma html_record_always_returned_witness :
  exists title content,
    scrape_filing sample_get sample_soup sample_pdf sample_partition
                  "http://sec.example/msft.html"
    = Ok (Some (HtmlData title content))
    /\ title = strip (of_string " Annual report ")
    /\ content = join newline
                   (map strip [of_string " Revenue grew. ";
                               of_string "Costs fell."]).
Proof.
  exact (html_record_always_returned sample_get sample_soup sample_pdf
           sample_partition "http://sec.example/msft.html" page
           (mkSoup (Some (Some (of_string " Annual report ")))
                   [of_string " Revenue grew. "; of_string "Costs fell."])
           eq_refl eq_refl eq_refl).
Defined.

End ScrapingFacts.

(** ** The provider of [src/analysis_agent.py] *)

Module ProviderFacts.

Import Analysis Provider DictFacts.

Local Open Scope string_scope.

(** *** The table of closes has a row *)

Lemma dict_get_fold_set {V : Type} (f : string -> V) (seen : list string)
  (d : dict V) (k : string) :
  dict_get (fold_left (fun d s => dict_set d s (f s)) seen d) k
  = if existsb (String.eqb k) seen then Some (f k) else dict_get d k.
Proof.
  revert d. induction seen as [| a t IH]; intros d; simpl; [reflexivity |].
  rewrite IH, dict_get_set.
  destruct (existsb (String.eqb k) t); simpl.
  - rewrite orb_true_r. reflexivity.
  - rewrite orb_false_r, (String.eqb_sym k a).
    destruct (String.eqb a k) eqn:E; [| reflexivity].
    apply String.eqb_eq in E. subst. reflexivity.
Qed.

Lemma scan_fold_fst (hist : string -> Series Z) (seen : list string)
  (st : dict (Series Z) * list string) :
  fst (fold_left (scan_step hist) seen st)
  = fold_left (fun d s => dict_set d s (hist s)) seen (fst st).
Proof.
  revert st. induction seen as [| a t IH]; intros st; simpl; [reflexivity |].
  rewrite IH. f_equal. unfold scan_step.
  destruct (is_empty (hist a)); reflexivity.
Qed.

Lemma dict_comprehension_head {V : Type} (f : string -> res V)
  (rest : list string) (k0 : string) (v0 : V) (tl0 d : dict V) :
  f k0 = Ok v0 ->
  fold_left (fun acc k => d <- acc ;; v <- f k ;; Ok (dict_set d k v))
            rest (Ok ((k0, v0) :: tl0)) = Ok d ->
  exists tl, d = (k0, v0) :: tl.
Proof.
  intros H0. revert tl0. induction rest as [| k t IH]; intros tl0 H; simpl in H.
  - inversion H. eexists. reflexivity.
  - destruct (f k) as [v | e] eqn:Hf; cbn [bind] in H.
    + destruct (String.eqb k0 k) eqn:E.
      * apply String.eqb_eq in E. subst k. rewrite H0 in Hf.
        inversion Hf; subst v. exact (IH _ H).
      * exact (IH _ H).
    + rewrite AnalysisFacts.fold_Raise in H by reflexivity. discriminate H.
Qed.

Lemma insert_uniq_nonempty (z : Z) (l : list Z) : insert_uniq z l <> [].
Proof.
  destruct l as [| x t]; simpl; [discriminate |].
  destruct (z <? x)%Z; [discriminate |].
  destruct (z =? x)%Z; discriminate.
Qed.

Lemma union_index_nonempty (a b : list Z) : a <> [] -> union_index a b <> [].
Proof.
  intros Ha. unfold union_index.
  destruct a as [| x a']; [contradiction |].
  destruct b as [| y b']; [exact Ha |].
  destruct (list_Z_eqb (x :: a') (y :: b')); [exact Ha |].
  simpl. apply insert_uniq_nonempty.
Qed.

Lemma union_indexes_nonempty (i0 : list Z) (rest : list (list Z)) :
  i0 <> [] -> union_indexes (i0 :: rest) <> [].
Proof.
  unfold union_indexes. revert i0.
  induction rest as [| b t IH]; intros i0 H0; simpl; [exact H0 |].
  apply IH. apply union_index_nonempty. exact H0.
Qed.

(** As soon as a symbol is retained the table of closes has a row: the
    alternative of line 116 for a table without rows is never taken. *)
Lemma closes_have_rows (hist : string -> Series Z) (stock_list : list string)
  (data : DataFrame Z) :
  closes_for hist stock_list = Ok data ->
  retained hist stock_list <> [] ->
  index data <> [].
Proof.
  unfold closes_for, close_table.
  rewrite AnalysisFacts.scan_history_retained.
  intros H Hne.
  destruct (retained hist stock_list) as [| s0 rest] eqn:Hret;
    [contradiction |].
  assert (Hs0 : In s0 stock_list /\ hist s0 <> []).
  { assert (Hin : In s0 (retained hist stock_list))
      by (rewrite Hret; left; reflexivity).
    unfold retained in Hin. apply filter_In in Hin. destruct Hin as [Hin He].
    split; [exact Hin |]. intros Hnil. rewrite Hnil in He. discriminate He. }
  destruct Hs0 as [Hin Hfull].
  bind_inv H closes Hc.
  unfold dict_comprehension in Hc. simpl in Hc.
  assert (Hitem : dict_item (fst (scan_history hist stock_list)) s0
                  = Ok (hist s0)).
  { unfold dict_item, scan_history. rewrite scan_fold_fst, dict_get_fold_set.
    replace (existsb (String.eqb s0) stock_list) with true; [reflexivity |].
    symmetry. apply existsb_exists. exists s0.
    split; [exact Hin | apply String.eqb_refl]. }
  rewrite Hitem in Hc. cbn [bind dict_set] in Hc.
  destruct (dict_comprehension_head _ _ _ _ _ _ Hitem Hc) as [tl ->].
  unfold DataFrame_of_dict in H. bind_inv H cols Hcols.
  inversion H. cbn [index map fst snd].
  apply union_indexes_nonempty.
  destruct (hist s0); [contradiction | discriminate].
Qed.

(** *** Raising in the middle of a loop *)

Lemma fold_step_raises {A : Type} (step : res A -> string -> res A)
  (l : list string) (s : string) (init : A) :
  (forall e b, step (Raise e) b = Raise e) ->
  (forall acc, exists e, step (Ok acc) s = Raise e) ->
  In s l ->
  exists e, fold_left step l (Ok init) = Raise e.
Proof.
  intros Hraise Hs. revert init.
  induction l as [| a t IH]; intros init Hin; [destruct Hin |].
  simpl. destruct (step (Ok init) a) as [acc | e] eqn:Hstep.
  - destruct Hin as [-> | Hin].
    + destruct (Hs init) as [e He]. congruence.
    + exact (IH acc Hin).
  - exists e. apply AnalysisFacts.fold_Raise. intros b. apply Hraise.
Qed.

Lemma dict_comprehension_get {V : Type} (f : string -> res V)
  (keys : list string) (d0 d : dict V) :
  fold_left (fun acc k => d <- acc ;; v <- f k ;; Ok (dict_set d k v))
            keys (Ok d0) = Ok d ->
  forall k,
    (In k keys -> exists v, dict_get d k = Some v /\ f k = Ok v)
    /\ (~ In k keys -> dict_get d k = dict_get d0 k).
Proof.
  revert d0. induction keys as [| a t IH]; intros d0 H k.
  - simpl in H. inversion H. split; [intros [] | reflexivity].
  - simpl in H. destruct (f a) as [v | e] eqn:Hf; cbn [bind] in H.
    2:{ rewrite AnalysisFacts.fold_Raise in H by reflexivity. discriminate H. }
    destruct (IH _ H k) as [Hin Hout].
    destruct (in_dec string_dec k t) as [Ht | Hnt].
    + split; [intros _; exact (Hin Ht) |].
      intros Hn. exfalso. apply Hn. right. exact Ht.
    + rewrite (Hout Hnt), dict_get_set. split.
      * intros [-> | Hk]; [| contradiction].
        rewrite String.eqb_refl. exists v. split; [reflexivity | exact Hf].
      * intros Hn. destruct (String.eqb_spec a k) as [-> | Hak];
          [exfalso; apply Hn; left; reflexivity | reflexivity].
Qed.

Lemma dict_get_in {V : Type} (d : dict V) (k : string) :
  In k (map fst d) -> exists v, dict_get d k = Some v.
Proof.
  induction d as [| [k0 v0] t IH]; simpl; [intros [] |].
  intros H. destruct (String.eqb_spec k0 k) as [_ | Hne].
  - eexists. reflexivity.
  - destruct H as [H | H]; [contradiction | exact (IH H)].
Qed.

Lemma filter_map_swap {A B : Type} (p : B -> bool) (f : A -> B) (l : list A) :
  filter p (map f l) = map f (filter (fun a => p (f a)) l).
Proof.
  induction l as [| a t IH]; simpl; [reflexivity |].
  destruct (p (f a)); simpl; rewrite IH; reflexivity.
Qed.

Lemma fold_left_ext_eq {A B : Type} (f g : A -> B -> A) (l : list B) (i : A) :
  (forall a b, f a b = g a b) -> fold_left f l i = fold_left g l i.
Proof.
  intros H. revert i. induction l as [| b t IH]; intros i; simpl;
    [reflexivity |].
  rewrite H. apply IH.
Qed.

Section Agent.

Variable requests_get : string -> string -> answer.
Variable read_time_series : json -> option (list (Z * list float64)).
Variable to_datetime : json -> bool.
Variable plain_frame : dict json -> fetched frame.
Variable clock : string -> Z.
Variable pad : bool.
Variable other_change : string -> float64 -> res float64.

Local Abbreviation fetch :=
  (_fetch_data requests_get read_time_series to_datetime plain_frame).
Local Abbreviation history_of api_agent :=
  (history requests_get read_time_series to_datetime plain_frame api_agent
           clock).
Local Abbreviation latest_price_of api_agent :=
  (latest_price requests_get read_time_series to_datetime plain_frame
                api_agent).
Local Abbreviation analyze api_agent :=
  (Provider.analyze_risk_exposure requests_get read_time_series to_datetime
     plain_frame api_agent clock pad other_change).

(** *** What [_fetch_data] never raises *)

(** For the three time-series functions the test of line 27 cannot fail:
    the key it looks up was read from the object itself, and the KeyError
    of line 28 is never raised. *)
Theorem second_key_always_found (function symbol key : string) :
  In function time_series_functions ->
  fetch function symbol <> Failed (KeyMissing key).
Proof.
  intros Hf. unfold _fetch_data.
  destruct (requests_get function symbol) as [| data]; [discriminate |].
  destruct (dict_get data "Error Message"); [discriminate |].
  replace (existsb (String.eqb function) time_series_functions) with true.
  2:{ symmetry. apply existsb_exists. exists function.
      split; [exact Hf | apply String.eqb_refl]. }
  destruct (nth_error (map fst data) 1) as [k |] eqn:Hk; [| discriminate].
  apply nth_error_In in Hk. destruct (dict_get_in _ _ Hk) as [v Hv].
  rewrite Hv. destruct (read_time_series v); discriminate.
Qed.

(** *** Symbols without fresh data *)

Lemma no_fresh_data_history (key symbol : string) :
  no_fresh_data requests_get read_time_series clock symbol ->
  history_of (AlphaVantageAgent key) symbol = [].
Proof.
  unfold history, _get_historical_data, call_fetch_data, _fetch_data.
  change (existsb (String.eqb "TIME_SERIES_DAILY") time_series_functions)
    with true. cbv iota.
  intros [H | (data & H & Hcase)]; rewrite H; [reflexivity |].
  destruct (dict_get data "Error Message") as [detail |] eqn:He;
    [reflexivity |].
  destruct Hcase as [Herr | [Hshort | (k & series & Hk & Hs & Hread)]].
  - contradiction.
  - replace (nth_error (map fst data) 1) with (@None string); [reflexivity |].
    symmetry. apply nth_error_None. rewrite length_map. lia.
  - rewrite Hk, Hs.
    destruct Hread as [Hnone | (rows & Hrows & Hout)].
    + rewrite Hnone. reflexivity.
    + rewrite Hrows.
      replace (filter (fun r => in_window (clock symbol) 30 (fst r)) rows)
        with (@nil (Z * list float64)); [reflexivity |].
      symmetry. clear Hrows. induction rows as [| r t IH]; [reflexivity |].
      simpl. rewrite (Hout r (or_introl eq_refl)).
      apply IH. intros x Hx. apply Hout. right. exact Hx.
Qed.

(** When no symbol of the list has a row of the last thirty days (the
    request fails, the service sends an error message or a one-key note,
    the series cannot be read, or its rows are all older or in the
    future), every symbol is dropped and the analysis returns the error
    record of line 99. *)
Theorem stale_provider_gives_error_record (key : string)
  (stock_list : list string) (allocation_data : DataFrame string) :
  (forall s, In s stock_list ->
             no_fresh_data requests_get read_time_series clock s) ->
  analyze (AlphaVantageAgent key) stock_list allocation_data
  = ErrorRecord no_data_message.
Proof.
  intros Hall. unfold Provider.analyze_risk_exposure, Provider.risk_exposure.
  rewrite AnalysisFacts.scan_history_retained.
  replace (retained (history_of (AlphaVantageAgent key)) stock_list)
    with (@nil string); [reflexivity |].
  symmetry. apply AnalysisFacts.retained_nil. intros s Hs.
  apply no_fresh_data_history. apply Hall. exact Hs.
Qed.

(** *** A price that is a string *)

Lemma text_price_raises (api_agent : api_object) (stock_list : list string)
  (allocation_data : DataFrame string) (s t : string) :
  In s (retained (history_of api_agent) stock_list) ->
  latest_price_of api_agent s = Ok (Some (PyStr t)) ->
  analyze api_agent stock_list allocation_data = EmptyDict.
Proof.
  intros Hin Hprice.
  unfold Provider.analyze_risk_exposure, Provider.risk_exposure.
  rewrite AnalysisFacts.scan_history_retained.
  destruct (retained (history_of api_agent) stock_list) as [| s0 rest]
    eqn:Hret; [destruct Hin |].
  destruct (close_table _ _) as [data | e] eqn:Hdata; [| reflexivity].
  cbn [bind].
  destruct (loc allocation_data (s0 :: rest)) as [w | e]; [| reflexivity].
  cbn [bind].
  destruct (mul_ndarray _ _ _) as [weighted | e]; [| reflexivity].
  cbn [bind].
  destruct (dict_comprehension _ (s0 :: rest)) as [latest | e] eqn:HL;
    [| reflexivity].
  cbn [bind].
  assert (Hrows : index data <> []).
  { apply (closes_have_rows (history_of api_agent) stock_list).
    - unfold closes_for. rewrite AnalysisFacts.scan_history_retained, Hret.
      exact Hdata.
    - rewrite Hret. discriminate. }
  assert (Hraise : exists e,
            Provider.price_change_of other_change latest
              (previous_prices_of data (s0 :: rest)) (s0 :: rest) = Raise e).
  { unfold Provider.price_change_of.
    apply fold_step_raises with (s := s); [reflexivity | | exact Hin].
    intros acc. unfold Provider.price_change_step. cbn [bind].
    destruct (proj1 (dict_comprehension_get _ _ _ _ HL s) Hin)
      as (v & Hv & Hfv).
    rewrite Hprice in Hfv. inversion Hfv; subst v.
    unfold dict_item. rewrite Hv. cbn [bind].
    unfold previous_prices_of.
    replace (0 <? length (index data))%nat with true
      by (symmetry; apply Nat.ltb_lt; destruct (index data);
          [contradiction | simpl; lia]).
    rewrite AnalysisFacts.dict_get_map_Some.
    destruct (dict_get (iloc_last data) s); eexists; reflexivity. }
  destruct Hraise as [e He]. rewrite He. reflexivity.
Qed.

Lemma text_quote_latest_price (key symbol t : string) :
  text_quote requests_get to_datetime symbol t ->
  latest_price_of (AlphaVantageAgent key) symbol = Ok (Some (PyStr t)).
Proof.
  intros (data & members & day & label & Hreq & Herr & Hq & Hday & Hdt & Hp).
  unfold latest_price, _get_latest_quote, call_fetch_data, _fetch_data.
  rewrite Hreq, Herr.
  change (existsb (String.eqb "GLOBAL_QUOTE") time_series_functions)
    with false.
  change (String.eqb "GLOBAL_QUOTE" "GLOBAL_QUOTE") with true. cbv iota.
  rewrite Hq. unfold global_quote_frame.
  rewrite filter_map_swap. cbn [fst]. rewrite Hday. cbn [map snd].
  rewrite Hdt.
  assert (Hne : members <> []) by (intros ->; discriminate Hday).
  assert (Hempty : forall cells' : list (string * pyvalue),
            length cells' = length members ->
            frame_empty (OneRow cells') = false).
  { intros [| c cs] Hlen; [| reflexivity].
    destruct members; [contradiction | discriminate Hlen]. }
  rewrite Hempty by (rewrite !length_map; reflexivity). cbn [negb].
  unfold price_cell. rewrite !filter_map_swap. cbn [fst]. rewrite Hp.
  cbn [map fst snd].
  assert (Hlabel : renamed label = "price").
  { assert (Hin : In (label, JString t)
                     (filter (fun kv => String.eqb (renamed (fst kv)) "price")
                             members))
      by (rewrite Hp; left; reflexivity).
    apply filter_In in Hin. destruct Hin as [_ Hin].
    apply String.eqb_eq in Hin. exact Hin. }
  rewrite Hlabel. reflexivity.
Qed.

(** Lines 34-52 leave the cells of a quote as the service sends them.  A
    symbol with data whose quoted price is a string, as JSON strings are,
    stops the loop of lines 119-123 with a TypeError, and the analysis
    returns the empty dictionary. *)
Theorem string_price_gives_empty_dict (key : string)
  (stock_list : list string) (allocation_data : DataFrame string)
  (s t : string) :
  In s (retained (history_of (AlphaVantageAgent key)) stock_list) ->
  text_quote requests_get to_datetime s t ->
  analyze (AlphaVantageAgent key) stock_list allocation_data = EmptyDict.
Proof.
  intros Hin Hq.
  apply (text_price_raises _ _ _ s t Hin).
  apply text_quote_latest_price. exact Hq.
Qed.

(** *** The loop of the [__main__] block *)

(** Whatever the service answers, the call of line 166, on the agent, the
    symbols and the allocation table of lines 152-163, never gives an
    analysis record: it gives the error record when none of the three
    symbols has data, and the empty dictionary as soon as one has, since no
    symbol is a row label of the table. *)
Theorem main_block_never_gets_record (key : string) :
  analyze (AlphaVantageAgent key) main_stock_list main_allocation_data
  = if forallb (fun s => is_empty (history_of (AlphaVantageAgent key) s))
               main_stock_list
    then ErrorRecord no_data_message
    else EmptyDict.
Proof.
  set (hist := history_of (AlphaVantageAgent key)).
  unfold Provider.analyze_risk_exposure, Provider.risk_exposure.
  fold hist. rewrite AnalysisFacts.scan_history_retained.
  destruct (forallb (fun s => is_empty (hist s)) main_stock_list) eqn:Hall.
  - replace (retained hist main_stock_list) with (@nil string);
      [reflexivity |].
    symmetry. apply AnalysisFacts.retained_nil. intros s Hs.
    pose proof (proj1 (forallb_forall _ _) Hall s Hs) as He.
    unfold is_empty in He.
    destruct (hist s); [reflexivity | discriminate He].
  - assert (Hsome : exists s, In s main_stock_list /\ is_empty (hist s) = false).
    { unfold main_stock_list in *. cbn [forallb] in Hall.
      destruct (is_empty (hist "AAPL")) eqn:H1;
        [| exists "AAPL"; split; [simpl; auto | exact H1]].
      destruct (is_empty (hist "TSMC")) eqn:H2;
        [| exists "TSMC"; split; [simpl; auto | exact H2]].
      destruct (is_empty (hist "Samsung")) eqn:H3;
        [discriminate Hall
        | exists "Samsung"; split; [simpl; auto | exact H3]]. }
    destruct Hsome as (s & Hs & He).
    assert (Hin : In s (retained hist main_stock_list)).
    { unfold retained. apply filter_In. split; [exact Hs |].
      rewrite He. reflexivity. }
    assert (Hn : ~ In s (index main_allocation_data)).
    { cbn [index main_allocation_data]. intros [Heq | []]. subst s.
      simpl in Hs. destruct Hs as [H | [H | [H | []]]]; discriminate H. }
    destruct (retained hist main_stock_list) as [| s0 rest] eqn:Hret;
      [destruct Hin |].
    destruct (close_table _ _) as [data | e]; [| reflexivity].
    cbn [bind]. rewrite (AnalysisFacts.loc_missing _ _ s Hin Hn). reflexivity.
Qed.

(** *** An agent without [_fetch_data] *)

Lemma no_fetch_history (api_agent : api_object) (symbol : string) :
  (forall key, api_agent <> AlphaVantageAgent key) ->
  history_of api_agent symbol = [].
Proof.
  intros Hno. unfold history, _get_historical_data, call_fetch_data.
  destruct api_agent as [key | k |]; [| reflexivity | reflexivity].
  exfalso. exact (Hno key eq_refl).
Qed.

(** *** Prices that are numbers *)

Lemma dict_set_lift {V W : Type} (g : V -> W) (d : dict V) (k : string)
  (v : V) :
  map (fun kv => (fst kv, g (snd kv))) (dict_set d k v)
  = dict_set (map (fun kv => (fst kv, g (snd kv))) d) k (g v).
Proof.
  induction d as [| [k0 v0] t IH]; simpl; [reflexivity |].
  destruct (String.eqb k0 k); simpl; [reflexivity |]. rewrite IH. reflexivity.
Qed.

Lemma dict_get_lift {V W : Type} (g : V -> W) (d : dict V) (k : string) :
  dict_get (map (fun kv => (fst kv, g (snd kv))) d) k
  = option_map g (dict_get d k).
Proof.
  induction d as [| [k0 v0] t IH]; simpl; [reflexivity |].
  destruct (String.eqb k0 k); [reflexivity | exact IH].
Qed.

Lemma latest_prices_lift (api_agent : api_object) (l : list string)
  (d0 : dict (option float64)) :
  (forall s, In s l ->
     latest_price_of api_agent s = Ok None
     \/ exists x, latest_price_of api_agent s = Ok (Some (PyNumber x))) ->
  fold_left (fun acc k => d <- acc ;; v <- latest_price_of api_agent k ;;
                          Ok (dict_set d k v))
            l (Ok (map (fun kv => (fst kv, option_map PyNumber (snd kv))) d0))
  = Ok (map (fun kv => (fst kv, option_map PyNumber (snd kv)))
            (fold_left
               (fun d symbol =>
                  dict_set d symbol
                    (numeric_price requests_get read_time_series to_datetime
                                   plain_frame api_agent symbol))
               l d0)).
Proof.
  revert d0. induction l as [| a t IH]; intros d0 H; simpl; [reflexivity |].
  assert (Ha : latest_price_of api_agent a
               = Ok (option_map PyNumber
                       (numeric_price requests_get read_time_series
                          to_datetime plain_frame api_agent a))).
  { unfold numeric_price.
    destruct (H a (or_introl eq_refl)) as [-> | [x ->]]; reflexivity. }
  rewrite Ha. cbn [bind]. rewrite <- dict_set_lift.
  apply IH. intros s Hs. apply H. right. exact Hs.
Qed.

Lemma price_change_step_lift (latest : dict (option float64))
  (previous : dict (option float64)) (acc : res (Series string))
  (s : string) :
  Provider.price_change_step other_change
    (map (fun kv => (fst kv, option_map PyNumber (snd kv))) latest)
    previous acc s
  = Analysis.price_change_step latest previous acc s.
Proof.
  unfold Provider.price_change_step, Analysis.price_change_step, dict_item.
  destruct acc as [pc | e]; [| reflexivity]. cbn [bind].
  rewrite dict_get_lift.
  destruct (dict_get latest s) as [[l |] |]; cbn [option_map bind];
    [| | reflexivity];
    destruct (dict_get previous s) as [[p |] |]; reflexivity.
Qed.

(** Where the price of every symbol with data is a number, or is missing,
    the analysis on the provider is the analysis of an agent whose quotes
    are these numbers. *)
Lemma numeric_prices_agree (api_agent : api_object)
  (stock_list : list string) (allocation_data : DataFrame string) :
  (forall s, In s (retained (history_of api_agent) stock_list) ->
     latest_price_of api_agent s = Ok None
     \/ exists x, latest_price_of api_agent s = Ok (Some (PyNumber x))) ->
  analyze api_agent stock_list allocation_data
  = Analysis.analyze_risk_exposure
      (history_of api_agent)
      (numeric_price requests_get read_time_series to_datetime plain_frame
                     api_agent)
      pad stock_list allocation_data.
Proof.
  intros Hnum.
  unfold Provider.analyze_risk_exposure, Analysis.analyze_risk_exposure.
  unfold Provider.risk_exposure, Analysis.risk_exposure.
  rewrite AnalysisFacts.scan_history_retained.
  destruct (retained (history_of api_agent) stock_list) as [| s0 rest];
    [reflexivity |].
  destruct (close_table _ _) as [data | e]; [| reflexivity]. cbn [bind].
  destruct (loc allocation_data (s0 :: rest)) as [w | e]; [| reflexivity].
  cbn [bind].
  destruct (mul_ndarray _ _ _) as [weighted | e]; [| reflexivity].
  cbn [bind].
  pose proof (latest_prices_lift api_agent (s0 :: rest) [] Hnum) as HL.
  cbn [map] in HL. unfold dict_comprehension. rewrite HL. cbn [bind].
  unfold Provider.price_change_of, Analysis.price_change_of,
         Analysis.latest_prices_of.
  rewrite (fold_left_ext_eq _ _ _ _ (price_change_step_lift _ _)).
  reflexivity.
Qed.



End Agent.

Import Examples.

(** The daily series of the small service. *)
Lemma second_key_always_found_witness :
  _fetch_data sample_requests sample_series sample_to_datetime sample_plain
              "TIME_SERIES_DAILY" "AAPL"
  <> Failed (KeyMissing "Time Series (Daily)").
Proof.
  apply (second_key_always_found sample_requests sample_series
           sample_to_datetime sample_plain "TIME_SERIES_DAILY" "AAPL"
           "Time Series (Daily)").
  left. reflexivity.
Defined.

(** Two symbols asked of a service that does not answer. *)
Lemma stale_provider_gives_error_record_witness :
  Provider.analyze_risk_exposure silent_requests sample_series
    sample_to_datetime sample_plain (AlphaVantageAgent "key") sample_clock
    true sample_other ["AAPL"; "TSMC"] demo_allocation
  = ErrorRecord no_data_message.
Proof.
  apply (stale_provider_gives_error_record silent_requests sample_series
           sample_to_datetime sample_plain sample_clock true sample_other
           "key" ["AAPL"; "TSMC"] demo_allocation).
  intros s _. left. reflexivity.
Defined.

(** The small service: three fresh closes for the symbol, and a quote
    whose price is the string 150.2500. *)
Lemma string_price_gives_empty_dict_witness :
  Provider.analyze_risk_exposure sample_requests sample_series
    sample_to_datetime sample_plain (AlphaVantageAgent "key") sample_clock
    true sample_other ["A"] doubling_allocation
  = EmptyDict.
Proof.
  apply (string_price_gives_empty_dict sample_requests sample_series
           sample_to_datetime sample_plain sample_clock true sample_other
           "key" ["A"] doubling_allocation "A" "150.2500").
  - apply filter_In. split; [left; reflexivity | vm_compute; reflexivity].
  - exists [("Global Quote",
             JObject [("01. symbol", JString "A");
                      ("05. price", JString "150.2500");
                      ("07. latest trading day", JString "2024-01-02")])],
           [("01. symbol", JString "A");
            ("05. price", JString "150.2500");
            ("07. latest trading day", JString "2024-01-02")],
           ("07. latest trading day", JString "2024-01-02"),
           "05. price".
    repeat split; reflexivity.
Defined.

End ProviderFacts.

(** ** [src/api_agent.py] *)

Module ApiFacts.

Import Api DictFacts.

Local Open Scope string_scope.

Section Agent.

Variable frame : Type.
Variable empty_frame : frame.
Variable fetch_block : string -> string -> raised + frame.

Lemma fetch_data_status (function symbol : string) (e : HTTPException) :
  _fetch_data fetch_block function symbol = inl e -> status_code e = 500%Z.
Proof.
  unfold _fetch_data.
  destruct (fetch_block function symbol) as [[t | t | t | t] | df];
    intros H; inversion H; reflexivity.
Qed.

(** [get_historical_data] answers with status 400 exactly for an interval
    other than 1d, 1wk and 1mo, and then with the message that names the
    interval; for each of the three it is the fetch of the daily, weekly or
    monthly series, whose failures all carry status 500. *)
Theorem status_400_iff_unsupported_interval (symbol interval period : string) :
  (~ In interval supported_intervals ->
   get_historical_data fetch_block symbol interval period
   = inl (mkHTTPException 400%Z (unsupported_message interval)))
  /\ (In interval supported_intervals ->
      exists function,
        In (interval, function)
           [("1d", "TIME_SERIES_DAILY"); ("1wk", "TIME_SERIES_WEEKLY");
            ("1mo", "TIME_SERIES_MONTHLY")]
        /\ get_historical_data fetch_block symbol interval period
           = _fetch_data fetch_block function symbol)
  /\ (forall e,
        get_historical_data fetch_block symbol interval period = inl e ->
        (status_code e = 400%Z <-> ~ In interval supported_intervals)
        /\ (status_code e = 500%Z <-> In interval supported_intervals)).
Proof.
  unfold get_historical_data.
  destruct (existsb (String.eqb interval) supported_intervals) eqn:Hs.
  - assert (Hin : In interval supported_intervals).
    { apply existsb_exists in Hs. destruct Hs as [x [Hx Hxe]].
      apply String.eqb_eq in Hxe. subst x. exact Hx. }
    cbn [negb]. split; [intros Hn; contradiction |]. split.
    + intros _. simpl in Hin.
      destruct Hin as [<- | [<- | [<- | []]]]; eexists; (split; [| reflexivity]);
        simpl; auto.
    + intros e He. apply fetch_data_status in He. rewrite He. split.
      * split; [discriminate | intros Hn; contradiction].
      * split; [intros _; exact Hin | reflexivity].
  - assert (Hout : ~ In interval supported_intervals).
    { intros Hin.
      assert (Ht : existsb (String.eqb interval) supported_intervals = true)
        by (apply existsb_exists; exists interval;
            split; [exact Hin | apply String.eqb_refl]).
      congruence. }
    cbn [negb]. split; [reflexivity |]. split; [intros Hin; contradiction |].
    intros e He. inversion He. cbn [status_code]. split.
    + split; [intros _; exact Hout | reflexivity].
    + split; [discriminate | intros Hin; contradiction].
Qed.

(** [get_stock_prices] never raises and answers with one entry for each
    symbol asked for and no other: the quote table of the symbol, or the
    empty table when its fetch failed. *)
Theorem stock_prices_one_entry_per_symbol (symbols : list string) (s : string) :
  dict_get (get_stock_prices empty_frame fetch_block symbols) s
  = if existsb (String.eqb s) symbols
    then Some (quote_or_empty empty_frame fetch_block s)
    else None.
Proof.
  unfold get_stock_prices.
  rewrite (ProviderFacts.fold_left_ext_eq _
             (fun results symbol =>
                dict_set results symbol
                         (quote_or_empty empty_frame fetch_block symbol))).
  - apply (ProviderFacts.dict_get_fold_set
             (quote_or_empty empty_frame fetch_block) symbols [] s).
  - intros results symbol. unfold quote_or_empty.
    destruct (_fetch_data fetch_block "GLOBAL_QUOTE" symbol); reflexivity.
Qed.

End Agent.

End ApiFacts.

(** ** [src/orchestrator.py] *)

Module OrchestratorFacts.

Import Orchestrator.

Local Open Scope string_scope.

Section Orchestrator.

Variable value : Type.
Variable of_string : string -> value.
Variable of_list : list value -> value.
Variable invoke : class -> string -> list value -> value.

(** Whatever the query, [handle_query] ends with an AttributeError and
    returns no response: each of its three ways calls a method that the
    class of the agent does not have. *)
Theorem handle_query_never_answers (query : string) :
  handle_query of_string of_list invoke query
  = inl (if contains "market data" query
         then AttributeError AlphaVantageAgent "get_market_data"
         else if contains "filings" query
              then AttributeError BaseRetriever "get_relevant_filings"
              else AttributeError VoiceAgent "tts").
Proof.
  unfold handle_query.
  destruct (contains "market data" query); [reflexivity |].
  destruct (contains "filings" query); reflexivity.
Qed.

Variable whisper_installed pyttsx3_installed : bool.
Variable load_model_returns pyttsx3_init_returns : bool.
Variable alpha_vantage_api_key : option string.

(** On no machine does [Orchestrator()] return an orchestrator: when the
    voice agent and the API agent can be built, the call [LanguageAgent()]
    of line 23 lacks the argument [llm] and raises TypeError. *)
Theorem orchestrator_never_built :
  exists e,
    Orchestrator_init whisper_installed pyttsx3_installed load_model_returns
                      pyttsx3_init_returns alpha_vantage_api_key
    = inl e
    /\ (e = TypeError LanguageAgent
        \/ (exists msg, e = ImportError msg)
        \/ (exists msg, e = ValueError msg)
        \/ e = LibraryError).
Proof.
  unfold Orchestrator_init, construct, VoiceAgent_init, AlphaVantageAgent_init.
  cbn [required_arguments Nat.ltb Nat.leb then_].
  destruct whisper_installed; cbn [negb then_];
    [| eexists; split; [reflexivity | right; left; eexists; reflexivity]].
  destruct pyttsx3_installed; cbn [negb then_];
    [| eexists; split; [reflexivity | right; left; eexists; reflexivity]].
  destruct load_model_returns; cbn [negb then_];
    [| eexists; split; [reflexivity | right; right; right; reflexivity]].
  destruct pyttsx3_init_returns; cbn [negb then_];
    [| eexists; split; [reflexivity | right; right; right; reflexivity]].
  destruct alpha_vantage_api_key as [[| c k] |]; cbn [then_];
    eexists; (split; [reflexivity |]);
    first [ left; reflexivity | right; right; left; eexists; reflexivity ].
Qed.

End Orchestrator.

Section AnalysisAgent.

Import Analysis Provider.

Variable requests_get : string -> string -> answer.
Variable read_time_series : json -> option (list (Z * list float64)).
Variable to_datetime : json -> bool.
Variable plain_frame : dict json -> fetched frame.
Variable clock : string -> Z.
Variable pad : bool.
Variable other_change : string -> float64 -> res float64.

(** The analysis agent of line 21 is given the API key where an API agent
    is expected.  Every fetch of its [_get_historical_data] ends in an
    AttributeError that the method swallows, every symbol is dropped, and
    [analyze_risk_exposure] answers every list of symbols and every
    allocation table with the error record of line 99. *)
Theorem key_as_agent_gives_error_record (alpha_vantage_api_key : option string)
  (stock_list : list string) (allocation_data : DataFrame string) :
  Provider.analyze_risk_exposure requests_get read_time_series to_datetime
    plain_frame (analysis_api_agent alpha_vantage_api_key) clock pad
    other_change stock_list allocation_data
  = ErrorRecord no_data_message.
Proof.
  unfold Provider.analyze_risk_exposure, Provider.risk_exposure.
  rewrite AnalysisFacts.scan_history_retained.
  match goal with
  | |- context [retained ?h stock_list] =>
      replace (retained h stock_list) with (@nil string); [reflexivity |]
  end.
  symmetry. apply AnalysisFacts.retained_nil. intros s _.
  apply ProviderFacts.no_fetch_history.
  intros key. unfold analysis_api_agent.
  destruct alpha_vantage_api_key; discriminate.
Qed.

End AnalysisAgent.

End OrchestratorFacts.
